(** * My_Expense_Tracker: the record store, the budget allocator and the
    summary of [expense_tracker.py], embedded in Rocq.

    Conventions of the embedding.
    - A Python [str] is a list of Unicode code points ([char := N]); the
      category labels carry their emoji as code points.
    - A Python [float] amount is an exact rational ([Q]): the rounding of
      binary64 arithmetic is not modelled, and [float()] and the [.2f]
      format are modelled on decimal numerals of ASCII digits.  The floats
      that are not finite ([inf], [nan]) have no counterpart in [Q]: the
      functions that receive them from [float()], the budget prompts with
      the allocator and the loop of [load_expenses], are embedded a second
      time over floats that include them, in module [NonFinite].
    - The expense file is [option str]: [None] when the file does not exist,
      its text otherwise.  Opening, decoding and writing never fail here.
    - [datetime.datetime.now()] reads a clock, a sequence of readings
      indexed by the number of readings made so far.
    - [print] is modelled only where a claim speaks of a message: the
      warnings of [load_expenses] and the messages of [delete_expense].
    - [strptime] is the regular expression [_strptime] builds for the
      format, on ASCII digits, followed by the checks of the constructor
      of [datetime]. *)

From Stdlib Require Import String Ascii.
From Stdlib Require Import DecimalPos DecimalN.
From Stdlib Require Import List ZArith NArith QArith Bool Lia Lqa.
Import ListNotations.

Open Scope Z_scope.

(* ================================================================= *)
(** ** Python strings *)

Module PyStr.

Definition char := N.
Definition str := list char.

(** An ASCII literal as a [str]. *)
Fixpoint lit (s : string) : str :=
  match s with
  | EmptyString => []
  | String a r => N_of_ascii a :: lit r
  end.

Fixpoint eqb (a b : str) : bool :=
  match a, b with
  | [], [] => true
  | x :: a', y :: b' => N.eqb x y && eqb a' b'
  | _, _ => false
  end.

Definition COMMA : char := 44%N.
Definition LF : char := 10%N.
Definition CR : char := 13%N.

(** [str.isspace] on one code point: the characters that [str.strip], [int],
    [float] and the regular expression class [\s] treat as white space. *)
Definition isspace (c : char) : bool :=
  ((9 <=? c) && (c <=? 13) || (28 <=? c) && (c <=? 32)
   || (c =? 0x85) || (c =? 0xA0) || (c =? 0x1680)
   || (0x2000 <=? c) && (c <=? 0x200A)
   || (c =? 0x2028) || (c =? 0x2029) || (c =? 0x202F)
   || (c =? 0x205F) || (c =? 0x3000))%N.

Fixpoint lstrip (s : str) : str :=
  match s with
  | c :: r => if isspace c then lstrip r else s
  | [] => []
  end.

Fixpoint rstrip (s : str) : str :=
  match s with
  | c :: r =>
      match rstrip r with
      | [] => if isspace c then [] else [c]
      | r' => c :: r'
      end
  | [] => []
  end.

(** [s.strip()] *)
Definition strip (s : str) : str := rstrip (lstrip s).

(** [s.split(",")]: never empty, one more field than there are commas. *)
Fixpoint split (s : str) : list str :=
  match s with
  | [] => [[]]
  | c :: r =>
      if (c =? COMMA)%N then [] :: split r
      else match split r with
           | f :: fs => (c :: f) :: fs
           | [] => [[c]]
           end
  end.

(** [s.lower() == 'c'] *)
Definition lower_is_c (s : str) : bool :=
  match s with
  | [c] => ((c =? 99) || (c =? 67))%N
  | _ => false
  end.

(** [f.readlines()] of a file opened in text mode with the default
    [newline=None]: a line ends at LF, CR or CR LF, each handed over as LF;
    the line keeps its terminator; a last line without one is kept. *)
Fixpoint readlines (s : str) : list str :=
  match s with
  | [] => []
  | c :: r =>
      if (c =? LF)%N then [LF] :: readlines r
      else if (c =? CR)%N then
        match r with
        | c' :: _ => if (c' =? LF)%N then readlines r else [LF] :: readlines r
        | [] => [[LF]]
        end
      else match readlines r with
           | l :: ls => (c :: l) :: ls
           | [] => [[c]]
           end
  end.

End PyStr.
Import PyStr.


(* ================================================================= *)
(** ** Decimal numerals: [int()], [float()] and the [.2f] format *)

Module PyNum.

Definition MINUS : char := 45%N.
Definition PLUS : char := 43%N.
Definition DOT : char := 46%N.
Definition UNDERSCORE : char := 95%N.

Definition isdigit (c : char) : bool := ((48 <=? c) && (c <=? 57))%N.

(** The digit [d] (0..9) as a character. *)
Definition digit_chr (d : Z) : char := (48 + Z.to_N d)%N.

(** A digit character as the constructor of [Decimal.uint] it stands for. *)
Definition digit_of (c : char) : option (Decimal.uint -> Decimal.uint) :=
  if (c =? 48)%N then Some Decimal.D0 else
  if (c =? 49)%N then Some Decimal.D1 else
  if (c =? 50)%N then Some Decimal.D2 else
  if (c =? 51)%N then Some Decimal.D3 else
  if (c =? 52)%N then Some Decimal.D4 else
  if (c =? 53)%N then Some Decimal.D5 else
  if (c =? 54)%N then Some Decimal.D6 else
  if (c =? 55)%N then Some Decimal.D7 else
  if (c =? 56)%N then Some Decimal.D8 else
  if (c =? 57)%N then Some Decimal.D9 else None.

Fixpoint uint_chars (u : Decimal.uint) : str :=
  match u with
  | Decimal.Nil => []
  | Decimal.D0 u => 48%N :: uint_chars u
  | Decimal.D1 u => 49%N :: uint_chars u
  | Decimal.D2 u => 50%N :: uint_chars u
  | Decimal.D3 u => 51%N :: uint_chars u
  | Decimal.D4 u => 52%N :: uint_chars u
  | Decimal.D5 u => 53%N :: uint_chars u
  | Decimal.D6 u => 54%N :: uint_chars u
  | Decimal.D7 u => 55%N :: uint_chars u
  | Decimal.D8 u => 56%N :: uint_chars u
  | Decimal.D9 u => 57%N :: uint_chars u
  end.

(** The decimal numeral of a natural number, without leading zeros. *)
Definition dec (n : Z) : str := uint_chars (N.to_uint (Z.to_N n)).

(** Two and four digits, zero padded ([%02d], [%04d]). *)
Definition pad2 (n : Z) : str := [digit_chr (n / 10); digit_chr (n mod 10)].
Definition pad4 (n : Z) : str :=
  [digit_chr (n / 1000); digit_chr (n / 100 mod 10);
   digit_chr (n / 10 mod 10); digit_chr (n mod 10)].

(** The longest prefix [digit (["_"] digit)*] of [s], possibly empty, and
    what follows it. *)
Fixpoint scan_digits (s : str) : Decimal.uint * str :=
  match s with
  | c :: r =>
      match digit_of c with
      | Some d =>
          let '(u, r') :=
            match r with
            | c1 :: r1 =>
                if (c1 =? UNDERSCORE)%N then
                  match r1 with
                  | c2 :: _ => if isdigit c2 then scan_digits r1
                               else (Decimal.Nil, r)
                  | [] => (Decimal.Nil, r)
                  end
                else scan_digits r
            | [] => (Decimal.Nil, [])
            end in
          (d u, r')
      | None => (Decimal.Nil, s)
      end
  | [] => (Decimal.Nil, [])
  end.

Definition is_nil (u : Decimal.uint) : bool :=
  match u with Decimal.Nil => true | _ => false end.

(** An optional sign: whether it was a minus, and what follows. *)
Definition scan_sign (s : str) : bool * str :=
  match s with
  | c :: r => if (c =? MINUS)%N then (true, r)
              else if (c =? PLUS)%N then (false, r) else (false, s)
  | [] => (false, [])
  end.

Definition uint_val (u : Decimal.uint) : Z := Z.of_N (N.of_uint u).

(** [int(s)]; [None] stands for [ValueError]. *)
Definition int_of_str (s : str) : option Z :=
  let '(neg, s1) := scan_sign (strip s) in
  match scan_digits s1 with
  | (u, []) =>
      if is_nil u then None
      else Some (if neg then - uint_val u else uint_val u)
  | _ => None
  end.

Definition pow10 (k : nat) : positive := Nat.iter k (Pos.mul 10) 1%positive.

(** The exponent part [("e"|"E") ["+"|"-"] digits], when there is one. *)
Definition scan_exponent (s : str) : option (option Z * str) :=
  match s with
  | c :: r =>
      if ((c =? 101) || (c =? 69))%N then
        let '(neg, r1) := scan_sign r in
        let '(u, r2) := scan_digits r1 in
        if is_nil u then None
        else Some (Some (if neg then - uint_val u else uint_val u), r2)
      else Some (None, s)
  | [] => Some (None, [])
  end.

(** [float(s)] on decimal numerals; [None] stands for [ValueError].  A
    numeral without exponent is returned as its digits over a power of
    ten. *)
Definition float_of_str (s : str) : option Q :=
  let '(neg, s1) := scan_sign (strip s) in
  let '(i, s2) := scan_digits s1 in
  let '(f, s3) :=
    match s2 with
    | c :: r => if (c =? DOT)%N then scan_digits r else (Decimal.Nil, s2)
    | [] => (Decimal.Nil, [])
    end in
  if is_nil i && is_nil f then None
  else
    match scan_exponent s3 with
    | Some (e, []) =>
        let k := Decimal.nb_digits f in
        let m := uint_val i * Zpos (pow10 k) + uint_val f in
        let q := Qmake (if neg then - m else m) (pow10 k) in
        Some match e with
             | None => q
             | Some (Zpos p) => (q * inject_Z (Zpos (pow10 (Pos.to_nat p))))%Q
             | Some (Zneg p) => (q / inject_Z (Zpos (pow10 (Pos.to_nat p))))%Q
             | Some Z0 => q
             end
    | _ => None
    end.

(** Rounding to the nearest integer, ties to the even one. *)
Definition round_half_even (q : Q) : Z :=
  let n := Qnum q in
  let d := Zpos (Qden q) in
  let fl := n / d in
  match (2 * (n mod d)) ?= d with
  | Lt => fl
  | Gt => fl + 1
  | Eq => if Z.even fl then fl else fl + 1
  end.

(** The amount in hundredths, as [.2f] rounds it. *)
Definition cents (q : Q) : Z := round_half_even (q * 100)%Q.

(** The amount rounded to 2 decimals. *)
Definition round2 (q : Q) : Q := Qmake (cents q) 100.

(** [f"{q:.2f}"] *)
Definition format_2f (q : Q) : str :=
  let c := Z.abs (cents q) in
  (if Qnum q <? 0 then [MINUS] else [])
    ++ dec (c / 100) ++ [DOT] ++ pad2 (c mod 100).

(** [int(x)] of a float: truncation towards zero. *)
Definition int_of_float (q : Q) : Z := Z.quot (Qnum q) (Zpos (Qden q)).

End PyNum.
Import PyNum.

(* ================================================================= *)
(** ** [datetime] and [calendar] *)

Module PyTime.

Record datetime := mkDatetime {
  year : Z; month : Z; day : Z; hour : Z; minute : Z; second : Z
}.

Definition isleap (y : Z) : bool :=
  (y mod 4 =? 0) && (negb (y mod 100 =? 0) || (y mod 400 =? 0)).

(** [calendar.mdays] *)
Definition mdays : list Z := [0; 31; 28; 31; 30; 31; 30; 31; 31; 30; 31; 30; 31].

(** [calendar.monthrange(y, m)[1]]; [None] stands for [IllegalMonthError]. *)
Definition monthrange_days (y m : Z) : option Z :=
  if (1 <=? m) && (m <=? 12) then
    Some (nth (Z.to_nat m) mdays 0 + (if (m =? 2) && isleap y then 1 else 0))
  else None.

(** What the constructor of [datetime] accepts ([MINYEAR = 1],
    [MAXYEAR = 9999]). *)
Definition valid_datetimeb (d : datetime) : bool :=
  (1 <=? year d) && (year d <=? 9999) &&
  match monthrange_days (year d) (month d) with
  | Some n => (1 <=? day d) && (day d <=? n)
  | None => false
  end &&
  (0 <=? hour d) && (hour d <=? 23) &&
  (0 <=? minute d) && (minute d <=? 59) &&
  (0 <=? second d) && (second d <=? 59).

Definition valid_datetime (d : datetime) : Prop := valid_datetimeb d = true.

Definition HYPHEN : char := 45%N.
Definition COLON : char := 58%N.
Definition SPACE : char := 32%N.

(** [d.strftime("%Y-%m-%d %H:%M:%S")]: the year is written on four digits,
    as it is for every year from 1000 on. *)
Definition strftime (d : datetime) : str :=
  pad4 (year d) ++ [HYPHEN] ++ pad2 (month d) ++ [HYPHEN] ++ pad2 (day d)
    ++ [SPACE] ++ pad2 (hour d) ++ [COLON] ++ pad2 (minute d)
    ++ [COLON] ++ pad2 (second d).

(** *** The regular expression of [strptime]

    [_strptime] turns the format into a regular expression and takes the
    first match from the start of the string, in the order a backtracking
    matcher tries the alternatives.  A directive is a list of
    alternatives, an alternative a sequence of character classes. *)

Definition cls := char -> bool.

Definition range (lo hi : N) : cls := fun c => ((lo <=? c) && (c <=? hi))%N.
Definition one (x : N) : cls := fun c => (c =? x)%N.

(** [\d\d\d\d] *)
Definition re_Y : list (list cls) := [[isdigit; isdigit; isdigit; isdigit]].
(** [1[0-2]|0[1-9]|[1-9]] *)
Definition re_m : list (list cls) :=
  [[one 49; range 48 50]; [one 48; range 49 57]; [range 49 57]].
(** [3[0-1]|[1-2]\d|0[1-9]|[1-9]| [1-9]] *)
Definition re_d : list (list cls) :=
  [[one 51; range 48 49]; [range 49 50; isdigit]; [one 48; range 49 57];
   [range 49 57]; [one 32; range 49 57]].
(** [2[0-3]|[0-1]\d|\d] *)
Definition re_H : list (list cls) :=
  [[one 50; range 48 51]; [range 48 49; isdigit]; [isdigit]].
(** [[0-5]\d|\d] *)
Definition re_M : list (list cls) := [[range 48 53; isdigit]; [isdigit]].
(** [6[0-1]|[0-5]\d|\d] *)
Definition re_S : list (list cls) :=
  [[one 54; range 48 49]; [range 48 53; isdigit]; [isdigit]].

(** One alternative against the start of [s]: the text it takes and the
    rest. *)
Fixpoint match_seq (ps : list cls) (s : str) : option (str * str) :=
  match ps with
  | [] => Some ([], s)
  | p :: ps' =>
      match s with
      | c :: r =>
          if p c then
            match match_seq ps' r with
            | Some (cap, rest) => Some (c :: cap, rest)
            | None => None
            end
          else None
      | [] => None
      end
  end.

Section Matcher.
Context {A : Type}.

(** A group of alternatives followed by the continuation [k]: the first
    alternative after which the remainder of the expression matches. *)
Fixpoint match_alts (alts : list (list cls)) (s : str)
    (k : str -> str -> option A) : option A :=
  match alts with
  | [] => None
  | a :: more =>
      match
        match match_seq a s with
        | Some (cap, rest) => k cap rest
        | None => None
        end
      with
      | Some x => Some x
      | None => match_alts more s k
      end
  end.

Definition match_lit (x : char) (s : str) (k : str -> option A) : option A :=
  match s with
  | c :: r => if (c =? x)%N then k r else None
  | [] => None
  end.

(** [\s+], greedy. *)
Fixpoint match_spaces (s : str) (k : str -> option A) : option A :=
  match s with
  | c :: r =>
      if isspace c then
        match match_spaces r k with
        | Some x => Some x
        | None => k r
        end
      else None
  | [] => None
  end.
End Matcher.

(** The groups Y, m, d, H, M, S of the first match of
    [(\d\d\d\d)-(m)-(d)\s+(H):(M):(S)], and the text left after it. *)
Definition match_format (s : str)
  : option (str * str * str * str * str * str * str) :=
  match_alts re_Y s (fun gY s =>
  match_lit HYPHEN s (fun s =>
  match_alts re_m s (fun gm s =>
  match_lit HYPHEN s (fun s =>
  match_alts re_d s (fun gd s =>
  match_spaces s (fun s =>
  match_alts re_H s (fun gH s =>
  match_lit COLON s (fun s =>
  match_alts re_M s (fun gM s =>
  match_lit COLON s (fun s =>
  match_alts re_S s (fun gS s =>
  Some (gY, gm, gd, gH, gM, gS, s)))))))))))).

(** [datetime.datetime.strptime(s, "%Y-%m-%d %H:%M:%S")]; [None] stands
    for [ValueError]: no match, text left over after the match, or fields
    the constructor of [datetime] refuses. *)
Definition strptime (s : str) : option datetime :=
  match match_format s with
  | Some (gY, gm, gd, gH, gM, gS, []) =>
      match int_of_str gY, int_of_str gm, int_of_str gd,
            int_of_str gH, int_of_str gM, int_of_str gS with
      | Some y, Some m, Some d, Some hh, Some mm, Some ss =>
          let dt := mkDatetime y m d hh mm ss in
          if valid_datetimeb dt then Some dt else None
      | _, _, _, _, _, _ => None
      end
  | _ => None
  end.

(** A clock: the successive readings of [datetime.datetime.now()]. *)
Definition clock := nat -> datetime.

End PyTime.
Import PyTime.

(* ================================================================= *)
(** ** The expense tracker *)

Module Tracker.

(** *** Constants *)

Definition CORE_CATEGORIES : list str :=
  [ 0x1F354%N :: lit " Food";
    0x1F3E0%N :: lit " Home";
    0x1F4BC%N :: lit " Work";
    0x1F389%N :: lit " Fun";
    0x2728%N :: lit " Misc" ].
Definition SAVINGS_CATEGORY : str := 0x1F4B0%N :: lit " Savings".
Definition SAVINGS_USE_CATEGORY : str := 0x274C%N :: lit " Savings_Use".

(** *** [class Expense] *)

Record Expense := mkExpense {
  name : str;
  category : str;
  amount : Q;
  timestamp : str
}.

(** [Expense.__init__]: an absent or empty time stamp is replaced by a
    reading of the clock; [t] counts the readings made so far. *)
Definition Expense_init (name category : str) (amount : Q)
    (timestamp : option str) (clk : clock) (t : nat) : Expense * nat :=
  match timestamp with
  | Some (c :: ts) => (mkExpense name category amount (c :: ts), t)
  | _ => (mkExpense name category amount (strftime (clk t)), S t)
  end.

(** *** What the program prints, where claims speak of it *)

Inductive message :=
| InfoFileNotFound
| WarnMalformedAmount (line : str)
| WarnTooFewFields (line : str)
| NoExpensesToDelete
| DeletionCancelled
| Deleted (name : str)
| InvalidNumber
| InvalidInput.

(** *** The record store *)

(** The body of the loop of [load_expenses] on one line of the file: the
    records it appends, what it prints and the clock. *)
Definition load_line (clk : clock) (t : nat) (line : str)
  : list Expense * list message * nat :=
  let line := strip line in
  match line with
  | [] => ([], [], t)
  | _ :: _ =>
      match split line with
      | expense_name :: expense_amount_str :: expense_category :: rest =>
          let timestamp := match rest with ts :: _ => Some ts | [] => None end in
          match float_of_str expense_amount_str with
          | Some a =>
              let '(e, t') :=
                Expense_init expense_name expense_category a timestamp clk t in
              ([e], [], t')
          | None => ([], [WarnMalformedAmount line], t)
          end
      | _ => ([], [WarnTooFewFields line], t)
      end
  end.

Fixpoint load_lines (clk : clock) (t : nat) (lines : list str)
  : list Expense * list message * nat :=
  match lines with
  | [] => ([], [], t)
  | line :: more =>
      let '(es1, log1, t1) := load_line clk t line in
      let '(es2, log2, t2) := load_lines clk t1 more in
      (es1 ++ es2, log1 ++ log2, t2)
  end.

(** [load_expenses]: the file is [None] when it does not exist. *)
Definition load_expenses (file : option str) (clk : clock) (t : nat)
  : list Expense * list message * nat :=
  match file with
  | None => ([], [InfoFileNotFound], t)
  | Some text => load_lines clk t (readlines text)
  end.

(** The line written for one record. *)
Definition expense_line (e : Expense) : str :=
  name e ++ [COMMA] ++ format_2f (amount e) ++ [COMMA] ++ category e
    ++ [COMMA] ++ timestamp e ++ [LF].

(** [save_all_expenses]: the text of the file after the write. *)
Definition save_all_expenses (expenses : list Expense) : str :=
  concat (map expense_line expenses).

(** [save_new_expense]: append mode creates the file when it is missing. *)
Definition save_new_expense (e : Expense) (file : option str) : str :=
  match file with
  | None => expense_line e
  | Some text => text ++ expense_line e
  end.

(** [l.pop(i)] for an index within the list: the list that remains. *)
Definition pop (i : nat) (l : list Expense) : list Expense :=
  firstn i l ++ skipn (S i) l.

(** How [delete_expense] ends: it returns, or [input()] has nothing left to
    read. *)
Inductive ending := Returned | InputExhausted.

(** The [while True] loop of [delete_expense] over the lines the user
    types: the file afterwards, what is printed, how it ends. *)
Fixpoint delete_loop (all_expenses : list Expense) (file : option str)
    (inputs : list str) : option str * list message * ending :=
  match inputs with
  | [] => (file, [], InputExhausted)
  | selection :: more =>
      if lower_is_c selection then (file, [DeletionCancelled], Returned)
      else
        match int_of_str selection with
        | Some n =>
            let index_to_delete := n - 1 in
            if (0 <=? index_to_delete)
               && (index_to_delete <? Z.of_nat (length all_expenses)) then
              let i := Z.to_nat index_to_delete in
              let deleted := map name (firstn 1 (skipn i all_expenses)) in
              (Some (save_all_expenses (pop i all_expenses)),
               map Deleted deleted, Returned)
            else
              let '(f, log, e) := delete_loop all_expenses file more in
              (f, InvalidNumber :: log, e)
        | None =>
            let '(f, log, e) := delete_loop all_expenses file more in
            (f, InvalidInput :: log, e)
        end
  end.

Definition delete_expense (file : option str) (inputs : list str)
    (clk : clock) (t : nat) : option str * list message * ending :=
  let '(all_expenses, log0, _) := load_expenses file clk t in
  match all_expenses with
  | [] => (file, log0 ++ [NoExpensesToDelete], Returned)
  | _ :: _ =>
      let '(f, log, e) := delete_loop all_expenses file inputs in
      (f, log0 ++ log, e)
  end.

(** *** Budgets: a [dict] from category to amount, in insertion order *)

Definition dict := list (str * Q).

Fixpoint dict_get (d : dict) (k : str) : option Q :=
  match d with
  | [] => None
  | (k', v) :: r => if PyStr.eqb k' k then Some v else dict_get r k
  end.

(** [d[k] = v]: an existing key keeps its place. *)
Fixpoint dict_set (d : dict) (k : str) (v : Q) : dict :=
  match d with
  | [] => [(k, v)]
  | (k', v') :: r =>
      if PyStr.eqb k' k then (k', v) :: r else (k', v') :: dict_set r k v
  end.

Definition keys (d : dict) : list str := map fst d.
Definition values (d : dict) : list Q := map snd d.

(** [sum(xs)] *)
Definition sum (xs : list Q) : Q := fold_left Qplus xs 0%Q.

Definition Qltb (a b : Q) : bool := negb (Qle_bool b a).

(** The end of [get_total_money_and_calculate_budgets], once the two
    amounts are read. *)
Definition calculate_budgets (total_money savings_goal : Q) : dict :=
  let remaining_for_spending := (total_money - savings_goal)%Q in
  let num_spending_categories := Z.of_nat (length CORE_CATEGORIES) in
  let spending_budget_per_cat :=
    if Qltb remaining_for_spending 0 then 0%Q
    else (remaining_for_spending / inject_Z num_spending_categories)%Q in
  fold_left (fun d cat => dict_set d cat spending_budget_per_cat)
    CORE_CATEGORIES [(SAVINGS_CATEGORY, savings_goal)].

(** The first loop: lines are read until one is a positive number. *)
Fixpoint read_total_money (inputs : list str) : option (Q * list str) :=
  match inputs with
  | [] => None
  | s :: more =>
      match float_of_str s with
      | Some q => if Qltb 0 q then Some (q, more) else read_total_money more
      | None => read_total_money more
      end
  end.

(** The second loop: lines are read until one is a number between 0 and
    the total. *)
Fixpoint read_savings_goal (total_money : Q) (inputs : list str)
  : option (Q * list str) :=
  match inputs with
  | [] => None
  | s :: more =>
      match float_of_str s with
      | Some q =>
          if Qle_bool 0 q && Qle_bool q total_money then Some (q, more)
          else read_savings_goal total_money more
      | None => read_savings_goal total_money more
      end
  end.

(** [get_total_money_and_calculate_budgets] over the lines the user types;
    [None] when they run out before both amounts are accepted. *)
Definition get_total_money_and_calculate_budgets (inputs : list str)
  : option (dict * list str) :=
  match read_total_money inputs with
  | Some (total_money, more) =>
      match read_savings_goal total_money more with
      | Some (savings_goal, rest) =>
          Some (calculate_budgets total_money savings_goal, rest)
      | None => None
      end
  | None => None
  end.

End Tracker.
Import Tracker.

(* ================================================================= *)
(** ** [summarize_expenses] *)

Module Summary.

Inductive exn := IndexError | ZeroDivisionError.

(** [a / b] on floats. *)
Definition py_div (a b : Q) : exn + Q :=
  if Qeq_bool b 0 then inl ZeroDivisionError else inr (a / b)%Q.

(** A cell of the bar drawn for a category. *)
Inductive cell := GreenBlock | RedBlock | Dash.

Definition BAR_LENGTH : Z := 30.

Record row := mkRow {
  row_category : str;
  spent_amount : Q;
  budget_amount : Q;
  remaining : Q;
  percentage_used : Q;
  filled_length : Z;
  bar : list cell
}.

Record report := mkReport {
  rows : list row;
  total_budget : Q;
  total_spent : Q;
  initial_savings_goal : Q;
  total_savings_used : Q;
  adjusted_savings_goal : Q;
  remaining_spending_budget : Q;
  (** [(remaining_days, daily_budget)], in the current month only *)
  daily_limit : option (Z * Q)
}.

(** How the function ends: the period has no expense, the summary is
    printed, or an exception leaves the function. *)
Inductive outcome := NoData | Printed (r : report) | Raised (e : exn).

(** [x == filter] for an optional filter. *)
Definition filter_is (f : option Z) (x : Z) : bool :=
  match f with Some v => x =? v | None => false end.

(** The test of the filtering loop on one record; a time stamp that
    [strptime] refuses lands in the [except] branch. *)
Definition in_period (filter_month filter_year : option Z) (exp : Expense)
  : bool :=
  match strptime (timestamp exp) with
  | Some expense_date =>
      let month_match :=
        match filter_month with
        | None => true
        | Some m => month expense_date =? m
        end in
      let year_match :=
        match filter_year with
        | None => true
        | Some y => year expense_date =? y
        end in
      month_match && year_match
  | None => false
  end.

Definition filtered_expenses (all_expenses : list Expense)
    (filter_month filter_year : option Z) : list Expense :=
  filter (in_period filter_month filter_year) all_expenses.

(** [if filter_month and filter_year: print(calendar.month_name[filter_month])]:
    [month_name] has 13 entries and is indexed like a list. *)
Definition header_raises (filter_month filter_year : option Z) : bool :=
  match filter_month, filter_year with
  | Some m, Some y =>
      negb (m =? 0) && negb (y =? 0) && negb ((-13 <=? m) && (m <=? 12))
  | _, _ => false
  end.

(** [{cat: 0.0 for cat in category_budgets.keys()}] *)
Definition zero_spending (category_budgets : dict) : dict :=
  fold_left (fun d cat => dict_set d cat 0%Q) (keys category_budgets) [].

(** The body of the aggregation loop, on the pair
    [(spending_by_category, total_savings_used)]. *)
Definition aggregate_step (st : dict * Q) (expense : Expense) : dict * Q :=
  let '(spending_by_category, total_savings_used) := st in
  match dict_get spending_by_category (category expense) with
  | Some v =>
      (dict_set spending_by_category (category expense) (v + amount expense)%Q,
       total_savings_used)
  | None =>
      if PyStr.eqb (category expense) SAVINGS_USE_CATEGORY
      then (spending_by_category, (total_savings_used + amount expense)%Q)
      else st
  end.

Definition aggregate (category_budgets : dict) (filtered : list Expense)
  : dict * Q :=
  fold_left aggregate_step filtered (zero_spending category_budgets, 0%Q).

(** [min(a, b)] *)
Definition py_min (a b : Q) : Q := if Qltb b a then b else a.

(** ['X' * n]: nothing for a negative [n]. *)
Definition times (c : cell) (n : Z) : list cell := repeat c (Z.to_nat n).

(** The body of the loop over [category_budgets.items()]. *)
Definition make_row (spending_by_category : dict) (item : str * Q)
  : exn + row :=
  let '(cat, budget) := item in
  let spent :=
    match dict_get spending_by_category cat with Some v => v | None => 0%Q end in
  let remaining := (budget - spent)%Q in
  match (if Qltb 0 budget then py_div spent budget else inr 0%Q) with
  | inl e => inl e
  | inr percentage_used =>
      let filled_length :=
        int_of_float (inject_Z BAR_LENGTH * py_min percentage_used 1)%Q in
      let bar :=
        if Qle_bool 0 remaining
        then times GreenBlock filled_length
               ++ times Dash (BAR_LENGTH - filled_length)
        else times RedBlock BAR_LENGTH in
      inr (mkRow cat spent budget remaining percentage_used filled_length bar)
  end.

Fixpoint make_rows (spending_by_category : dict) (items : dict)
  : exn + list row :=
  match items with
  | [] => inr []
  | item :: more =>
      match make_row spending_by_category item with
      | inl e => inl e
      | inr r =>
          match make_rows spending_by_category more with
          | inl e => inl e
          | inr rs => inr (r :: rs)
          end
      end
  end.

(** The daily limit, computed when the period is the month of [now]. *)
Definition daily (now : datetime) (remaining_spending_budget : Q)
  : exn + (Z * Q) :=
  let days_in_month :=
    match monthrange_days (year now) (month now) with
    | Some n => n
    | None => 30
    end in
  let remaining_days := days_in_month - day now + 1 in
  if 0 <? remaining_days then
    match py_div remaining_spending_budget (inject_Z remaining_days) with
    | inl e => inl e
    | inr daily_budget => inr (remaining_days, daily_budget)
    end
  else inr (remaining_days, remaining_spending_budget).

(** [summarize_expenses] once the file is loaded; [now] is the reading of
    the clock made after the aggregation. *)
Definition summarize (all_expenses : list Expense) (category_budgets : dict)
    (filter_month filter_year : option Z) (now : datetime) : outcome :=
  let filtered := filtered_expenses all_expenses filter_month filter_year in
  if header_raises filter_month filter_year then Raised IndexError
  else
    match filtered with
    | [] => NoData
    | _ :: _ =>
        let '(spending_by_category, total_savings_used) :=
          aggregate category_budgets filtered in
        let total_budget := sum (values category_budgets) in
        let total_spent := sum (values spending_by_category) in
        let is_current_month :=
          filter_is filter_month (month now) && filter_is filter_year (year now) in
        match make_rows spending_by_category category_budgets with
        | inl e => Raised e
        | inr rows =>
            let initial_savings_goal :=
              match dict_get category_budgets SAVINGS_CATEGORY with
              | Some v => v
              | None => 0%Q
              end in
            let adjusted_savings_goal :=
              (initial_savings_goal - total_savings_used)%Q in
            let total_spending_budget :=
              (total_budget - initial_savings_goal)%Q in
            let remaining_spending_budget :=
              (total_spending_budget - total_spent)%Q in
            let finish d :=
              Printed (mkReport rows total_budget total_spent
                         initial_savings_goal total_savings_used
                         adjusted_savings_goal remaining_spending_budget d) in
            if is_current_month then
              match daily now remaining_spending_budget with
              | inl e => Raised e
              | inr d => finish (Some d)
              end
            else finish None
        end
    end.

(** [summarize_expenses]: the file is loaded, then the clock is read. *)
Definition summarize_expenses (file : option str) (category_budgets : dict)
    (filter_month filter_year : option Z) (clk : clock) (t : nat) : outcome :=
  let '(all_expenses, _, t1) := load_expenses file clk t in
  summarize all_expenses category_budgets filter_month filter_year (clk t1).

End Summary.
Import Summary.

(* ================================================================= *)
(** ** Vocabulary of the statements *)

(** Membership of a key in a list of keys. *)
Definition mem (k : str) (ks : list str) : bool := existsb (PyStr.eqb k) ks.

(** The sum of the amounts of the records that satisfy [p]. *)
Definition amounts_where (p : Expense -> bool) (es : list Expense) : Q :=
  sum (map amount (filter p es)).

(** The records of a category. *)
Definition in_category (c : str) (e : Expense) : bool :=
  PyStr.eqb (category e) c.

(** The records whose category is a key of the budget mapping. *)
Definition budgeted (category_budgets : dict) (e : Expense) : bool :=
  mem (category e) (keys category_budgets).

(** The records counted as money taken out of savings. *)
Definition savings_use (category_budgets : dict) (e : Expense) : bool :=
  negb (budgeted category_budgets e)
  && PyStr.eqb (category e) SAVINGS_USE_CATEGORY.

(** A month filter within the calendar, or none. *)
Definition month_filter_ok (filter_month : option Z) : bool :=
  match filter_month with
  | None => true
  | Some m => (1 <=? m) && (m <=? 12)
  end.


(** The days left in the month of [now], today included; 30 days are
    assumed for a month [calendar] refuses. *)
Definition remaining_days_of (now : datetime) : Z :=
  match monthrange_days (year now) (month now) with
  | Some n => n
  | None => 30
  end - day now + 1.

(** The characters of a numeral written by [.2f]. *)
Definition numeral_char (c : char) : bool :=
  (c =? MINUS)%N || (c =? DOT)%N || isdigit c.

(** The head of a text allows the digits before it to end there. *)
Definition ends_digits (r : str) : Prop :=
  match r with
  | c :: _ => digit_of c = None /\ c <> UNDERSCORE
  | [] => True
  end.

(** A field that can be written on a line: no field separator and no
    line break in it. *)
Definition plain (s : str) : Prop := ~ In COMMA s /\ ~ In LF s /\ ~ In CR s.

(** A record the file gives back: plain fields, a name that does not start
    and a time stamp that does not end with white space, a time stamp that
    is not empty. *)
Definition storable (e : Expense) : Prop :=
  plain (name e) /\ plain (category e) /\ plain (timestamp e)
  /\ lstrip (name e) = name e
  /\ rstrip (timestamp e) = timestamp e
  /\ timestamp e <> [].

(** A record with its amount rounded to 2 decimals. *)
Definition rounded (e : Expense) : Expense :=
  mkExpense (name e) (category e) (round2 (amount e)) (timestamp e).

(* ================================================================= *)
(** ** Sample data *)

Module Sample.

Definition FOOD : str := 0x1F354%N :: lit " Food".
Definition HOME : str := 0x1F3E0%N :: lit " Home".

(** A budget mapping with two spending categories and the savings goal. *)
Definition budgets : dict :=
  [(FOOD, 200%Q); (HOME, 500%Q); (SAVINGS_CATEGORY, 1000%Q)].

Definition lunch : Expense :=
  mkExpense (lit "Lunch") FOOD 150 (lit "2024-03-05 12:00:00").
Definition rent : Expense :=
  mkExpense (lit "Rent") HOME 500 (lit "2024-03-01 09:00:00").
(** Money taken out of savings. *)
Definition repair : Expense :=
  mkExpense (lit "Used for: repair") SAVINGS_USE_CATEGORY 300
    (lit "2024-03-10 18:30:00").
(** A record filed under the savings category itself. *)
Definition deposit : Expense :=
  mkExpense (lit "Deposit") SAVINGS_CATEGORY 100 (lit "2024-03-02 08:00:00").
(** A record whose name starts with a space. *)
Definition padded : Expense :=
  mkExpense (lit " Lunch") FOOD 150 (lit "2024-03-05 12:00:00").

(** A store of three records. *)
Definition three : list Expense := [lunch; rent; repair].
Definition store3 : str := save_all_expenses three.

(** The last day of March 2024, and a day in the middle of the month. *)
Definition last_day : datetime := mkDatetime 2024 3 31 23 59 59.
Definition mid_month : datetime := mkDatetime 2024 3 12 10 0 0.

(** A clock that advances by one second at each reading. *)
Definition ticking : clock := fun n => mkDatetime 2026 11 4 10 0 (Z.of_nat n).

End Sample.


(* ================================================================= *)
(** ** The prompts that create records *)

Module Prompts.

(** The first loop of [get_user_expense]: lines are read until one holds
    something else than white space; it is kept as typed. *)
Fixpoint read_expense_name (inputs : list str) : option (str * list str) :=
  match inputs with
  | [] => None
  | expense_name :: more =>
      match strip expense_name with
      | _ :: _ => Some (expense_name, more)
      | [] => read_expense_name more
      end
  end.

(** The amount loop of [get_user_expense] and of [record_savings_use]:
    lines are read until one is a positive number. *)
Fixpoint read_expense_amount (inputs : list str) : option (Q * list str) :=
  match inputs with
  | [] => None
  | s :: more =>
      match float_of_str s with
      | Some q => if Qltb 0 q then Some (q, more) else read_expense_amount more
      | None => read_expense_amount more
      end
  end.

(** The third loop of [get_user_expense]: lines are read until one is the
    number of a category of the list, counted from 1. *)
Fixpoint read_category (categories : list str) (inputs : list str)
  : option (str * list str) :=
  match inputs with
  | [] => None
  | s :: more =>
      match int_of_str s with
      | Some n =>
          let selected_index := n - 1 in
          if (0 <=? selected_index)
             && (selected_index <? Z.of_nat (length categories)) then
            match nth_error categories (Z.to_nat selected_index) with
            | Some selected_category => Some (selected_category, more)
            | None => None
            end
          else read_category categories more
      | None => read_category categories more
      end
  end.

(** [get_user_expense] over the lines the user types: the record, the
    lines left and the clock; [None] when the lines run out first. *)
Definition get_user_expense (categories : list str) (inputs : list str)
    (clk : clock) (t : nat) : option (Expense * list str * nat) :=
  match read_expense_name inputs with
  | Some (expense_name, inputs1) =>
      match read_expense_amount inputs1 with
      | Some (expense_amount, inputs2) =>
          match read_category categories inputs2 with
          | Some (selected_category, inputs3) =>
              let '(new_expense, t') :=
                Expense_init expense_name selected_category expense_amount
                  None clk t in
              Some (new_expense, inputs3, t')
          | None => None
          end
      | None => None
      end
  | None => None
  end.

(** The text ["Used for: "]. *)
Definition USED_FOR : str := lit "Used for: ".

(** [record_savings_use]: the text of the file afterwards, the lines left
    and the clock; [None] when the lines run out first. *)
Definition record_savings_use (file : option str) (inputs : list str)
    (clk : clock) (t : nat) : option (str * list str * nat) :=
  match read_expense_amount inputs with
  | Some (amount_used, reason :: more) =>
      let '(savings_use_expense, t') :=
        Expense_init (USED_FOR ++ reason) SAVINGS_USE_CATEGORY amount_used
          None clk t in
      Some (save_new_expense savings_use_expense file, more, t')
  | _ => None
  end.

End Prompts.
Import Prompts.

(* ================================================================= *)
(** ** Vocabulary of the further properties *)

(** A line that is not blank once stripped. *)
Definition nonblank (line : str) : bool :=
  match strip line with [] => false | _ :: _ => true end.

(** What can be said of a record [load_expenses] returns: fields without
    comma and line break, a name that does not start with white space, a
    time stamp that is not empty and is a field of the line or a reading
    of the clock. *)
Definition loaded_shape (clk : clock) (e : Expense) : Prop :=
  plain (name e) /\ plain (category e)
  /\ lstrip (name e) = name e
  /\ timestamp e <> []
  /\ (plain (timestamp e) \/ exists k, timestamp e = strftime (clk k)).

(** A file the program appends to: empty, or ended by a line feed. *)
Definition ends_with_newline (text : str) : Prop :=
  text = [] \/ exists body, text = body ++ [LF].


(* ================================================================= *)
(** ** [main]: the session *)

Module Session.

Definition PASSWORD : str := lit "mytracker2025".

(** What a session prints, by operation. *)
Inductive event :=
| AccessDenied
| ExpenseSaved (e : Expense)
| SummaryShown (o : outcome)
| DeleteShown (log : list message)
| SavingsUseRecorded
| TipsShown
| InvalidYearOrMonth
| InvalidChoice
| Goodbye.

(** How a session ends: [main] returns, [input()] has nothing left to
    read, an exception is not caught; [OutOfFuel] is the bound of the
    model on the number of turns of the menu. *)
Inductive session_end :=
| Finished
| EndOfInput
| Uncaught (e : exn)
| OutOfFuel.

(** The lines left once the loop of [delete_expense] is over. *)
Fixpoint delete_loop_rest (all_expenses : list Expense) (inputs : list str)
  : list str :=
  match inputs with
  | [] => []
  | selection :: more =>
      if lower_is_c selection then more
      else
        match int_of_str selection with
        | Some n =>
            if (0 <=? n - 1) && (n - 1 <? Z.of_nat (length all_expenses))
            then more
            else delete_loop_rest all_expenses more
        | None => delete_loop_rest all_expenses more
        end
  end.

(** The lines left and the clock once [delete_expense] is over. *)
Definition delete_expense_rest (file : option str) (inputs : list str)
    (clk : clock) (t : nat) : list str * nat :=
  let '(all_expenses, _, t1) := load_expenses file clk t in
  match all_expenses with
  | [] => (inputs, t1)
  | _ :: _ => (delete_loop_rest all_expenses inputs, t1)
  end.

(** The clock once [summarize_expenses] is over: it is read once more
    when the period has expenses. *)
Definition summary_ticks (file : option str) (fm fy : option Z)
    (clk : clock) (t : nat) : nat :=
  let '(all_expenses, _, t1) := load_expenses file clk t in
  if header_raises fm fy then t1
  else match filtered_expenses all_expenses fm fy with
       | [] => t1
       | _ :: _ => S t1
       end.

(** The [while True] loop of [main], at most [fuel] turns of it. *)
Fixpoint menu_loop (fuel : nat) (category_budgets : dict) (file : option str)
    (inputs : list str) (clk : clock) (t : nat)
  : option str * list event * session_end :=
  match fuel with
  | O => (file, [], OutOfFuel)
  | S fuel' =>
      let continue ev file' inputs' t' :=
        let '(f, evs, e) :=
          menu_loop fuel' category_budgets file' inputs' clk t' in
        (f, ev :: evs, e) in
      match inputs with
      | [] => (file, [], EndOfInput)
      | choice :: more =>
          if PyStr.eqb choice (lit "1") then
            match get_user_expense CORE_CATEGORIES more clk t with
            | Some (expense, rest, t') =>
                continue (ExpenseSaved expense)
                  (Some (save_new_expense expense file)) rest t'
            | None => (file, [], EndOfInput)
            end
          else if PyStr.eqb choice (lit "2") then
            let now := clk t in
            let fm := Some (month now) in
            let fy := Some (year now) in
            match summarize_expenses file category_budgets fm fy clk (S t) with
            | Raised e => (file, [], Uncaught e)
            | o => continue (SummaryShown o) file more
                     (summary_ticks file fm fy clk (S t))
            end
          else if PyStr.eqb choice (lit "3") then
            match more with
            | [] => (file, [], EndOfInput)
            | year_line :: more1 =>
                match int_of_str year_line with
                | None => continue InvalidYearOrMonth file more1 t
                | Some y =>
                    match more1 with
                    | [] => (file, [], EndOfInput)
                    | month_line :: more2 =>
                        match int_of_str month_line with
                        | None => continue InvalidYearOrMonth file more2 t
                        | Some m =>
                            match summarize_expenses file category_budgets
                                    (Some m) (Some y) clk t with
                            | Raised e => (file, [], Uncaught e)
                            | o => continue (SummaryShown o) file more2
                                     (summary_ticks file (Some m) (Some y)
                                        clk t)
                            end
                        end
                    end
                end
            end
          else if PyStr.eqb choice (lit "4") then
            let '(file', log, ending) := delete_expense file more clk t in
            let '(rest, t') := delete_expense_rest file more clk t in
            match ending with
            | Returned => continue (DeleteShown log) file' rest t'
            | InputExhausted => (file', [DeleteShown log], EndOfInput)
            end
          else if PyStr.eqb choice (lit "5") then
            match record_savings_use file more clk t with
            | Some (text, rest, t') =>
                continue SavingsUseRecorded (Some text) rest t'
            | None => (file, [], EndOfInput)
            end
          else if PyStr.eqb choice (lit "6") then
            continue TipsShown file more t
          else if PyStr.eqb choice (lit "7") then
            (file, [Goodbye], Finished)
          else continue InvalidChoice file more t
      end
  end.

(** [main] over the lines the user types: the file afterwards, what was
    shown and how the session ended.  A turn of the menu reads at least
    one line, so one turn more than there are lines is enough. *)
Definition main (file : option str) (inputs : list str) (clk : clock)
  : option str * list event * session_end :=
  match inputs with
  | [] => (file, [], EndOfInput)
  | password :: more =>
      if negb (PyStr.eqb password PASSWORD) then
        (file, [AccessDenied], Finished)
      else
        match get_total_money_and_calculate_budgets more with
        | Some (category_budgets, rest) =>
            menu_loop (S (length rest)) category_budgets file rest clk 0
        | None => (file, [], EndOfInput)
        end
  end.

End Session.
Import Session.

(** A store to which a line can be appended: missing, empty or ended by a
    line feed. *)
Definition well_ended (file : option str) : Prop :=
  match file with
  | None => True
  | Some text => ends_with_newline text
  end.

(* ================================================================= *)
(** ** Text that [int_of_str] reads as [int()] does *)

(** U+001C..U+001F are white space for [str.strip] and the class [\s], but
    not for [int()] and [float()]. *)
Definition is_separator (c : char) : bool := ((28 <=? c) && (c <=? 31))%N.

(** [int()] refuses a numeral of more than 4300 digits
    ([sys.int_info.default_max_str_digits]). *)
Definition MAX_STR_DIGITS : nat := 4300.

(** A line of at most 4300 characters without U+001C..U+001F: when
    [int_of_str] reads it as a number, so does [int()]. *)
Definition int_agrees (s : str) : bool :=
  (length s <=? MAX_STR_DIGITS)%nat && negb (existsb is_separator s).

(* ================================================================= *)
(** ** The floats that are not finite

    [float()] reads more than the numerals of [float_of_str]: [inf],
    [infinity] and [nan], the decimal digits of every script, and a
    numeral too large for a binary64, which it reads as [inf].  The
    prompts and [load_expenses] receive such text.  The functions whose
    result it changes, the budget prompts, the allocator and the loop of
    [load_expenses], are embedded here over floats that include [inf] and
    [nan].  A finite value stays an exact rational; the rounding of
    binary64 is modelled at the two ends only, where a numeral is read as
    [inf] or as zero. *)

Module NonFinite.

Inductive pyfloat := Finite (q : Q) | PosInf | NegInf | NaN.

(** *** [float()] *)

(** The code point of the digit zero of each script (the characters of
    category Nd in Unicode 14.0, ten in a row from each of these). *)
Definition DECIMAL_ZEROS : list N :=
  [0x30; 0x660; 0x6F0; 0x7C0; 0x966; 0x9E6; 0xA66; 0xAE6; 0xB66; 0xBE6;
   0xC66; 0xCE6; 0xD66; 0xDE6; 0xE50; 0xED0; 0xF20; 0x1040; 0x1090;
   0x17E0; 0x1810; 0x1946; 0x19D0; 0x1A80; 0x1A90; 0x1B50; 0x1BB0;
   0x1C40; 0x1C50; 0xA620; 0xA8D0; 0xA900; 0xA9D0; 0xA9F0; 0xAA50;
   0xABF0; 0xFF10; 0x104A0; 0x10D30; 0x11066; 0x110F0; 0x11136; 0x111D0;
   0x112F0; 0x11450; 0x114D0; 0x11650; 0x116C0; 0x11730; 0x118E0;
   0x11950; 0x11C50; 0x11D50; 0x11DA0; 0x16A60; 0x16AC0; 0x16B50;
   0x1D7CE; 0x1D7D8; 0x1D7E2; 0x1D7EC; 0x1D7F6; 0x1E140; 0x1E2F0;
   0x1E950; 0x1FBF0]%N.

(** The value of a decimal digit, of whatever script. *)
Definition decimal (c : char) : option N :=
  match find (fun z => (z <=? c) && (c <=? z + 9))%N DECIMAL_ZEROS with
  | Some z => Some (c - z)%N
  | None => None
  end.

(** What [float()] does to a character before it parses: beyond ASCII,
    white space becomes a space and a decimal digit the ASCII digit of its
    value; any other character beyond ASCII becomes ["?"], which no
    numeral holds. *)
Definition to_ascii (c : char) : char :=
  if (c <? 128)%N then c
  else if isspace c then 32%N
  else match decimal c with
       | Some d => (48 + d)%N
       | None => 63%N
       end.

(** An ASCII letter in lower case. *)
Definition lower (c : char) : char :=
  if ((65 <=? c) && (c <=? 90))%N then (c + 32)%N else c.

(** [inf], [infinity] and [nan], in any case, after an optional sign. *)
Definition special (s : str) : option pyfloat :=
  let '(neg, w) := scan_sign (strip s) in
  let w := map lower w in
  if PyStr.eqb w (lit "inf") || PyStr.eqb w (lit "infinity")
  then Some (if neg then NegInf else PosInf)
  else if PyStr.eqb w (lit "nan") then Some NaN
  else None.

(** From [HUGE] on a decimal is nearer to 2^1024 than to the largest
    binary64 and is read as [inf]; up to [TINY] it is read as zero. *)
Definition HUGE : Q := inject_Z (2 ^ 1024 - 2 ^ 970).
Definition TINY : Q := Qmake 1 (2 ^ 1075).

Definition of_decimal (q : Q) : pyfloat :=
  if Qle_bool HUGE q then PosInf
  else if Qle_bool q (- HUGE) then NegInf
  else if Qle_bool (- TINY) q && Qle_bool q TINY then Finite 0
  else Finite q.

(** [float(s)]; [None] stands for [ValueError].  Text that holds one of
    U+001C..U+001F is refused: no numeral holds one, and [float()] does
    not strip them. *)
Definition float (s : str) : option pyfloat :=
  let a := map to_ascii s in
  if existsb is_separator a then None
  else
    match float_of_str a with
    | Some q => Some (of_decimal q)
    | None => special a
    end.

(** *** Arithmetic and comparisons *)

(** [a < b] and [a <= b]: false as soon as one side is [nan]. *)
Definition flt (a b : pyfloat) : bool :=
  match a, b with
  | NaN, _ | _, NaN => false
  | Finite x, Finite y => Qltb x y
  | _, NegInf => false
  | NegInf, _ => true
  | PosInf, _ => false
  | Finite _, PosInf => true
  end.

Definition fle (a b : pyfloat) : bool :=
  match a, b with
  | NaN, _ | _, NaN => false
  | Finite x, Finite y => Qle_bool x y
  | NegInf, _ => true
  | _, PosInf => true
  | _, _ => false
  end.

Definition fneg (a : pyfloat) : pyfloat :=
  match a with
  | Finite x => Finite (- x)
  | PosInf => NegInf
  | NegInf => PosInf
  | NaN => NaN
  end.

(** [a + b]: [inf] and [-inf] add up to [nan]. *)
Definition fadd (a b : pyfloat) : pyfloat :=
  match a, b with
  | NaN, _ | _, NaN => NaN
  | Finite x, Finite y => Finite (x + y)
  | PosInf, NegInf | NegInf, PosInf => NaN
  | PosInf, _ | _, PosInf => PosInf
  | NegInf, _ | _, NegInf => NegInf
  end.

(** [a - b] *)
Definition fsub (a b : pyfloat) : pyfloat := fadd a (fneg b).

(** [a / n] for an [int] [n] above 0. *)
Definition fdiv_pos (a : pyfloat) (n : positive) : pyfloat :=
  match a with
  | Finite x => Finite (x / inject_Z (Zpos n))
  | _ => a
  end.

(** [sum(xs)] *)
Definition sum (xs : list pyfloat) : pyfloat := fold_left fadd xs (Finite 0).

(** *** The budget prompts and the allocator *)

Definition dict := list (str * pyfloat).

(** [d[k] = v]: an existing key keeps its place. *)
Fixpoint dict_set (d : dict) (k : str) (v : pyfloat) : dict :=
  match d with
  | [] => [(k, v)]
  | (k', v') :: r =>
      if PyStr.eqb k' k then (k', v) :: r else (k', v') :: dict_set r k v
  end.

Definition keys (d : dict) : list str := map fst d.
Definition values (d : dict) : list pyfloat := map snd d.

(** The end of [get_total_money_and_calculate_budgets], once the two
    amounts are read; [len(CORE_CATEGORIES)] is 5. *)
Definition calculate_budgets (total_money savings_goal : pyfloat) : dict :=
  let remaining_for_spending := fsub total_money savings_goal in
  let num_spending_categories := Pos.of_nat (length CORE_CATEGORIES) in
  let spending_budget_per_cat :=
    if flt remaining_for_spending (Finite 0) then Finite 0
    else fdiv_pos remaining_for_spending num_spending_categories in
  fold_left (fun d cat => dict_set d cat spending_budget_per_cat)
    CORE_CATEGORIES [(SAVINGS_CATEGORY, savings_goal)].

(** The first loop: lines are read until [float()] reads one and
    [total_money > 0] holds. *)
Fixpoint read_total_money (inputs : list str)
  : option (pyfloat * list str) :=
  match inputs with
  | [] => None
  | s :: more =>
      match float s with
      | Some x =>
          if flt (Finite 0) x then Some (x, more) else read_total_money more
      | None => read_total_money more
      end
  end.

(** The second loop: lines are read until [float()] reads one and
    [savings_goal >= 0 and savings_goal <= total_money] holds. *)
Fixpoint read_savings_goal (total_money : pyfloat) (inputs : list str)
  : option (pyfloat * list str) :=
  match inputs with
  | [] => None
  | s :: more =>
      match float s with
      | Some x =>
          if fle (Finite 0) x && fle x total_money then Some (x, more)
          else read_savings_goal total_money more
      | None => read_savings_goal total_money more
      end
  end.

(** [get_total_money_and_calculate_budgets] over the lines the user types;
    [None] when they run out before both amounts are accepted. *)
Definition get_total_money_and_calculate_budgets (inputs : list str)
  : option (dict * list str) :=
  match read_total_money inputs with
  | Some (total_money, more) =>
      match read_savings_goal total_money more with
      | Some (savings_goal, rest) =>
          Some (calculate_budgets total_money savings_goal, rest)
      | None => None
      end
  | None => None
  end.

(** *** [class Expense] and [load_expenses] *)

Record Expense := mkExpense {
  name : str;
  category : str;
  amount : pyfloat;
  timestamp : str
}.

(** [Expense.__init__] *)
Definition Expense_init (name category : str) (amount : pyfloat)
    (timestamp : option str) (clk : clock) (t : nat) : Expense * nat :=
  match timestamp with
  | Some (c :: ts) => (mkExpense name category amount (c :: ts), t)
  | _ => (mkExpense name category amount (strftime (clk t)), S t)
  end.

(** The body of the loop of [load_expenses] on one line of the file. *)
Definition load_line (clk : clock) (t : nat) (line : str)
  : list Expense * list message * nat :=
  let line := strip line in
  match line with
  | [] => ([], [], t)
  | _ :: _ =>
      match split line with
      | expense_name :: expense_amount_str :: expense_category :: rest =>
          let timestamp := match rest with ts :: _ => Some ts | [] => None end in
          match float expense_amount_str with
          | Some a =>
              let '(e, t') :=
                Expense_init expense_name expense_category a timestamp clk t in
              ([e], [], t')
          | None => ([], [WarnMalformedAmount line], t)
          end
      | _ => ([], [WarnTooFewFields line], t)
      end
  end.

Fixpoint load_lines (clk : clock) (t : nat) (lines : list str)
  : list Expense * list message * nat :=
  match lines with
  | [] => ([], [], t)
  | line :: more =>
      let '(es1, log1, t1) := load_line clk t line in
      let '(es2, log2, t2) := load_lines clk t1 more in
      (es1 ++ es2, log1 ++ log2, t2)
  end.

Definition load_expenses (file : option str) (clk : clock) (t : nat)
  : list Expense * list message * nat :=
  match file with
  | None => ([], [InfoFileNotFound], t)
  | Some text => load_lines clk t (readlines text)
  end.

End NonFinite.

(* ================================================================= *)
(** ** Basic facts *)

Lemma str_eqb_eq (a b : str) : PyStr.eqb a b = true <-> a = b.
Proof.
  revert b; induction a as [|x a IH]; intros [|y b]; simpl;
    try (split; [discriminate | congruence]).
  - tauto.
  - rewrite andb_true_iff, N.eqb_eq, IH. split.
    + intros [-> ->]; reflexivity.
    + intros H; injection H; auto.
Qed.

Lemma str_eqb_refl (a : str) : PyStr.eqb a a = true.
Proof. apply str_eqb_eq; reflexivity. Qed.

Lemma str_eqb_neq (a b : str) : PyStr.eqb a b = false <-> a <> b.
Proof.
  rewrite <- str_eqb_eq. destruct (PyStr.eqb a b); split; congruence.
Qed.

Lemma Qltb_lt (a b : Q) : Qltb a b = true <-> (a < b)%Q.
Proof.
  unfold Qltb. rewrite negb_true_iff, <- not_true_iff_false, Qle_bool_iff.
  split; [apply Qnot_le_lt | apply Qlt_not_le].
Qed.

Lemma Qltb_ge (a b : Q) : Qltb a b = false <-> (b <= a)%Q.
Proof.
  unfold Qltb. rewrite negb_false_iff. apply Qle_bool_iff.
Qed.


Lemma fold_Qplus_acc (xs : list Q) (a : Q) :
  (fold_left Qplus xs a == a + fold_left Qplus xs 0)%Q.
Proof.
  revert a; induction xs as [|x xs IH]; intros a; simpl.
  - ring.
  - rewrite (IH (a + x)%Q), (IH (0 + x)%Q). ring.
Qed.

Lemma sum_cons (x : Q) (xs : list Q) : (sum (x :: xs) == x + sum xs)%Q.
Proof.
  unfold sum; simpl. rewrite fold_Qplus_acc. ring.
Qed.


#[global] Instance sum_app_proper : Proper (Forall2 Qeq ==> Qeq) sum.
Proof.
  intros xs ys H; induction H.
  - reflexivity.
  - rewrite !sum_cons, IHForall2, H. reflexivity.
Qed.


(* ================================================================= *)
(** ** The budget allocator *)

(** The mapping the allocator builds, entry by entry. *)
Lemma calculate_budgets_entries (total_money savings_goal : Q) :
  calculate_budgets total_money savings_goal =
  (SAVINGS_CATEGORY, savings_goal)
    :: map (fun cat =>
              (cat,
               if Qltb (total_money - savings_goal) 0 then 0%Q
               else ((total_money - savings_goal) / 5)%Q))
         CORE_CATEGORIES.
Proof. reflexivity. Qed.

(** On finite amounts: for a positive income and a savings goal between 0
    and the income, the allocator returns exactly six entries, the savings
    category with the goal and each of the five core categories with a
    fifth of the rest; every value is non-negative and the entries add up
    to the income (exactly, amounts being rationals here).  Whenever the
    rest is negative, every core category gets 0. *)
Lemma allocation_finite (total_income savings_goal : Q) :
  (0 < total_income)%Q ->
  (0 <= savings_goal)%Q -> (savings_goal <= total_income)%Q ->
  let per_category := ((total_income - savings_goal) / 5)%Q in
  let budgets := calculate_budgets total_income savings_goal in
  budgets = (SAVINGS_CATEGORY, savings_goal)
              :: map (fun cat => (cat, per_category)) CORE_CATEGORIES
  /\ length budgets = 6%nat
  /\ NoDup (keys budgets)
  /\ Forall (fun v => (0 <= v)%Q) (values budgets)
  /\ (savings_goal + 5 * per_category == total_income)%Q
  /\ (sum (values budgets) == total_income)%Q
  /\ (forall income goal : Q,
        (income - goal < 0)%Q ->
        calculate_budgets income goal =
        (SAVINGS_CATEGORY, goal) :: map (fun cat => (cat, 0%Q)) CORE_CATEGORIES).
Proof.
  intros Hpos Hge Hle per_category budgets.
  assert (Hrem : Qltb (total_income - savings_goal) 0 = false).
  { apply Qltb_ge. lra. }
  assert (Hb : budgets = (SAVINGS_CATEGORY, savings_goal)
                 :: map (fun cat => (cat, per_category)) CORE_CATEGORIES).
  { unfold budgets. rewrite calculate_budgets_entries, Hrem. reflexivity. }
  assert (Hper : (0 <= per_category)%Q).
  { unfold per_category. apply Qle_shift_div_l; lra. }
  split; [exact Hb|].
  split; [rewrite Hb; reflexivity|].
  split.
  { rewrite Hb. unfold keys; simpl.
    repeat constructor; simpl; intuition discriminate. }
  split.
  { rewrite Hb. unfold values; simpl. repeat constructor; assumption. }
  split.
  { unfold per_category. field. }
  split.
  { rewrite Hb. unfold values, sum; simpl. unfold per_category. field. }
  intros income goal Hneg.
  rewrite calculate_budgets_entries.
  apply Qltb_lt in Hneg. rewrite Hneg. reflexivity.
Qed.

(** The prompts hand the allocator only amounts in its domain. *)
Lemma read_total_money_positive (inputs rest : list str) (q : Q) :
  read_total_money inputs = Some (q, rest) -> (0 < q)%Q.
Proof.
  induction inputs as [|s more IH]; simpl; [discriminate|].
  destruct (float_of_str s) as [x|]; [|exact IH].
  destruct (Qltb 0 x) eqn:E; [|exact IH].
  intros H; injection H as <- _. apply Qltb_lt; exact E.
Qed.

Lemma read_savings_goal_range (total : Q) (inputs rest : list str) (q : Q) :
  read_savings_goal total inputs = Some (q, rest) -> (0 <= q <= total)%Q.
Proof.
  induction inputs as [|s more IH]; simpl; [discriminate|].
  destruct (float_of_str s) as [x|]; [|exact IH].
  destruct (Qle_bool 0 x && Qle_bool x total) eqn:E; [|exact IH].
  intros H; injection H as <- _.
  apply andb_true_iff in E. rewrite !Qle_bool_iff in E. exact E.
Qed.

(** Whenever the prompts end, the mapping returned is the allocation of
    an income and a goal in the domain of the allocator. *)
Lemma get_total_money_and_calculate_budgets_domain
    (inputs rest : list str) (budgets : dict) :
  get_total_money_and_calculate_budgets inputs = Some (budgets, rest) ->
  exists total_money savings_goal,
    (0 < total_money)%Q /\ (0 <= savings_goal <= total_money)%Q
    /\ budgets = calculate_budgets total_money savings_goal.
Proof.
  unfold get_total_money_and_calculate_budgets.
  destruct (read_total_money inputs) as [[total more]|] eqn:E1; [|discriminate].
  destruct (read_savings_goal total more) as [[goal rest']|] eqn:E2;
    [|discriminate].
  intros H; injection H as <- <-.
  exists total, goal. split; [|split; [|reflexivity]].
  - exact (read_total_money_positive _ _ _ E1).
  - exact (read_savings_goal_range _ _ _ _ E2).
Qed.

Example budget_setup :
  get_total_money_and_calculate_budgets
    [lit "-5"; lit "abc"; lit "1000"; lit "2000"; lit "200"; lit "next"]
  = Some (calculate_budgets 1000 200, [lit "next"]).
Proof. reflexivity. Qed.

(* ================================================================= *)
(** ** Dictionaries *)

Section Dict.
Implicit Types (d : dict) (k : str) (v : Q).

Lemma mem_In k (ks : list str) : mem k ks = true <-> In k ks.
Proof.
  unfold mem. rewrite existsb_exists. split.
  - intros [x [Hin Hx]]. apply str_eqb_eq in Hx. subst; exact Hin.
  - intros Hin. exists k. split; [exact Hin | apply str_eqb_refl].
Qed.

Lemma mem_cons k k' (ks : list str) :
  mem k (k' :: ks) = PyStr.eqb k k' || mem k ks.
Proof. reflexivity. Qed.

Lemma str_eqb_sym (a b : str) : PyStr.eqb a b = PyStr.eqb b a.
Proof.
  destruct (PyStr.eqb a b) eqn:E.
  - apply str_eqb_eq in E. subst. symmetry; apply str_eqb_refl.
  - apply str_eqb_neq in E. symmetry. apply str_eqb_neq. congruence.
Qed.

Lemma dict_get_mem d k :
  mem k (keys d) = match dict_get d k with Some _ => true | None => false end.
Proof.
  induction d as [|[k' v'] d IH]; [reflexivity|].
  change (keys ((k', v') :: d)) with (k' :: keys d).
  rewrite mem_cons, (str_eqb_sym k k'). simpl.
  destruct (PyStr.eqb k' k); simpl; [reflexivity | exact IH].
Qed.

Lemma dict_get_set d k v k' :
  dict_get (dict_set d k v) k' =
  if PyStr.eqb k k' then Some v else dict_get d k'.
Proof.
  induction d as [|[k0 v0] d IH]; simpl.
  - reflexivity.
  - destruct (PyStr.eqb k0 k) eqn:E0; simpl.
    + apply str_eqb_eq in E0. subst k0.
      destruct (PyStr.eqb k k'); reflexivity.
    + destruct (PyStr.eqb k0 k') eqn:E1.
      * apply str_eqb_eq in E1. subst k0.
        rewrite (str_eqb_sym k k'), E0. reflexivity.
      * exact IH.
Qed.

Lemma keys_dict_set_present d k v v' :
  dict_get d k = Some v -> keys (dict_set d k v') = keys d.
Proof.
  induction d as [|[k0 v0] d IH]; simpl; [discriminate|].
  destruct (PyStr.eqb k0 k); simpl; [reflexivity|].
  intros H. unfold keys in *. simpl. f_equal. apply IH; exact H.
Qed.

Lemma sum_values_dict_set d k v v' :
  dict_get d k = Some v ->
  (sum (values (dict_set d k v')) == sum (values d) - v + v')%Q.
Proof.
  induction d as [|[k0 v0] d IH]; simpl; [discriminate|].
  destruct (PyStr.eqb k0 k); simpl.
  - intros H; injection H as ->. unfold values; simpl.
    rewrite !sum_cons. ring.
  - intros H. unfold values in *; simpl. rewrite !sum_cons, (IH H). ring.
Qed.

Lemma zero_fold_get (ks : list str) d k :
  dict_get (fold_left (fun d c => dict_set d c 0%Q) ks d) k =
  if mem k ks then Some 0%Q else dict_get d k.
Proof.
  revert d; induction ks as [|c ks IH]; intros d; [reflexivity|].
  cbn [fold_left]. rewrite IH, dict_get_set, mem_cons, (str_eqb_sym k c).
  destruct (mem k ks), (PyStr.eqb c k); reflexivity.
Qed.

Lemma zero_fold_values (ks : list str) d :
  Forall (fun v => v = 0%Q) (values d) ->
  Forall (fun v => v = 0%Q)
    (values (fold_left (fun d c => dict_set d c 0%Q) ks d)).
Proof.
  revert d; induction ks as [|c ks IH]; intros d Hd; simpl; [exact Hd|].
  apply IH. clear IH.
  induction d as [|[k0 v0] d IHd]; simpl.
  - repeat constructor.
  - unfold values in Hd; simpl in Hd. inversion Hd; subst.
    destruct (PyStr.eqb k0 c); unfold values; simpl; constructor; auto.
Qed.

Lemma sum_zeros (xs : list Q) : Forall (fun v => v = 0%Q) xs -> (sum xs == 0)%Q.
Proof.
  induction 1 as [|x xs Hx _ IH]; [reflexivity|].
  rewrite sum_cons, IH, Hx. ring.
Qed.

Lemma zero_spending_get (category_budgets : dict) k :
  dict_get (zero_spending category_budgets) k =
  if mem k (keys category_budgets) then Some 0%Q else None.
Proof. unfold zero_spending. rewrite zero_fold_get. reflexivity. Qed.

Lemma zero_spending_mem (category_budgets : dict) k :
  mem k (keys (zero_spending category_budgets)) = mem k (keys category_budgets).
Proof.
  rewrite dict_get_mem, zero_spending_get.
  destruct (mem k (keys category_budgets)); reflexivity.
Qed.

Lemma zero_spending_sum (category_budgets : dict) :
  (sum (values (zero_spending category_budgets)) == 0)%Q.
Proof. apply sum_zeros, zero_fold_values. constructor. Qed.
End Dict.

(* ================================================================= *)
(** ** The aggregation loop *)

Lemma amounts_where_cons (p : Expense -> bool) (e : Expense) (es : list Expense) :
  (amounts_where p (e :: es) ==
   (if p e then amount e else 0) + amounts_where p es)%Q.
Proof.
  unfold amounts_where; simpl. destruct (p e); simpl.
  - apply sum_cons.
  - ring.
Qed.

Lemma amounts_where_nil (p : Expense -> bool) : amounts_where p [] = 0%Q.
Proof. reflexivity. Qed.

Lemma amounts_where_ext (p q : Expense -> bool) (es : list Expense) :
  (forall e, p e = q e) -> amounts_where p es = amounts_where q es.
Proof.
  intros H. unfold amounts_where. f_equal. f_equal.
  apply filter_ext; exact H.
Qed.

(** The state of the loop after the records [fs], from any state. *)
Lemma aggregate_fold (fs : list Expense) : forall (sp : dict) (u : Q),
  let st := fold_left aggregate_step fs (sp, u) in
  keys (fst st) = keys sp
  /\ (forall c v, dict_get sp c = Some v ->
        exists v', dict_get (fst st) c = Some v'
                   /\ (v' == v + amounts_where (in_category c) fs)%Q)
  /\ (sum (values (fst st)) ==
      sum (values sp)
      + amounts_where (fun e => mem (category e) (keys sp)) fs)%Q
  /\ (snd st ==
      u + amounts_where
            (fun e => negb (mem (category e) (keys sp))
                      && PyStr.eqb (category e) SAVINGS_USE_CATEGORY) fs)%Q.
Proof.
  induction fs as [|e fs IH]; intros sp u; simpl.
  - rewrite !amounts_where_nil. repeat split; try ring.
    intros c v H. exists v. split; [exact H|].
    rewrite amounts_where_nil. ring.
  - assert (Hmem := dict_get_mem sp (category e)).
    destruct (dict_get sp (category e)) as [v0|] eqn:Hget.
    + specialize (IH (dict_set sp (category e) (v0 + amount e)%Q) u).
      simpl in IH. destruct IH as (Hk & Hc & Hs & Hu).
      rewrite (keys_dict_set_present _ _ _ _ Hget) in *.
      split; [exact Hk|]. split; [|split].
      * intros c v Hcv.
        destruct (Hc c (if PyStr.eqb (category e) c then (v0 + amount e)%Q else v))
          as (v' & Hv' & Ev').
        { rewrite dict_get_set.
          destruct (PyStr.eqb (category e) c); [reflexivity | exact Hcv]. }
        exists v'. split; [exact Hv'|].
        rewrite Ev', amounts_where_cons. unfold in_category at 2.
        destruct (PyStr.eqb (category e) c) eqn:E.
        -- apply str_eqb_eq in E. subst c. rewrite Hget in Hcv.
           injection Hcv as ->. ring.
        -- ring.
      * rewrite Hs, (sum_values_dict_set _ _ _ _ Hget), amounts_where_cons, Hmem.
        ring.
      * rewrite Hu, amounts_where_cons, Hmem. simpl. ring.
    + destruct (PyStr.eqb (category e) SAVINGS_USE_CATEGORY) eqn:Euse.
      * specialize (IH sp (u + amount e)%Q). simpl in IH.
        destruct IH as (Hk & Hc & Hs & Hu).
        split; [exact Hk|]. split; [|split].
        -- intros c v Hcv. destruct (Hc c v Hcv) as (v' & Hv' & Ev').
           exists v'. split; [exact Hv'|].
           rewrite Ev', amounts_where_cons. unfold in_category at 2.
           destruct (PyStr.eqb (category e) c) eqn:E; [|ring].
           apply str_eqb_eq in E. subst c. congruence.
        -- rewrite Hs, amounts_where_cons, Hmem. ring.
        -- rewrite Hu, amounts_where_cons, Hmem, Euse. simpl. ring.
      * specialize (IH sp u). simpl in IH.
        destruct IH as (Hk & Hc & Hs & Hu).
        split; [exact Hk|]. split; [|split].
        -- intros c v Hcv. destruct (Hc c v Hcv) as (v' & Hv' & Ev').
           exists v'. split; [exact Hv'|].
           rewrite Ev', amounts_where_cons. unfold in_category at 2.
           destruct (PyStr.eqb (category e) c) eqn:E; [|ring].
           apply str_eqb_eq in E. subst c. congruence.
        -- rewrite Hs, amounts_where_cons, Hmem. ring.
        -- rewrite Hu, amounts_where_cons, Hmem, Euse. simpl. ring.
Qed.

(** What the loop leaves, from its initial state. *)
Lemma aggregate_spec (category_budgets : dict) (fs : list Expense) :
  let st := aggregate category_budgets fs in
  (forall c, mem c (keys category_budgets) = true ->
     exists v, dict_get (fst st) c = Some v
               /\ (v == amounts_where (in_category c) fs)%Q)
  /\ (forall c, mem c (keys category_budgets) = false ->
        dict_get (fst st) c = None)
  /\ (sum (values (fst st)) == amounts_where (budgeted category_budgets) fs)%Q
  /\ (snd st == amounts_where (savings_use category_budgets) fs)%Q.
Proof.
  unfold aggregate.
  destruct (aggregate_fold fs (zero_spending category_budgets) 0%Q)
    as (Hk & Hc & Hs & Hu).
  cbv zeta. repeat split.
  - intros c Hin.
    destruct (Hc c 0%Q) as (v & Hv & Ev).
    { rewrite zero_spending_get, Hin. reflexivity. }
    exists v. split; [exact Hv|]. rewrite Ev. ring.
  - intros c Hout.
    pose proof (dict_get_mem (fst (fold_left aggregate_step fs
                  (zero_spending category_budgets, 0%Q))) c) as Hm.
    rewrite Hk, zero_spending_mem, Hout in Hm.
    destruct (dict_get _ c); [discriminate | reflexivity].
  - rewrite Hs, zero_spending_sum.
    rewrite (amounts_where_ext _ (budgeted category_budgets)).
    + ring.
    + intros e. unfold budgeted. apply zero_spending_mem.
  - rewrite Hu.
    rewrite (amounts_where_ext _ (savings_use category_budgets)).
    + ring.
    + intros e. unfold savings_use, budgeted.
      rewrite zero_spending_mem. reflexivity.
Qed.

(* ================================================================= *)
(** ** The summary *)

Lemma py_div_nonzero (a b : Q) : ~ (b == 0)%Q -> py_div a b = inr (a / b)%Q.
Proof.
  intros Hb. unfold py_div. destruct (Qeq_bool b 0) eqn:E; [|reflexivity].
  apply Qeq_bool_iff in E. contradiction.
Qed.





(** A row is always produced: the division is guarded. *)
Lemma make_row_ok (sp : dict) (cat : str) (budget : Q) :
  let spent := match dict_get sp cat with Some v => v | None => 0%Q end in
  let pct := if Qltb 0 budget then (spent / budget)%Q else 0%Q in
  let filled := int_of_float (inject_Z BAR_LENGTH * py_min pct 1)%Q in
  make_row sp (cat, budget) =
  inr (mkRow cat spent budget (budget - spent)%Q pct filled
         (if Qle_bool 0 (budget - spent)%Q
          then times GreenBlock filled ++ times Dash (BAR_LENGTH - filled)
          else times RedBlock BAR_LENGTH)).
Proof.
  unfold make_row. cbv zeta.
  destruct (Qltb 0 budget) eqn:E; [|reflexivity].
  apply Qltb_lt in E. rewrite py_div_nonzero; [reflexivity|].
  intros H. rewrite H in E. apply (Qlt_irrefl 0). exact E.
Qed.

Lemma make_rows_ok (sp : dict) (items : dict) :
  exists rs, make_rows sp items = inr rs
             /\ Forall2 (fun item r => make_row sp item = inr r) items rs.
Proof.
  induction items as [|[cat budget] items (rs & Hrs & Hall)].
  - exists []. split; [reflexivity | constructor].
  - cbn [make_rows]. pose proof (make_row_ok sp cat budget) as Hrow.
    cbv zeta in Hrow. rewrite Hrow, Hrs.
    eexists. split; [reflexivity|]. constructor; [exact Hrow | exact Hall].
Qed.

(** The daily limit is always produced: the division is guarded. *)
Lemma daily_ok (now : datetime) (rsb : Q) :
  daily now rsb =
  inr (remaining_days_of now,
       if 0 <? remaining_days_of now
       then (rsb / inject_Z (remaining_days_of now))%Q else rsb).
Proof.
  unfold daily, remaining_days_of. cbv zeta.
  destruct (0 <? _) eqn:E; [|reflexivity].
  apply Z.ltb_lt in E. rewrite py_div_nonzero; [reflexivity|].
  unfold Qeq; simpl. lia.
Qed.

Lemma month_filter_ok_header (fm fy : option Z) :
  month_filter_ok fm = true -> header_raises fm fy = false.
Proof.
  destruct fm as [m|], fy as [y|]; simpl; try reflexivity.
  intros H. apply andb_true_iff in H. destruct H as [H1 H2].
  apply Z.leb_le in H1, H2.
  replace ((-13 <=? m) && (m <=? 12)) with true.
  - rewrite andb_false_r. reflexivity.
  - symmetry. apply andb_true_iff. split; apply Z.leb_le; lia.
Qed.

(** The summary of a period that has expenses, field by field. *)
Lemma summarize_printed (all_expenses : list Expense) (category_budgets : dict)
    (fm fy : option Z) (now : datetime) :
  header_raises fm fy = false ->
  filtered_expenses all_expenses fm fy <> [] ->
  let st := aggregate category_budgets (filtered_expenses all_expenses fm fy) in
  let isg := match dict_get category_budgets SAVINGS_CATEGORY with
             | Some v => v | None => 0%Q end in
  let rsb := (sum (values category_budgets) - isg - sum (values (fst st)))%Q in
  exists rs,
    make_rows (fst st) category_budgets = inr rs
    /\ summarize all_expenses category_budgets fm fy now =
       Printed (mkReport rs (sum (values category_budgets))
                  (sum (values (fst st))) isg (snd st) (isg - snd st)%Q rsb
                  (if filter_is fm (month now) && filter_is fy (year now)
                   then Some (remaining_days_of now,
                              if 0 <? remaining_days_of now
                              then (rsb / inject_Z (remaining_days_of now))%Q
                              else rsb)
                   else None)).
Proof.
  intros Hhead Hne st isg rsb.
  destruct (make_rows_ok (fst st) category_budgets) as (rs & Hrs & _).
  exists rs. split; [exact Hrs|].
  unfold summarize. rewrite Hhead.
  destruct (filtered_expenses all_expenses fm fy) as [|e es] eqn:Ef;
    [congruence|].
  fold st. destruct st as [sp used] eqn:Est. simpl fst in *; simpl snd in *.
  rewrite Hrs.
  destruct (filter_is fm (month now) && filter_is fy (year now));
    [rewrite daily_ok|]; reflexivity.
Qed.

Lemma summarize_no_data (all_expenses : list Expense) (category_budgets : dict)
    (fm fy : option Z) (now : datetime) :
  header_raises fm fy = false ->
  filtered_expenses all_expenses fm fy = [] ->
  summarize all_expenses category_budgets fm fy now = NoData.
Proof.
  intros Hhead He. unfold summarize. rewrite Hhead, He. reflexivity.
Qed.

(** The rows follow the mapping, entry by entry. *)
Lemma make_rows_entries (sp : dict) (items : dict) (rs : list row) :
  make_rows sp items = inr rs ->
  map (fun r => (row_category r, budget_amount r)) rs = items
  /\ map spent_amount rs =
     map (fun k => match dict_get sp k with Some v => v | None => 0%Q end)
       (keys items).
Proof.
  revert rs; induction items as [|[cat budget] items IH]; intros rs.
  - intros H; injection H as <-. split; reflexivity.
  - pose proof (make_row_ok sp cat budget) as Hrow. cbv zeta in Hrow.
    cbn [make_rows]. rewrite Hrow.
    destruct (make_rows sp items) as [e|rs'] eqn:E; [discriminate|].
    intros H; injection H as <-. destruct (IH rs' eq_refl) as [H1 H2].
    unfold keys in *. simpl. rewrite H1, H2. split; reflexivity.
Qed.

Lemma keys_dict_set_absent (d : dict) (k : str) (v : Q) :
  dict_get d k = None -> keys (dict_set d k v) = keys d ++ [k].
Proof.
  induction d as [|[k0 v0] d IH]; simpl; [reflexivity|].
  destruct (PyStr.eqb k0 k); [discriminate|].
  intros H. unfold keys in *. simpl. f_equal. apply IH; exact H.
Qed.

Lemma zero_fold_keys (ks : list str) : forall d : dict,
  NoDup (keys d ++ ks) ->
  keys (fold_left (fun d c => dict_set d c 0%Q) ks d) = keys d ++ ks.
Proof.
  induction ks as [|c ks IH]; intros d Hnd; simpl.
  - rewrite app_nil_r. reflexivity.
  - assert (Habs : dict_get d c = None).
    { pose proof (dict_get_mem d c) as Hm.
      destruct (dict_get d c); [|reflexivity].
      apply mem_In in Hm. exfalso.
      apply NoDup_remove_2 in Hnd. apply Hnd.
      apply in_or_app. left; exact Hm. }
    rewrite IH; rewrite (keys_dict_set_absent _ _ _ Habs).
    + rewrite <- app_assoc. reflexivity.
    + rewrite <- app_assoc. exact Hnd.
Qed.

Lemma zero_spending_keys (category_budgets : dict) :
  NoDup (keys category_budgets) ->
  keys (zero_spending category_budgets) = keys category_budgets.
Proof. intros H. unfold zero_spending. rewrite zero_fold_keys; auto. Qed.

Lemma values_by_keys (d : dict) :
  NoDup (keys d) ->
  map (fun k => match dict_get d k with Some v => v | None => 0%Q end) (keys d)
  = values d.
Proof.
  induction d as [|[k0 v0] d IH]; intros Hnd; [reflexivity|].
  unfold keys, values in *. simpl in *.
  rewrite str_eqb_refl. f_equal.
  inversion Hnd as [|? ? Hnotin Hnd']; subst.
  rewrite <- (IH Hnd'). apply map_ext_in. intros k Hk.
  destruct (PyStr.eqb k0 k) eqn:E; [|reflexivity].
  apply str_eqb_eq in E. subst. contradiction.
Qed.

(* ================================================================= *)
(** ** The claims on the summary *)

(** C1, as the code has it: for a period that has expenses, the spending
    budget left is (total budget - initial savings allocation) minus the
    amounts of all the records whose category is a key of the budget
    mapping, the savings category included; the records counted as money
    taken out of savings are not among them. *)
Theorem C1_remaining_spending_budget (all_expenses : list Expense)
    (category_budgets : dict) (fm fy : option Z) (now : datetime) :
  month_filter_ok fm = true ->
  filtered_expenses all_expenses fm fy <> [] ->
  exists rep,
    summarize all_expenses category_budgets fm fy now = Printed rep
    /\ remaining_spending_budget rep =
       (total_budget rep - initial_savings_goal rep - total_spent rep)%Q
    /\ total_budget rep = sum (values category_budgets)
    /\ initial_savings_goal rep =
       match dict_get category_budgets SAVINGS_CATEGORY with
       | Some v => v
       | None => 0%Q
       end
    /\ (total_spent rep ==
        amounts_where (budgeted category_budgets)
          (filtered_expenses all_expenses fm fy))%Q
    /\ (forall e, savings_use category_budgets e = true ->
                  budgeted category_budgets e = false).
Proof.
  intros Hm Hne.
  destruct (summarize_printed all_expenses category_budgets fm fy now
              (month_filter_ok_header fm fy Hm) Hne) as (rs & _ & Hsum).
  cbv zeta in Hsum. eexists. split; [exact Hsum|]. simpl.
  repeat split.
  - apply (aggregate_spec category_budgets).
  - intros e He. unfold savings_use in He.
    apply andb_true_iff in He. destruct He as [He _].
    apply negb_true_iff in He. exact He.
Qed.

(** C2: a record whose category is a key of the budget mapping adds its
    amount to the spent total of that category; otherwise a record of the
    savings-use category adds its amount to the total taken out of
    savings; other records add to neither.  The total spent is the sum of
    the spent totals of the categories, and the adjusted savings goal is
    the initial goal minus the total taken out, without a floor. *)
Theorem C2_aggregation (all_expenses : list Expense)
    (category_budgets : dict) (fm fy : option Z) (now : datetime) :
  month_filter_ok fm = true ->
  NoDup (keys category_budgets) ->
  filtered_expenses all_expenses fm fy <> [] ->
  let fs := filtered_expenses all_expenses fm fy in
  exists rep,
    summarize all_expenses category_budgets fm fy now = Printed rep
    /\ map row_category (rows rep) = keys category_budgets
    /\ Forall (fun r =>
                 (spent_amount r ==
                  amounts_where (in_category (row_category r)) fs)%Q)
         (rows rep)
    /\ (total_savings_used rep ==
        amounts_where (savings_use category_budgets) fs)%Q
    /\ total_spent rep = sum (map spent_amount (rows rep))
    /\ (total_spent rep == amounts_where (budgeted category_budgets) fs)%Q
    /\ initial_savings_goal rep =
       match dict_get category_budgets SAVINGS_CATEGORY with
       | Some v => v
       | None => 0%Q
       end
    /\ adjusted_savings_goal rep =
       (initial_savings_goal rep - total_savings_used rep)%Q.
Proof.
  intros Hm Hnd Hne fs.
  destruct (summarize_printed all_expenses category_budgets fm fy now
              (month_filter_ok_header fm fy Hm) Hne) as (rs & Hrs & Hsum).
  cbv zeta in Hsum. fold fs in Hsum, Hrs.
  destruct (aggregate_spec category_budgets fs) as (Hin & Hout & Hspent & Hused).
  destruct (aggregate_fold fs (zero_spending category_budgets) 0%Q)
    as (Hkeys & _).
  fold (aggregate category_budgets fs) in Hkeys.
  destruct (make_rows_entries _ _ _ Hrs) as [Hent Hsp].
  assert (Hcats : map row_category rs = keys category_budgets).
  { unfold keys. rewrite <- Hent. rewrite map_map. reflexivity. }
  eexists. split; [exact Hsum|]. simpl.
  split; [exact Hcats|]. split; [|split; [exact Hused|split; [|split]]].
  - rewrite Forall_forall. intros r Hr.
    assert (Hc : In (row_category r) (keys category_budgets)).
    { rewrite <- Hcats. apply in_map. exact Hr. }
    apply mem_In in Hc. destruct (Hin _ Hc) as (v & Hv & Ev).
    assert (Hrv : In (row_category r, spent_amount r)
                    (combine (map row_category rs) (map spent_amount rs))).
    { clear -Hr. induction rs as [|r0 rs IH]; [contradiction|].
      destruct Hr as [->|Hr]; [left; reflexivity | right; auto]. }
    rewrite Hsp, Hcats in Hrv.
    assert (Hval : forall (ks : list str) k x,
              In (k, x) (combine ks
                (map (fun k => match dict_get (fst (aggregate category_budgets fs)) k
                               with Some v => v | None => 0%Q end) ks)) ->
              x = match dict_get (fst (aggregate category_budgets fs)) k
                  with Some v => v | None => 0%Q end).
    { induction ks as [|k0 ks IH]; simpl; [contradiction|].
      intros k x [H|H]; [injection H as <- <-; reflexivity | auto]. }
    rewrite (Hval _ _ _ Hrv), Hv. exact Ev.
  - rewrite Hsp. rewrite <- (zero_spending_keys _ Hnd), <- Hkeys.
    rewrite values_by_keys; [reflexivity|].
    rewrite Hkeys, (zero_spending_keys _ Hnd). exact Hnd.
  - exact Hspent.
  - split; reflexivity.
Qed.

Lemma C1_remaining_spending_budget_witness :
  exists rep,
    summarize [Sample.lunch; Sample.repair] Sample.budgets
      (Some 3) (Some 2024) Sample.mid_month = Printed rep
    /\ remaining_spending_budget rep =
       (total_budget rep - initial_savings_goal rep - total_spent rep)%Q
    /\ total_budget rep = sum (values Sample.budgets)
    /\ initial_savings_goal rep =
       match dict_get Sample.budgets SAVINGS_CATEGORY with
       | Some v => v
       | None => 0%Q
       end
    /\ (total_spent rep ==
        amounts_where (budgeted Sample.budgets)
          (filtered_expenses [Sample.lunch; Sample.repair]
             (Some 3%Z) (Some 2024%Z)))%Q
    /\ (forall e, savings_use Sample.budgets e = true ->
                  budgeted Sample.budgets e = false).
Proof.
  apply (C1_remaining_spending_budget [Sample.lunch; Sample.repair]
           Sample.budgets (Some 3) (Some 2024) Sample.mid_month).
  - reflexivity.
  - vm_compute. discriminate.
Defined.

(** C1 as stated fails: a record filed under the savings category itself
    lowers the spending budget left.  With a budget of 200, 500 and 1000
    (savings) and one record of 100 under the savings category, the code
    reports 600, where leaving that record out gives 700. *)
Lemma C1_counterexample :
  exists rep,
    summarize [Sample.deposit] Sample.budgets None None Sample.mid_month
      = Printed rep
    /\ (remaining_spending_budget rep == 600)%Q
    /\ ((total_budget rep - initial_savings_goal rep)
        - amounts_where
            (fun e => budgeted Sample.budgets e
                      && negb (in_category SAVINGS_CATEGORY e))
            (filtered_expenses [Sample.deposit] None None) == 700)%Q
    /\ ~ (remaining_spending_budget rep ==
          (total_budget rep - initial_savings_goal rep)
          - amounts_where
              (fun e => budgeted Sample.budgets e
                        && negb (in_category SAVINGS_CATEGORY e))
              (filtered_expenses [Sample.deposit] None None))%Q.
Proof.
  eexists. split; [vm_compute; reflexivity|].
  split; [reflexivity|]. split; [reflexivity|].
  intros H. vm_compute in H. discriminate H.
Qed.

Lemma C2_aggregation_witness :
  exists rep,
    summarize [Sample.lunch; Sample.rent; Sample.repair] Sample.budgets
      (Some 3) (Some 2024) Sample.mid_month = Printed rep
    /\ total_spent rep = sum (map spent_amount (rows rep))
    /\ adjusted_savings_goal rep =
       (initial_savings_goal rep - total_savings_used rep)%Q.
Proof.
  destruct (C2_aggregation [Sample.lunch; Sample.rent; Sample.repair]
              Sample.budgets (Some 3) (Some 2024) Sample.mid_month)
    as (rep & H1 & _ & _ & _ & H5 & _ & _ & H8).
  - reflexivity.
  - unfold Sample.budgets, keys. simpl.
    repeat constructor; simpl; intuition discriminate.
  - vm_compute. discriminate.
  - exists rep. repeat split; assumption.
Defined.

(** Scenarios A and B: lunch and rent in March 2024 add up to 650, a
    withdrawal of 300 from savings leaves the total spent at 650 and
    lowers the savings goal from 1000 to 700; a larger withdrawal makes
    the adjusted goal negative. *)
Example scenario_A_B :
  exists rep,
    summarize [Sample.lunch; Sample.rent; Sample.repair] Sample.budgets
      (Some 3) (Some 2024) Sample.mid_month = Printed rep
    /\ map spent_amount (rows rep) = [150; 500; 0]%Q
    /\ total_spent rep = 650%Q
    /\ total_savings_used rep = 300%Q
    /\ adjusted_savings_goal rep = 700%Q.
Proof. eexists. split; [vm_compute; reflexivity|]. repeat split. Qed.

Example over_withdrawal :
  exists rep,
    summarize [mkExpense (lit "x") SAVINGS_USE_CATEGORY 1500
                 (lit "2024-03-10 18:30:00")]
      Sample.budgets (Some 3) (Some 2024) Sample.mid_month = Printed rep
    /\ adjusted_savings_goal rep = (-500)%Q.
Proof. eexists. split; [vm_compute; reflexivity|]. reflexivity. Qed.

(** With a month filter within the calendar (or none), a record is
    retained exactly when its time stamp parses and its month and year
    match the filters that are given; a record whose time stamp does not
    parse is left out; an empty selection ends the function with the "no
    data" outcome, and a non-empty one with a report. *)
Lemma period_filter (all_expenses : list Expense)
    (category_budgets : dict) (fm fy : option Z) (now : datetime) :
  month_filter_ok fm = true ->
  let fs := filtered_expenses all_expenses fm fy in
  (forall e, In e fs <->
     In e all_expenses
     /\ exists d, strptime (timestamp e) = Some d
                  /\ (fm = None \/ fm = Some (month d))
                  /\ (fy = None \/ fy = Some (year d)))
  /\ (forall e, strptime (timestamp e) = None -> ~ In e fs)
  /\ (fs = [] ->
      summarize all_expenses category_budgets fm fy now = NoData)
  /\ (fs <> [] ->
      exists rep,
        summarize all_expenses category_budgets fm fy now = Printed rep).
Proof.
  intros Hm fs.
  assert (Hin : forall e, In e fs <->
     In e all_expenses
     /\ exists d, strptime (timestamp e) = Some d
                  /\ (fm = None \/ fm = Some (month d))
                  /\ (fy = None \/ fy = Some (year d))).
  { intros e. unfold fs, filtered_expenses. rewrite filter_In.
    unfold in_period. split.
    - intros [Hall Hp]. split; [exact Hall|].
      destruct (strptime (timestamp e)) as [d|]; [|discriminate].
      exists d. split; [reflexivity|].
      apply andb_true_iff in Hp. destruct Hp as [Hmo Hy]. split.
      + destruct fm as [m|]; [right | left; reflexivity].
        apply Z.eqb_eq in Hmo. congruence.
      + destruct fy as [y|]; [right | left; reflexivity].
        apply Z.eqb_eq in Hy. congruence.
    - intros [Hall (d & Hd & Hmo & Hy)]. split; [exact Hall|].
      rewrite Hd. apply andb_true_iff. split.
      + destruct Hmo as [-> | ->]; [reflexivity | apply Z.eqb_refl].
      + destruct Hy as [-> | ->]; [reflexivity | apply Z.eqb_refl]. }
  split; [exact Hin|]. split; [|split].
  - intros e Hnone He. apply Hin in He.
    destruct He as [_ (d & Hd & _)]. congruence.
  - intros He. apply summarize_no_data;
      [apply month_filter_ok_header; exact Hm | exact He].
  - intros Hne.
    destruct (summarize_printed all_expenses category_budgets fm fy now
                (month_filter_ok_header fm fy Hm) Hne) as (rs & _ & Hsum).
    eexists. exact Hsum.
Qed.

Example period_without_records :
  filtered_expenses
    [Sample.lunch; mkExpense (lit "Old") Sample.FOOD 10 (lit "5 March 2024")]
    (Some 4) (Some 2024) = []
  /\ summarize
       [Sample.lunch; mkExpense (lit "Old") Sample.FOOD 10 (lit "5 March 2024")]
       Sample.budgets (Some 4) (Some 2024) Sample.mid_month = NoData.
Proof. split; reflexivity. Qed.

(** Outside the calendar the month filter is not a period: with a year,
    month 13 makes the header of the summary raise [IndexError]. *)
Example month_13_raises :
  summarize [Sample.lunch] Sample.budgets (Some 13) (Some 2024)
    Sample.mid_month = Raised IndexError.
Proof. reflexivity. Qed.

Lemma valid_datetime_month (d : datetime) :
  valid_datetime d ->
  1 <= month d <= 12
  /\ exists dim, monthrange_days (year d) (month d) = Some dim
                 /\ 1 <= day d <= dim.
Proof.
  unfold valid_datetime, valid_datetimeb. intros H.
  repeat (apply andb_true_iff in H; destruct H as [H ?]).
  destruct (monthrange_days (year d) (month d)) as [dim|] eqn:E;
    [|discriminate].
  split.
  - unfold monthrange_days in E.
    destruct ((1 <=? month d) && (month d <=? 12)) eqn:Em; [|discriminate].
    apply andb_true_iff in Em. destruct Em as [E1 E2].
    apply Z.leb_le in E1, E2. lia.
  - exists dim. split; [reflexivity|].
    match goal with
    | Hd : _ && _ = true |- _ =>
        apply andb_true_iff in Hd; destruct Hd as [D1 D2];
        apply Z.leb_le in D1, D2; lia
    end.
Qed.



(** On the last day of March 2024 one day is left and the daily limit is
    the spending budget left. *)
Example last_day_of_month :
  exists rep,
    summarize [Sample.lunch; Sample.rent] Sample.budgets
      (Some 3) (Some 2024) Sample.last_day = Printed rep
    /\ remaining_spending_budget rep = 50%Q
    /\ daily_limit rep = Some (1, (50 / 1)%Q).
Proof. eexists. split; [vm_compute; reflexivity|]. split; reflexivity. Qed.




(** A budget of 0 with 500 spent: utilization 0, remaining -500, and the
    over-budget bar. *)
Example zero_budget_row :
  make_row [(Sample.HOME, 500%Q)] (Sample.HOME, 0%Q) =
  inr (mkRow Sample.HOME 500 0 (0 - 500)%Q 0 0 (times RedBlock 30)).
Proof. reflexivity. Qed.

(* ================================================================= *)
(** ** The record store *)

Lemma load_lines_app (clk : clock) (before after : list str) : forall t,
  load_lines clk t (before ++ after) =
  let '(es1, log1, t1) := load_lines clk t before in
  let '(es2, log2, t2) := load_lines clk t1 after in
  (es1 ++ es2, log1 ++ log2, t2).
Proof.
  induction before as [|line before IH]; intros t; simpl.
  - destruct (load_lines clk t after) as [[es log] t']. reflexivity.
  - destruct (load_line clk t line) as [[es0 log0] t0].
    rewrite IH.
    destruct (load_lines clk t0 before) as [[es1 log1] t1].
    destruct (load_lines clk t1 after) as [[es2 log2] t2].
    rewrite !app_assoc. reflexivity.
Qed.

Lemma split_length_pos (s : str) : (1 <= length (split s))%nat.
Proof.
  induction s as [|c r IH]; simpl; [lia|].
  destruct (c =? COMMA)%N; simpl; [lia|].
  destruct (split r); simpl; lia.
Qed.

(** A line with too few fields: nothing loaded, one warning. *)
Lemma load_line_too_few (clk : clock) (t : nat) (line : str) :
  strip line <> [] ->
  (length (split (strip line)) < 3)%nat ->
  load_line clk t line = ([], [WarnTooFewFields (strip line)], t).
Proof.
  intros Hne Hlen. unfold load_line.
  destruct (strip line) as [|c r] eqn:E; [congruence|].
  destruct (split (c :: r)) as [|f1 [|f2 [|f3 rest]]]; simpl in Hlen;
    try reflexivity; lia.
Qed.

(** A line whose amount does not parse: nothing loaded, one warning. *)
Lemma load_line_bad_amount (clk : clock) (t : nat) (line : str)
    (n a c : str) (rest : list str) :
  split (strip line) = n :: a :: c :: rest ->
  float_of_str a = None ->
  load_line clk t line = ([], [WarnMalformedAmount (strip line)], t).
Proof.
  intros Hs Ha. unfold load_line.
  destruct (strip line) as [|x r] eqn:E; [discriminate Hs|].
  rewrite Hs, Ha. reflexivity.
Qed.

(** On the numerals of [float_of_str]: a line with fewer than 3 fields
    and a line whose amount is no such numeral load nothing and print one
    warning each, and the lines around them are loaded as if the line
    were absent; a missing file loads as the empty sequence; a file with
    one well-formed line and a line of 2 fields loads as one record. *)
Lemma load_skips (clk : clock) (t : nat) :
  (forall line,
     strip line <> [] -> (length (split (strip line)) < 3)%nat ->
     load_line clk t line = ([], [WarnTooFewFields (strip line)], t))
  /\ (forall line n a c rest,
        split (strip line) = n :: a :: c :: rest -> float_of_str a = None ->
        load_line clk t line = ([], [WarnMalformedAmount (strip line)], t))
  /\ (forall before line after w es1 log1 t1 es2 log2 t2,
        load_lines clk t before = (es1, log1, t1) ->
        load_line clk t1 line = ([], w, t1) ->
        load_lines clk t1 after = (es2, log2, t2) ->
        load_lines clk t (before ++ line :: after)
        = (es1 ++ es2, log1 ++ w ++ log2, t2))
  /\ load_expenses None clk t = ([], [InfoFileNotFound], t)
  /\ load_expenses
       (Some (lit "Lunch,150.00,Food,2024-03-05 12:00:00" ++ [LF]
              ++ lit "broken,12" ++ [LF])) clk t
     = ([mkExpense (lit "Lunch") (lit "Food") (Qmake 15000 100)
           (lit "2024-03-05 12:00:00")],
        [WarnTooFewFields (lit "broken,12")], t).
Proof.
  split; [apply load_line_too_few|].
  split; [apply load_line_bad_amount|].
  split; [|split; reflexivity].
  intros before line after w es1 log1 t1 es2 log2 t2 H1 Hl H2.
  rewrite load_lines_app, H1. cbn [load_lines]. rewrite Hl, H2.
  reflexivity.
Qed.



Lemma pop_length (l : list Expense) (i : nat) :
  (i < length l)%nat -> length (pop i l) = (length l - 1)%nat.
Proof.
  intros H. unfold pop. rewrite length_app, length_firstn, length_skipn. lia.
Qed.


(* ================================================================= *)
(** ** Time stamps: [strptime] reads what [strftime] writes *)

(** A property of every integer of a range follows from a check of each. *)
Lemma Z_range_cases (P : Z -> Prop) (lo : Z) (len : nat) :
  Forall P (map (fun i => lo + Z.of_nat i) (seq 0 len)) ->
  forall n, lo <= n < lo + Z.of_nat len -> P n.
Proof.
  intros H n Hn. rewrite Forall_forall in H. apply H.
  apply in_map_iff. exists (Z.to_nat (n - lo)).
  split; [lia | apply in_seq; lia].
Qed.

Lemma Z_range_check (f : Z -> bool) (lo : Z) (len : nat) :
  forallb f (map (fun i => lo + Z.of_nat i) (seq 0 len)) = true ->
  forall n, lo <= n < lo + Z.of_nat len -> f n = true.
Proof.
  intros H. apply Z_range_cases. apply Forall_forall.
  rewrite forallb_forall in H. exact H.
Qed.



Lemma isdigit_digit_chr (d : Z) : 0 <= d <= 9 -> isdigit (digit_chr d) = true.
Proof.
  intros Hd. unfold isdigit, digit_chr.
  apply andb_true_iff. split; apply N.leb_le; lia.
Qed.



Section FirstMatch.
Context {A : Type}.
Implicit Types (k : str -> str -> option A) (x : A).







End FirstMatch.

Lemma valid_datetime_ranges (d : datetime) :
  valid_datetime d ->
  1 <= year d <= 9999 /\ 1 <= month d <= 12 /\ 1 <= day d <= 31
  /\ 0 <= hour d <= 23 /\ 0 <= minute d <= 59 /\ 0 <= second d <= 59.
Proof.
  intros Hv. destruct (valid_datetime_month d Hv) as (Hm & dim & Hdim & Hd).
  unfold valid_datetime, valid_datetimeb in Hv.
  repeat (apply andb_true_iff in Hv; destruct Hv as [Hv ?]).
  repeat match goal with
         | H : (_ <=? _) = true |- _ => apply Z.leb_le in H
         end.
  assert (dim <= 31).
  { unfold monthrange_days in Hdim.
    destruct ((1 <=? month d) && (month d <=? 12)); [|discriminate].
    apply (f_equal (fun o => match o with Some v => v | None => 0 end))
      in Hdim.
    cbv beta iota in Hdim. rewrite <- Hdim.
    assert (Hnth : nth (Z.to_nat (month d)) mdays 0 <= 31).
    { assert (Hc : forall m, 1 <= m < 1 + Z.of_nat 12 ->
                             (nth (Z.to_nat m) mdays 0 <=? 31) = true)
        by (apply Z_range_check; reflexivity).
      apply Z.leb_le, Hc. lia. }
    destruct ((month d =? 2) && isleap (year d)) eqn:E; [|lia].
    apply andb_true_iff in E. destruct E as [E _].
    apply Z.eqb_eq in E. rewrite E. simpl. lia. }
  lia.
Qed.



(* ================================================================= *)
(** ** Deleting a record, and records without a time stamp *)


(** Scenario D: deleting number 2 of a store of three records leaves the
    first and the third, in that order. *)
Example scenario_D :
  delete_expense (Some Sample.store3) [lit "2"] Sample.ticking 0
  = (Some (save_all_expenses [Sample.lunch; Sample.repair]),
     [Deleted (lit "Rent")], Returned)
  /\ load_expenses (Some (save_all_expenses [Sample.lunch; Sample.repair]))
       Sample.ticking 0
     = ([rounded Sample.lunch; rounded Sample.repair], [], 0%nat).
Proof. split; vm_compute; reflexivity. Qed.

(** An out-of-bounds number and a word are answered and asked again; the
    cancel selection then leaves the store as it was. *)
Example delete_cancelled :
  delete_expense (Some Sample.store3) [lit "4"; lit "0"; lit "two"; lit "C"]
    Sample.ticking 0
  = (Some Sample.store3,
     [InvalidNumber; InvalidNumber; InvalidInput; DeletionCancelled], Returned).
Proof. vm_compute. reflexivity. Qed.



(* ================================================================= *)
(** ** Lines of the file: [strip], [split] and [readlines] *)

Lemma lstrip_length (s : str) : (length (lstrip s) <= length s)%nat.
Proof.
  induction s as [|c r IH]; simpl; [lia|].
  destruct (isspace c); simpl; lia.
Qed.

Lemma lstrip_fixed (s : str) :
  lstrip s = s ->
  match s with c :: _ => isspace c = false | [] => True end.
Proof.
  destruct s as [|c r]; simpl; [trivial|].
  destruct (isspace c); [|reflexivity].
  intros H. pose proof (lstrip_length r) as Hl. rewrite H in Hl.
  simpl in Hl. lia.
Qed.

Lemma lstrip_field (f rest : str) :
  lstrip f = f -> lstrip (f ++ COMMA :: rest) = f ++ COMMA :: rest.
Proof.
  intros H. apply lstrip_fixed in H. destruct f as [|c r]; simpl.
  - reflexivity.
  - rewrite H. reflexivity.
Qed.

Lemma rstrip_app_space (s : str) (c : char) :
  isspace c = true -> rstrip (s ++ [c]) = rstrip s.
Proof.
  intros Hc. induction s as [|x s IH]; simpl.
  - rewrite Hc. reflexivity.
  - rewrite IH. reflexivity.
Qed.

Lemma rstrip_app_keep (a b : str) :
  rstrip b <> [] -> rstrip (a ++ b) = a ++ rstrip b.
Proof.
  intros Hb. induction a as [|x a IH]; simpl; [reflexivity|].
  rewrite IH. destruct (a ++ rstrip b) eqn:E; [|reflexivity].
  apply app_eq_nil in E. destruct E as [_ E]. contradiction.
Qed.

Lemma split_field (f rest : str) :
  ~ In COMMA f -> split (f ++ COMMA :: rest) = f :: split rest.
Proof.
  induction f as [|c f IH]; intros Hf; simpl.
  - reflexivity.
  - destruct (c =? COMMA)%N eqn:E.
    + apply N.eqb_eq in E. exfalso. apply Hf. left. auto.
    + rewrite IH; [reflexivity|]. intros Hin. apply Hf. right. exact Hin.
Qed.

Lemma split_last (f : str) : ~ In COMMA f -> split f = [f].
Proof.
  induction f as [|c f IH]; intros Hf; simpl.
  - reflexivity.
  - destruct (c =? COMMA)%N eqn:E.
    + apply N.eqb_eq in E. exfalso. apply Hf. left. auto.
    + rewrite IH; [reflexivity|]. intros Hin. apply Hf. right. exact Hin.
Qed.

Lemma readlines_line (body rest : str) :
  ~ In LF body -> ~ In CR body ->
  readlines (body ++ LF :: rest) = (body ++ [LF]) :: readlines rest.
Proof.
  induction body as [|c b IH]; intros Hlf Hcr.
  - reflexivity.
  - cbn [app readlines].
    destruct (c =? LF)%N eqn:E1.
    { apply N.eqb_eq in E1. exfalso. apply Hlf. left. auto. }
    destruct (c =? CR)%N eqn:E2.
    { apply N.eqb_eq in E2. exfalso. apply Hcr. left. auto. }
    rewrite IH; [reflexivity | |]; intros Hin;
      [apply Hlf | apply Hcr]; right; exact Hin.
Qed.

Lemma not_in_app (x : char) (a b : str) :
  ~ In x a -> ~ In x b -> ~ In x (a ++ b).
Proof. intros Ha Hb Hin. apply in_app_or in Hin. tauto. Qed.

(* ================================================================= *)
(** ** Amounts: [float] reads what [.2f] writes *)

Lemma numeral_char_cases (c : char) :
  numeral_char c = true ->
  isspace c = false /\ c <> COMMA /\ c <> LF /\ c <> CR
  /\ c <> UNDERSCORE.
Proof.
  unfold numeral_char, isdigit. intros H.
  assert (Hc : (45 <= c <= 57)%N).
  { apply orb_true_iff in H. destruct H as [H|H].
    - apply orb_true_iff in H.
      destruct H as [H|H]; apply N.eqb_eq in H; subst c; cbv; split; congruence.
    - apply andb_true_iff in H. destruct H as [H1 H2].
      apply N.leb_le in H1, H2. lia. }
  assert (Hz : negb (isspace c) = true).
  { replace c with (Z.to_N (Z.of_N c)) by lia.
    apply (Z_range_check (fun z => negb (isspace (Z.to_N z))) 45 13 eq_refl).
    lia. }
  apply negb_true_iff in Hz.
  unfold COMMA, LF, CR, UNDERSCORE. repeat split; try exact Hz; lia.
Qed.

Lemma uint_chars_numeral (u : Decimal.uint) :
  Forall (fun c => numeral_char c = true) (uint_chars u).
Proof. induction u; simpl; constructor; auto. Qed.

Lemma digit_chr_numeral (d : Z) : 0 <= d <= 9 -> numeral_char (digit_chr d) = true.
Proof.
  intros Hd. unfold numeral_char. rewrite (isdigit_digit_chr d Hd).
  apply orb_true_r.
Qed.

Lemma pad2_numeral (n : Z) :
  0 <= n < 100 -> Forall (fun c => numeral_char c = true) (pad2 n).
Proof.
  intros Hn. unfold pad2. repeat constructor; apply digit_chr_numeral.
  - split; [apply Z.div_pos; lia|].
    apply Z.lt_succ_r. apply Z.div_lt_upper_bound; lia.
  - pose proof (Z.mod_pos_bound n 10). lia.
Qed.

Lemma format_2f_numeral (q : Q) :
  Forall (fun c => numeral_char c = true) (format_2f q).
Proof.
  unfold format_2f, dec.
  apply Forall_app. split.
  { destruct (Qnum q <? 0); repeat constructor. }
  apply Forall_app. split; [apply uint_chars_numeral|].
  apply Forall_app. split; [repeat constructor|].
  apply pad2_numeral. apply Z.mod_pos_bound. lia.
Qed.

Lemma format_2f_plain (q : Q) : plain (format_2f q).
Proof.
  pose proof (format_2f_numeral q) as H. rewrite Forall_forall in H.
  unfold plain. repeat split; intros Hin; apply H in Hin;
    apply numeral_char_cases in Hin; tauto.
Qed.

Lemma rstrip_no_space (s : str) :
  Forall (fun c => isspace c = false) s -> rstrip s = s.
Proof.
  induction 1 as [|c r Hc _ IH]; simpl; [reflexivity|].
  rewrite IH, Hc. destruct r; reflexivity.
Qed.

Lemma strip_no_space (s : str) :
  Forall (fun c => isspace c = false) s -> strip s = s.
Proof.
  intros H. unfold strip.
  replace (lstrip s) with s; [apply rstrip_no_space; exact H|].
  destruct H as [|c r Hc _]; simpl; [reflexivity|].
  rewrite Hc. reflexivity.
Qed.

Lemma strip_format_2f (q : Q) : strip (format_2f q) = format_2f q.
Proof.
  apply strip_no_space. eapply Forall_impl; [|apply format_2f_numeral].
  intros c Hc. apply numeral_char_cases in Hc. tauto.
Qed.

Lemma scan_digits_uint (u : Decimal.uint) (r : str) :
  ends_digits r -> scan_digits (uint_chars u ++ r) = (u, r).
Proof.
  intros Hr.
  assert (Hnil : scan_digits r = (Decimal.Nil, r)).
  { destruct r as [|c r']; [reflexivity|]. simpl in Hr |- *.
    destruct Hr as [-> _]. reflexivity. }
  assert (Hhead : forall c1 r1, r = c1 :: r1 -> (c1 =? UNDERSCORE)%N = false).
  { intros c1 r1 ->. simpl in Hr. apply N.eqb_neq. tauto. }
  induction u as [|u IH|u IH|u IH|u IH|u IH|u IH|u IH|u IH|u IH|u IH];
    [exact Hnil|..];
    cbn [uint_chars app scan_digits];
    change (digit_of 48%N) with (Some Decimal.D0);
    change (digit_of 49%N) with (Some Decimal.D1);
    change (digit_of 50%N) with (Some Decimal.D2);
    change (digit_of 51%N) with (Some Decimal.D3);
    change (digit_of 52%N) with (Some Decimal.D4);
    change (digit_of 53%N) with (Some Decimal.D5);
    change (digit_of 54%N) with (Some Decimal.D6);
    change (digit_of 55%N) with (Some Decimal.D7);
    change (digit_of 56%N) with (Some Decimal.D8);
    change (digit_of 57%N) with (Some Decimal.D9);
    cbv iota beta;
    (destruct (uint_chars u ++ r) as [|c1 r1] eqn:E;
     [ apply app_eq_nil in E; destruct E as [Eu Er];
       destruct u; try discriminate Eu; subst r; reflexivity
     | assert (Hc1 : (c1 =? UNDERSCORE)%N = false)
         by (destruct u; try (injection E as <- _; reflexivity);
             apply (Hhead c1 r1); exact E);
       rewrite Hc1, IH; reflexivity ]).
Qed.

Lemma scan_digits_pad2 (n : Z) :
  0 <= n < 100 ->
  exists u, scan_digits (pad2 n) = (u, [])
            /\ uint_val u = n /\ Decimal.nb_digits u = 2%nat
            /\ is_nil u = false.
Proof.
  intros Hn.
  pose proof (Z_range_check
    (fun n => match scan_digits (pad2 n) with
              | (u, []) => (uint_val u =? n)
                           && Nat.eqb (Decimal.nb_digits u) 2
                           && negb (is_nil u)
              | _ => false
              end) 0 100 eq_refl n Hn) as H.
  cbv beta in H. destruct (scan_digits (pad2 n)) as [u [|c r]]; [|discriminate].
  exists u. repeat (apply andb_true_iff in H; destruct H as [H ?]).
  split; [reflexivity|]. split; [apply Z.eqb_eq; assumption|].
  split; [apply Nat.eqb_eq; assumption | apply negb_true_iff; assumption].
Qed.

Lemma uint_val_to_uint (n : Z) : 0 <= n -> uint_val (N.to_uint (Z.to_N n)) = n.
Proof.
  intros Hn. unfold uint_val. rewrite DecimalN.Unsigned.of_to. lia.
Qed.

(** A numeral starts with a digit. *)
Lemma dec_head (n : Z) :
  exists c r, dec n = c :: r /\ isdigit c = true.
Proof.
  unfold dec.
  assert (Hnn : N.to_uint (Z.to_N n) <> Decimal.Nil).
  { destruct (Z.to_N n); simpl; [discriminate|].
    apply DecimalPos.Unsigned.to_uint_nonnil. }
  destruct (N.to_uint (Z.to_N n)); try congruence; simpl;
    eexists; eexists; (split; [reflexivity|reflexivity]).
Qed.

(** The sign of the amount is the sign of its hundredths. *)
Lemma cents_sign (q : Q) :
  (if Qnum q <? 0 then - Z.abs (cents q) else Z.abs (cents q)) = cents q.
Proof.
  unfold cents, round_half_even. simpl Qnum. simpl Qden.
  set (n := (Qnum q * 100)%Z). set (d := Z.pos (Qden q * 1)).
  assert (Hd : 0 < d) by (unfold d; lia).
  pose proof (Z.div_mod n d ltac:(lia)) as Hdm.
  pose proof (Z.mod_pos_bound n d Hd) as Hmod.
  destruct (Qnum q <? 0) eqn:E.
  - apply Z.ltb_lt in E.
    assert (Hfl : n / d < 0) by (apply Z.div_lt_upper_bound; lia).
    destruct (2 * (n mod d) ?= d); [destruct (Z.even (n / d))| |]; lia.
  - apply Z.ltb_ge in E.
    assert (Hfl : 0 <= n / d) by (apply Z.div_pos; lia).
    destruct (2 * (n mod d) ?= d); [destruct (Z.even (n / d))| |]; lia.
Qed.

(** [float] reads the numeral [.2f] writes as the amount rounded to 2
    decimals. *)
Lemma float_of_str_format_2f (q : Q) :
  float_of_str (format_2f q) = Some (round2 q).
Proof.
  unfold float_of_str. rewrite strip_format_2f. unfold format_2f.
  set (c := Z.abs (cents q)).
  assert (Hc : 0 <= c) by (unfold c; lia).
  destruct (scan_digits_pad2 (c mod 100)) as (f & Hf & Hfv & Hfk & Hfn).
  { apply Z.mod_pos_bound. lia. }
  assert (Hsign : scan_sign ((if Qnum q <? 0 then [MINUS] else [])
                             ++ dec (c / 100) ++ [DOT] ++ pad2 (c mod 100))
                  = (Qnum q <? 0, dec (c / 100) ++ [DOT] ++ pad2 (c mod 100))).
  { destruct (Qnum q <? 0); [reflexivity|]. cbn [app].
    destruct (dec_head (c / 100)) as (x & r & -> & Hx).
    unfold isdigit in Hx. apply andb_true_iff in Hx. destruct Hx as [H1 H2].
    apply N.leb_le in H1, H2. cbn [app scan_sign].
    replace (x =? MINUS)%N with false by (symmetry; apply N.eqb_neq; unfold MINUS; lia).
    replace (x =? PLUS)%N with false by (symmetry; apply N.eqb_neq; unfold PLUS; lia).
    reflexivity. }
  rewrite Hsign. unfold dec at 1.
  cbn [app]. rewrite scan_digits_uint by (split; [reflexivity | discriminate]).
  rewrite N.eqb_refl, Hf, Hfn, andb_false_r.
  cbn [scan_exponent]. rewrite Hfk, Hfv.
  rewrite uint_val_to_uint by (apply Z.div_pos; lia).
  unfold round2. f_equal.
  change (pow10 2) with 100%positive.
  replace (c / 100 * 100 + c mod 100) with c
    by (pose proof (Z.div_mod c 100 ltac:(lia)); lia).
  unfold c. rewrite cents_sign. reflexivity.
Qed.

(* ================================================================= *)
(** ** Writing the store and loading it back *)

(** The line of a record without its line feed. *)
Lemma expense_line_body (e : Expense) :
  expense_line e =
  (name e ++ COMMA :: format_2f (amount e) ++ COMMA :: category e
     ++ COMMA :: timestamp e) ++ [LF].
Proof.
  unfold expense_line. cbn [app].
  repeat (rewrite <- app_assoc; cbn [app]). reflexivity.
Qed.

Lemma expense_line_no_break (e : Expense) :
  storable e ->
  let body := name e ++ COMMA :: format_2f (amount e) ++ COMMA :: category e
                ++ COMMA :: timestamp e in
  ~ In LF body /\ ~ In CR body.
Proof.
  intros (Hn & Hc & Ht & _) body.
  destruct Hn as (_ & Hn1 & Hn2), Hc as (_ & Hc1 & Hc2),
           Ht as (_ & Ht1 & Ht2).
  destruct (format_2f_plain (amount e)) as (_ & Hf1 & Hf2).
  assert (Hcomma : forall x r, x <> COMMA -> ~ In x r -> ~ In x (COMMA :: r)).
  { intros x r Hx Hr [H|H]; [congruence | contradiction]. }
  unfold body. split.
  - apply not_in_app; [exact Hn1|]. apply Hcomma; [discriminate|].
    apply not_in_app; [exact Hf1|]. apply Hcomma; [discriminate|].
    apply not_in_app; [exact Hc1|]. apply Hcomma; [discriminate|]. exact Ht1.
  - apply not_in_app; [exact Hn2|]. apply Hcomma; [discriminate|].
    apply not_in_app; [exact Hf2|]. apply Hcomma; [discriminate|].
    apply not_in_app; [exact Hc2|]. apply Hcomma; [discriminate|]. exact Ht2.
Qed.

(** [readlines] cuts the text written by [save_all_expenses] back into the
    lines of the records. *)
Lemma readlines_save_all (es : list Expense) :
  Forall storable es ->
  readlines (save_all_expenses es) = map expense_line es.
Proof.
  induction 1 as [|e es He _ IH]; [reflexivity|].
  unfold save_all_expenses in *. cbn [map concat].
  destruct (expense_line_no_break e He) as [Hlf Hcr].
  rewrite (expense_line_body e) at 1. rewrite <- app_assoc. cbn [app].
  rewrite readlines_line by assumption.
  rewrite IH, <- expense_line_body. reflexivity.
Qed.

Lemma strip_expense_line (e : Expense) :
  storable e ->
  strip (expense_line e) =
  name e ++ COMMA :: format_2f (amount e) ++ COMMA :: category e
    ++ COMMA :: timestamp e.
Proof.
  intros (_ & _ & _ & Hl & Hr & Hne).
  rewrite expense_line_body. unfold strip.
  rewrite <- app_assoc. cbn [app]. rewrite lstrip_field by exact Hl.
  replace (name e ++ COMMA :: (format_2f (amount e) ++ COMMA :: category e
             ++ COMMA :: timestamp e) ++ [LF])
    with ((name e ++ COMMA :: format_2f (amount e) ++ COMMA :: category e
             ++ [COMMA]) ++ timestamp e ++ [LF])
    by (repeat (rewrite <- app_assoc; cbn [app]); reflexivity).
  assert (Hts : rstrip (timestamp e ++ [LF]) = timestamp e).
  { rewrite rstrip_app_space by reflexivity. exact Hr. }
  rewrite rstrip_app_keep by (rewrite Hts; exact Hne).
  rewrite Hts. repeat (rewrite <- app_assoc; cbn [app]). reflexivity.
Qed.

(** The line of a record loads as the record with its amount rounded,
    without a warning and without a reading of the clock. *)
Lemma load_line_expense_line (clk : clock) (t : nat) (e : Expense) :
  storable e -> load_line clk t (expense_line e) = ([rounded e], [], t).
Proof.
  intros He. unfold load_line. rewrite (strip_expense_line e He).
  destruct He as (Hn & Hc & Ht & _ & _ & Hne).
  destruct (name e ++ COMMA :: format_2f (amount e) ++ COMMA :: category e
              ++ COMMA :: timestamp e) as [|x r] eqn:E.
  { apply app_eq_nil in E. destruct E as [_ E]. discriminate E. }
  rewrite <- E. clear E.
  rewrite split_field by apply Hn.
  rewrite split_field by apply format_2f_plain.
  rewrite split_field by apply Hc.
  rewrite split_last by apply Ht.
  rewrite float_of_str_format_2f. unfold Expense_init, rounded.
  destruct (timestamp e); [congruence | reflexivity].
Qed.

Lemma load_lines_expense_lines (clk : clock) (t : nat) (es : list Expense) :
  Forall storable es ->
  load_lines clk t (map expense_line es) = (map rounded es, [], t).
Proof.
  induction 1 as [|e es He _ IH]; [reflexivity|].
  cbn [map load_lines]. rewrite (load_line_expense_line clk t e He), IH.
  reflexivity.
Qed.

(** C7, as the code has it: records whose name, category and time stamp
    hold no comma and no line break, whose name does not start with white
    space and whose time stamp is not empty and does not end with white
    space, are loaded back from the store they were written to as the same
    records, in the same order, with the amount rounded to 2 decimals; no
    warning is printed and the clock is not read. *)
Theorem C7_round_trip (es : list Expense) (clk : clock) (t : nat) :
  Forall storable es ->
  load_expenses (Some (save_all_expenses es)) clk t = (map rounded es, [], t)
  /\ Forall2 (fun e l =>
                name l = name e /\ amount l = round2 (amount e)
                /\ category l = category e /\ timestamp l = timestamp e)
       es (map rounded es).
Proof.
  intros Hes. split.
  - unfold load_expenses. rewrite (readlines_save_all es Hes).
    apply load_lines_expense_lines. exact Hes.
  - clear. induction es as [|e es IH]; simpl; constructor; auto.
Qed.

Lemma storable_sample (e : Expense) :
  In e Sample.three -> storable e.
Proof.
  intros [<- | [<- | [<- | []]]];
    (repeat split; try reflexivity; try discriminate;
     intros Hin; vm_compute in Hin; intuition discriminate).
Defined.

Lemma C7_round_trip_witness :
  load_expenses (Some (save_all_expenses Sample.three)) Sample.ticking 0
  = (map rounded Sample.three, [], 0%nat).
Proof.
  refine (proj1 (C7_round_trip Sample.three Sample.ticking 0 _)).
  apply Forall_forall. exact storable_sample.
Defined.

(** C7 as stated fails: no field of the record holds a comma, yet the name
    " Lunch" comes back as "Lunch", since [load_expenses] strips the line
    before it splits it. *)
Lemma C7_counterexample :
  (~ In COMMA (name Sample.padded)
   /\ ~ In COMMA (format_2f (amount Sample.padded))
   /\ ~ In COMMA (category Sample.padded)
   /\ ~ In COMMA (timestamp Sample.padded))
  /\ load_expenses (Some (save_all_expenses [Sample.padded])) Sample.ticking 0
     = ([mkExpense (lit "Lunch") Sample.FOOD (round2 150)
           (lit "2024-03-05 12:00:00")], [], 0%nat)
  /\ lit "Lunch" <> name Sample.padded
  /\ fst (fst (load_expenses (Some (save_all_expenses [Sample.padded]))
                 Sample.ticking 0))
     <> map rounded [Sample.padded].
Proof.
  split.
  { repeat split; intros Hin; vm_compute in Hin; intuition discriminate. }
  split; [vm_compute; reflexivity|].
  split; [discriminate|].
  intros H. vm_compute in H. discriminate H.
Qed.

(* ================================================================= *)
(** ** Further properties: what [load_expenses] returns *)

Lemma In_lstrip (c : char) (s : str) : In c (lstrip s) -> In c s.
Proof.
  induction s as [|x s IH]; simpl; [tauto|].
  destruct (isspace x); [right; auto | simpl; tauto].
Qed.

Lemma In_rstrip (c : char) (s : str) : In c (rstrip s) -> In c s.
Proof.
  induction s as [|x s IH]; simpl; [tauto|].
  destruct (rstrip s) as [|y r].
  - destruct (isspace x); simpl; tauto.
  - intros [H|H]; [left; exact H | right; apply IH; exact H].
Qed.

Lemma In_strip (c : char) (s : str) : In c (strip s) -> In c s.
Proof. intros H. apply In_lstrip, In_rstrip. exact H. Qed.

Lemma lstrip_head (s : str) :
  match lstrip s with c :: _ => isspace c = false | [] => True end.
Proof.
  induction s as [|x s IH]; simpl; [trivial|].
  destruct (isspace x) eqn:E; [exact IH | exact E].
Qed.

Lemma rstrip_head (s : str) (c : char) (r : str) :
  rstrip s = c :: r -> exists r', s = c :: r'.
Proof.
  destruct s as [|x s]; simpl; [discriminate|].
  destruct (rstrip s).
  - destruct (isspace x); [discriminate|].
    intros H; injection H as -> _. eexists; reflexivity.
  - intros H; injection H as -> _. eexists; reflexivity.
Qed.

(** A stripped line does not start with white space. *)
Lemma strip_head (s : str) :
  match strip s with c :: _ => isspace c = false | [] => True end.
Proof.
  unfold strip. destruct (rstrip (lstrip s)) as [|c r] eqn:E; [trivial|].
  destruct (rstrip_head _ _ _ E) as [r' Hr'].
  pose proof (lstrip_head s) as H. rewrite Hr' in H. exact H.
Qed.

Lemma lstrip_of_head (s : str) :
  match s with c :: _ => isspace c = false | [] => True end -> lstrip s = s.
Proof. destruct s as [|c r]; simpl; [reflexivity|]. intros ->. reflexivity. Qed.

(** The fields of a line hold no comma and only characters of the line;
    the first one starts the line. *)
Lemma split_fields (s : str) :
  Forall (fun f => ~ In COMMA f /\ forall c, In c f -> In c s) (split s).
Proof.
  induction s as [|x s IH]; simpl.
  - constructor; [split; [intros [] | intros c []] | constructor].
  - destruct (x =? COMMA)%N eqn:E.
    + constructor; [split; [tauto | intros c []]|].
      eapply Forall_impl; [|exact IH]. intros f [H1 H2].
      split; [exact H1 | intros c Hc; right; auto].
    + destruct (split s) as [|f fs].
      * constructor; [split|constructor].
        -- intros [H|[]]. apply N.eqb_neq in E. congruence.
        -- intros c [H|[]]. left; exact H.
      * inversion IH as [|? ? [Hf1 Hf2] Hfs]; subst. constructor.
        -- split.
           ++ intros [H|H]; [apply N.eqb_neq in E; congruence | tauto].
           ++ intros c [H|H]; [left; exact H | right; auto].
        -- eapply Forall_impl; [|exact Hfs]. intros g [H1 H2].
           split; [exact H1 | intros c Hc; right; auto].
Qed.

Lemma split_first_head (s : str) (f : str) (fs : list str) :
  split s = f :: fs ->
  match f with
  | c :: _ => exists r, s = c :: r
  | [] => True
  end.
Proof.
  destruct s as [|x s]; simpl.
  - intros H; injection H as <- _. trivial.
  - destruct (x =? COMMA)%N.
    + intros H; injection H as <- _. trivial.
    + destruct (split s); intros H; injection H as <- _;
        eexists; reflexivity.
Qed.

Lemma lstrip_app_space (a : str) (c : char) :
  isspace c = true ->
  lstrip (a ++ [c]) = match lstrip a with [] => [] | _ :: _ => lstrip a ++ [c] end.
Proof.
  intros Hc. induction a as [|x a IH]; simpl.
  - rewrite Hc. reflexivity.
  - destruct (isspace x); [exact IH | reflexivity].
Qed.

Lemma strip_app_space (a : str) (c : char) :
  isspace c = true -> strip (a ++ [c]) = strip a.
Proof.
  intros Hc. unfold strip. rewrite (lstrip_app_space a c Hc).
  destruct (lstrip a) as [|x r] eqn:E; [reflexivity|].
  rewrite <- E. apply rstrip_app_space. exact Hc.
Qed.

(** A line handed over by [readlines] holds no carriage return, and no
    line feed but its terminator. *)
Lemma readlines_shape (s : str) :
  Forall (fun l => exists body,
            (l = body ++ [LF] \/ l = body)
            /\ ~ In LF body /\ ~ In CR body) (readlines s).
Proof.
  assert (Hlf : exists body : str,
            ([LF] = body ++ [LF] \/ [LF] = body)
            /\ ~ In LF body /\ ~ In CR body).
  { exists []. split; [left; reflexivity | split; intros []]. }
  induction s as [|x s IH]; [constructor|].
  cbn [readlines].
  destruct (x =? LF)%N eqn:E1; [constructor; assumption|].
  destruct (x =? CR)%N eqn:E2.
  - destruct s as [|y s'].
    + repeat constructor; assumption.
    + destruct (y =? LF)%N; [exact IH | constructor; assumption].
  - apply N.eqb_neq in E1, E2.
    destruct (readlines s) as [|l ls].
    + constructor; [|constructor]. exists [x].
      split; [right; reflexivity|]. split; intros [H|[]]; congruence.
    + inversion IH as [|? ? (body & Hb & Hb1 & Hb2) Hls]; subst.
      constructor; [|exact Hls]. exists (x :: body). split.
      * destruct Hb as [-> | ->]; [left | right]; reflexivity.
      * split; intros [H|H]; congruence || tauto.
Qed.

Lemma readlines_strip_plain (s : str) :
  Forall (fun l => ~ In LF (strip l) /\ ~ In CR (strip l)) (readlines s).
Proof.
  eapply Forall_impl; [|apply readlines_shape].
  intros l (body & Hb & H1 & H2).
  assert (Hs : strip l = strip body).
  { destruct Hb as [-> | ->]; [apply strip_app_space | ]; reflexivity. }
  rewrite Hs. split; intros Hin; apply In_strip in Hin; tauto.
Qed.

Lemma strftime_nonempty (d : datetime) : strftime d <> [].
Proof. unfold strftime, pad4. simpl. discriminate. Qed.

(** The records of one line. *)
Lemma load_line_shape (clk : clock) (t : nat) (line : str) :
  ~ In LF (strip line) -> ~ In CR (strip line) ->
  Forall (loaded_shape clk) (fst (fst (load_line clk t line))).
Proof.
  intros Hlf Hcr. unfold load_line.
  pose proof (strip_head line) as Hhead.
  pose proof (split_fields (strip line)) as Hfields.
  pose proof (split_first_head (strip line)) as Hfirst.
  destruct (strip line) as [|x r] eqn:E; [constructor|].
  destruct (split (x :: r)) as [|n [|a [|c rest]]]; try constructor.
  destruct (float_of_str a) as [q|]; [|constructor].
  assert (Hplain : forall f, In f (n :: a :: c :: rest) -> plain f).
  { intros f Hf. rewrite Forall_forall in Hfields.
    destruct (Hfields f Hf) as [H1 H2].
    unfold plain. repeat split; [exact H1 | |]; intros Hin;
      apply H2 in Hin; tauto. }
  assert (Hn : lstrip n = n).
  { apply lstrip_of_head. specialize (Hfirst n (a :: c :: rest) eq_refl).
    destruct n as [|y n']; [trivial|].
    destruct Hfirst as [r' Hr']. injection Hr' as <- _. exact Hhead. }
  assert (Hnp : plain n) by (apply Hplain; simpl; tauto).
  assert (Hcp : plain c) by (apply Hplain; simpl; tauto).
  assert (Hclock : loaded_shape clk (mkExpense n c q (strftime (clk t)))).
  { unfold loaded_shape; simpl.
    split; [exact Hnp|]. split; [exact Hcp|]. split; [exact Hn|].
    split; [apply strftime_nonempty|]. right. exists t. reflexivity. }
  destruct rest as [|[|z ts'] rest']; simpl.
  - constructor; [exact Hclock | constructor].
  - constructor; [exact Hclock | constructor].
  - constructor; [|constructor]. unfold loaded_shape; simpl.
    split; [exact Hnp|]. split; [exact Hcp|]. split; [exact Hn|].
    split; [discriminate|]. left. apply Hplain. simpl. tauto.
Qed.

Lemma load_lines_shape (clk : clock) (lines : list str) : forall t,
  Forall (fun l => ~ In LF (strip l) /\ ~ In CR (strip l)) lines ->
  Forall (loaded_shape clk) (fst (fst (load_lines clk t lines))).
Proof.
  induction lines as [|line more IH]; intros t Hl; simpl; [constructor|].
  inversion Hl as [|? ? [H1 H2] Hmore]; subst.
  pose proof (load_line_shape clk t line H1 H2) as Hline.
  destruct (load_line clk t line) as [[es1 log1] t1].
  specialize (IH t1 Hmore).
  destruct (load_lines clk t1 more) as [[es2 log2] t2].
  simpl in *. apply Forall_app. split; assumption.
Qed.

(** X1: whatever the file holds, the fields of a loaded record hold no
    comma and no line break, its name does not start with white space and
    its time stamp is not empty. *)
Theorem X1_loaded_records_shape (file : option str) (clk : clock) (t : nat) :
  Forall (loaded_shape clk) (fst (fst (load_expenses file clk t))).
Proof.
  destruct file as [text|]; simpl; [|constructor].
  apply load_lines_shape. apply readlines_strip_plain.
Qed.

(** One line gives one record or one warning, a blank line neither; the
    clock is read at most once. *)
Lemma load_line_count (clk : clock) (t : nat) (line : str) :
  let '(es, log, t') := load_line clk t line in
  (length es + length log = if nonblank line then 1 else 0)%nat
  /\ (t <= t' <= t + length es)%nat.
Proof.
  unfold load_line, nonblank.
  destruct (strip line) as [|x r]; [simpl; lia|].
  destruct (split (x :: r)) as [|n [|a [|c rest]]]; try (simpl; lia).
  destruct (float_of_str a) as [q|]; [|simpl; lia].
  destruct rest as [|[|z ts] rest']; simpl; lia.
Qed.

(** X2: of a file that exists, every line that is not blank gives one
    record or one warning: no line is dropped silently, and none gives
    more than one record; the clock is read at most once per record. *)
Theorem X2_load_accounts_for_lines (text : str) (clk : clock) (t : nat) :
  let '(es, log, t') := load_expenses (Some text) clk t in
  (length es + length log = length (filter nonblank (readlines text)))%nat
  /\ (t <= t' <= t + length es)%nat.
Proof.
  unfold load_expenses. generalize (readlines text) as lines. clear text.
  intros lines. revert t. induction lines as [|line more IH]; intros t.
  - simpl. lia.
  - cbn [load_lines filter].
    pose proof (load_line_count clk t line) as H1.
    destruct (load_line clk t line) as [[es1 log1] t1].
    specialize (IH t1).
    destruct (load_lines clk t1 more) as [[es2 log2] t2].
    rewrite !length_app.
    destruct (nonblank line); simpl; lia.
Qed.

(* ================================================================= *)
(** ** Further properties: appending, rewriting and deleting *)

Lemma save_all_expenses_app (a b : list Expense) :
  save_all_expenses (a ++ b) = save_all_expenses a ++ save_all_expenses b.
Proof. unfold save_all_expenses. rewrite map_app, concat_app. reflexivity. Qed.

Lemma save_all_expenses_one (e : Expense) :
  save_all_expenses [e] = expense_line e.
Proof. unfold save_all_expenses. simpl. apply app_nil_r. Qed.

Lemma readlines_nonempty (s : str) : s <> [] -> readlines s <> [].
Proof.
  induction s as [|x s IH]; [congruence|]. intros _. cbn [readlines].
  destruct (x =? LF)%N; [discriminate|].
  destruct (x =? CR)%N.
  - destruct s as [|y s']; [discriminate|].
    destruct (y =? LF)%N; [apply IH; discriminate | discriminate].
  - destruct (readlines s); discriminate.
Qed.

(** Text that ends with a line feed is cut into lines on its own. *)
Lemma readlines_app (text rest : str) :
  readlines ((text ++ [LF]) ++ rest)
  = readlines (text ++ [LF]) ++ readlines rest.
Proof.
  induction text as [|x s IH]; [reflexivity|].
  cbn [app readlines].
  destruct (x =? LF)%N; [rewrite IH; reflexivity|].
  destruct (x =? CR)%N.
  - destruct s as [|y s']; [reflexivity|]. cbn [app] in *.
    destruct (y =? LF)%N; rewrite IH; reflexivity.
  - rewrite IH.
    destruct (readlines (s ++ [LF])) as [|l ls] eqn:E; [|reflexivity].
    exfalso. apply (readlines_nonempty (s ++ [LF])); [|exact E].
    destruct s; discriminate.
Qed.

Lemma save_all_ends_with_newline (es : list Expense) :
  ends_with_newline (save_all_expenses es).
Proof.
  induction es as [|e es IH] using rev_ind; [left; reflexivity|].
  right. rewrite save_all_expenses_app, save_all_expenses_one.
  rewrite expense_line_body, app_assoc. eexists. reflexivity.
Qed.

Lemma load_appended_line (text : str) (e : Expense) (clk : clock) (t : nat) :
  ends_with_newline text -> storable e ->
  load_expenses (Some (text ++ expense_line e)) clk t =
  let '(es, log, t') := load_expenses (Some text) clk t in
  (es ++ [rounded e], log, t').
Proof.
  intros Hend He. unfold load_expenses.
  assert (Hone : readlines (expense_line e) = [expense_line e]).
  { pose proof (readlines_save_all [e]) as H.
    rewrite save_all_expenses_one in H. apply H.
    constructor; [exact He | constructor]. }
  assert (Hlines : readlines (text ++ expense_line e)
                   = readlines text ++ [expense_line e]).
  { destruct Hend as [-> | [body ->]].
    - simpl. exact Hone.
    - rewrite readlines_app, Hone. reflexivity. }
  rewrite Hlines, load_lines_app.
  destruct (load_lines clk t (readlines text)) as [[es log] t'].
  cbn [load_lines]. rewrite (load_line_expense_line clk t' e He).
  rewrite !app_nil_r. reflexivity.
Qed.

(** X3: appending a record to a file that is missing, empty or ended by a
    line feed adds exactly that record, with its amount rounded, after the
    records the file already loads as; the earlier records, the warnings
    and the clock are as without it.  On a file the program wrote,
    appending is the same as rewriting the list with the record added. *)
Theorem X3_append_then_load (text : str) (e : Expense) (clk : clock) (t : nat) :
  ends_with_newline text -> storable e ->
  load_expenses (Some (save_new_expense e (Some text))) clk t =
    (let '(es, log, t') := load_expenses (Some text) clk t in
     (es ++ [rounded e], log, t'))
  /\ load_expenses (Some (save_new_expense e None)) clk t = ([rounded e], [], t)
  /\ (forall es, save_new_expense e (Some (save_all_expenses es))
                 = save_all_expenses (es ++ [e])).
Proof.
  intros Hend He. split; [|split].
  - simpl. apply load_appended_line; assumption.
  - exact (load_appended_line [] e clk t (or_introl eq_refl) He).
  - intros es. simpl.
    rewrite save_all_expenses_app, save_all_expenses_one. reflexivity.
Qed.

Lemma X3_append_then_load_witness :
  load_expenses (Some (save_new_expense Sample.rent
                         (Some (save_all_expenses [Sample.lunch]))))
    Sample.ticking 0
  = ([rounded Sample.lunch; rounded Sample.rent], [], 0%nat).
Proof.
  refine (proj1 (X3_append_then_load (save_all_expenses [Sample.lunch])
                   Sample.rent Sample.ticking 0 _ _)).
  - right. eexists (removelast (save_all_expenses [Sample.lunch])).
    vm_compute. reflexivity.
  - apply storable_sample. simpl. tauto.
Defined.

(** An amount that is not negative is written the same once rounded. *)
Lemma format_2f_round2 (q : Q) :
  (0 <= q)%Q -> format_2f (round2 q) = format_2f q.
Proof.
  intros Hq.
  assert (Hn : 0 <= Qnum q).
  { unfold Qle in Hq. simpl in Hq. lia. }
  assert (Hc : cents (round2 q) = cents q).
  { unfold round2. generalize (cents q) as c. intros c.
    unfold cents, round_half_even. simpl Qnum. simpl Qden.
    change (Z.pos (100 * 1)) with 100.
    rewrite Z.div_mul by lia. rewrite Z.mod_mul by lia. reflexivity. }
  assert (Hpos : 0 <= cents q).
  { pose proof (cents_sign q) as Hs.
    replace (Qnum q <? 0) with false in Hs by (symmetry; apply Z.ltb_ge; exact Hn).
    lia. }
  unfold format_2f. rewrite Hc.
  replace (Qnum (round2 q) <? 0) with (Qnum q <? 0); [reflexivity|].
  unfold round2. simpl Qnum.
  transitivity false; [apply Z.ltb_ge; exact Hn | symmetry; apply Z.ltb_ge; exact Hpos].
Qed.

Lemma expense_line_rounded (e : Expense) :
  (0 <= amount e)%Q -> expense_line (rounded e) = expense_line e.
Proof.
  intros H. unfold expense_line, rounded. simpl.
  rewrite (format_2f_round2 _ H). reflexivity.
Qed.

Lemma save_all_rounded (es : list Expense) :
  Forall (fun e => (0 <= amount e)%Q) es ->
  save_all_expenses (map rounded es) = save_all_expenses es.
Proof.
  intros H. unfold save_all_expenses. rewrite map_map. f_equal.
  apply map_ext_in. intros e He. rewrite Forall_forall in H.
  apply expense_line_rounded. apply H. exact He.
Qed.

Lemma load_saved (es : list Expense) (clk : clock) (t : nat) :
  Forall storable es ->
  load_expenses (Some (save_all_expenses es)) clk t = (map rounded es, [], t).
Proof.
  intros Hes. unfold load_expenses. rewrite (readlines_save_all es Hes).
  apply load_lines_expense_lines. exact Hes.
Qed.

(** X4: a store the program wrote from records with amounts that are not
    negative is a fixed point of loading and rewriting: the text written
    from the records it loads as is the text itself. *)
Theorem X4_rewrite_is_stable (es : list Expense) (clk : clock) (t : nat) :
  Forall storable es ->
  Forall (fun e => (0 <= amount e)%Q) es ->
  save_all_expenses (fst (fst (load_expenses (Some (save_all_expenses es)) clk t)))
  = save_all_expenses es.
Proof.
  intros Hes Hpos. rewrite (load_saved es clk t Hes). simpl.
  apply save_all_rounded. exact Hpos.
Qed.

Lemma nonneg_sample (e : Expense) :
  In e Sample.three -> (0 <= amount e)%Q.
Proof.
  intros [<- | [<- | [<- | []]]]; unfold Qle; simpl; lia.
Defined.

Lemma X4_rewrite_is_stable_witness :
  save_all_expenses
    (fst (fst (load_expenses (Some Sample.store3) Sample.ticking 0)))
  = Sample.store3.
Proof.
  apply (X4_rewrite_is_stable Sample.three Sample.ticking 0).
  - apply Forall_forall. exact storable_sample.
  - apply Forall_forall. exact nonneg_sample.
Defined.






(** The loop of [delete_expense] rewrites the store at most once, without
    one of the records it was given. *)
Lemma delete_loop_changes (all_expenses : list Expense) (file : option str)
    (inputs : list str) :
  let '(f, log, e) := delete_loop all_expenses file inputs in
  (f = file
   \/ exists i, (i < length all_expenses)%nat
                /\ f = Some (save_all_expenses (pop i all_expenses))
                /\ e = Returned)
  /\ (e = InputExhausted -> f = file).
Proof.
  induction inputs as [|selection more IH]; cbn [delete_loop].
  - split; [left; reflexivity | reflexivity].
  - destruct (lower_is_c selection).
    { split; [left; reflexivity | reflexivity]. }
    destruct (delete_loop all_expenses file more) as [[f log] e].
    destruct IH as (IH1 & IH2).
    destruct (int_of_str selection) as [n|].
    + destruct ((0 <=? n - 1) && (n - 1 <? Z.of_nat (length all_expenses)))
        eqn:E.
      * apply andb_true_iff in E. destruct E as [E1 E2].
        apply Z.leb_le in E1. apply Z.ltb_lt in E2.
        split; [|discriminate].
        right. exists (Z.to_nat (n - 1)). split; [lia|]. split; reflexivity.
      * split; [exact IH1 | exact IH2].
    + split; [exact IH1 | exact IH2].
Qed.

(** X6: whatever the file holds and whatever the user types,
    [delete_expense] leaves the store as it was or rewrites it once, from
    the records it loaded without exactly one of them; the store is as it
    was when there is nothing to delete and when the input ends before a
    valid number. *)
Theorem X6_delete_changes_at_most_one (file : option str) (inputs : list str)
    (clk : clock) (t : nat) :
  let all_expenses := fst (fst (load_expenses file clk t)) in
  let '(f, log, e) := delete_expense file inputs clk t in
  (f = file
   \/ exists i, (i < length all_expenses)%nat
                /\ f = Some (save_all_expenses (pop i all_expenses))
                /\ length (pop i all_expenses) = (length all_expenses - 1)%nat
                /\ e = Returned)
  /\ (all_expenses = [] -> f = file /\ e = Returned)
  /\ (e = InputExhausted -> f = file).
Proof.
  unfold delete_expense.
  destruct (load_expenses file clk t) as [[all log0] t0]. simpl fst.
  destruct all as [|e0 all'].
  - split; [left; reflexivity|]. split; [split; reflexivity | discriminate].
  - pose proof (delete_loop_changes (e0 :: all') file inputs) as H.
    destruct (delete_loop (e0 :: all') file inputs) as [[f log] e].
    destruct H as (H1 & H2). split; [|split; [discriminate | exact H2]].
    destruct H1 as [H1 | (i & Hi & Hf & He)]; [left; exact H1|].
    right. exists i. split; [exact Hi|]. split; [exact Hf|].
    split; [apply pop_length; exact Hi | exact He].
Qed.

(* ================================================================= *)
(** ** Further properties: the summary *)

Lemma header_raises_iff (fm fy : option Z) :
  header_raises fm fy = true <->
  exists m y, fm = Some m /\ fy = Some y /\ m <> 0 /\ y <> 0
              /\ (m < -13 \/ 12 < m).
Proof.
  unfold header_raises. split.
  - destruct fm as [m|], fy as [y|]; try discriminate.
    intros H. apply andb_true_iff in H. destruct H as [H H3].
    apply andb_true_iff in H. destruct H as [H1 H2].
    apply negb_true_iff in H1, H2, H3.
    apply Z.eqb_neq in H1, H2. apply andb_false_iff in H3.
    exists m, y. repeat split; try assumption.
    destruct H3 as [H3|H3]; [left; apply Z.leb_gt in H3 | right; apply Z.leb_gt in H3];
      lia.
  - intros (m & y & -> & -> & Hm & Hy & Hr).
    apply andb_true_iff. split; [apply andb_true_iff; split|];
      apply negb_true_iff.
    + apply Z.eqb_neq; exact Hm.
    + apply Z.eqb_neq; exact Hy.
    + apply andb_false_iff.
      destruct Hr; [left | right]; apply Z.leb_gt; lia.
Qed.

(** How [summarize] ends, by cases. *)
Lemma summarize_cases (all_expenses : list Expense) (category_budgets : dict)
    (fm fy : option Z) (now : datetime) :
  (header_raises fm fy = true
   /\ summarize all_expenses category_budgets fm fy now = Raised IndexError)
  \/ (header_raises fm fy = false
      /\ filtered_expenses all_expenses fm fy = []
      /\ summarize all_expenses category_budgets fm fy now = NoData)
  \/ (header_raises fm fy = false
      /\ filtered_expenses all_expenses fm fy <> []
      /\ exists rep,
           summarize all_expenses category_budgets fm fy now = Printed rep).
Proof.
  destruct (header_raises fm fy) eqn:Eh.
  - left. split; [reflexivity|]. unfold summarize. rewrite Eh. reflexivity.
  - right. destruct (filtered_expenses all_expenses fm fy) as [|e es] eqn:Ef.
    + left. split; [reflexivity|]. split; [reflexivity|].
      apply summarize_no_data; assumption.
    + right. split; [reflexivity|]. split; [discriminate|].
      destruct (summarize_printed all_expenses category_budgets fm fy now Eh)
        as (rs & _ & Hsum).
      * rewrite Ef. discriminate.
      * eexists. exact Hsum.
Qed.

(** X7: whatever the file, the budgets and the clock,
    [summarize_expenses] never raises [ZeroDivisionError]: both divisions
    are guarded; and it raises [IndexError] exactly when a month filter
    other than 0 that is below -13 or above 12 comes with a year filter
    other than 0. *)
Theorem X7_summary_exceptions (file : option str)
    (category_budgets : dict) (fm fy : option Z) (clk : clock) (t : nat) :
  summarize_expenses file category_budgets fm fy clk t
  <> Raised ZeroDivisionError
  /\ (summarize_expenses file category_budgets fm fy clk t = Raised IndexError
      <-> exists m y, fm = Some m /\ fy = Some y /\ m <> 0 /\ y <> 0
                      /\ (m < -13 \/ 12 < m)).
Proof.
  unfold summarize_expenses.
  destruct (load_expenses file clk t) as [[all log] t1].
  rewrite <- header_raises_iff.
  destruct (summarize_cases all category_budgets fm fy (clk t1))
    as [[Hh Hs] | [(Hh & _ & Hs) | (Hh & _ & rep & Hs)]]; rewrite Hs, Hh.
  - split; [discriminate|]. split; reflexivity.
  - split; [discriminate|]. split; discriminate.
  - split; [discriminate|]. split; discriminate.
Qed.





Lemma In_times (c x : cell) (n : Z) : In x (times c n) -> x = c.
Proof. unfold times. intros H. apply repeat_spec in H. exact H. Qed.




(** With a negative amount the bar can be longer: the dashes of a
    negative filled length are 30 minus that length. *)
Example negative_spent_bar :
  exists r,
    make_row [(Sample.FOOD, (-100)%Q)] (Sample.FOOD, 200%Q) = inr r
    /\ filled_length r = -15 /\ length (bar r) = 45%nat.
Proof. eexists. split; [reflexivity|]. split; reflexivity. Qed.

(* ================================================================= *)
(** ** Further properties: the budgets of the session *)

Lemma calculate_budgets_keys (total_money savings_goal : Q) :
  keys (calculate_budgets total_money savings_goal)
  = SAVINGS_CATEGORY :: CORE_CATEGORIES.
Proof. rewrite calculate_budgets_entries. reflexivity. Qed.

Lemma calculate_budgets_in_domain (total_money savings_goal : Q) :
  (savings_goal <= total_money)%Q ->
  calculate_budgets total_money savings_goal
  = (SAVINGS_CATEGORY, savings_goal)
      :: map (fun cat => (cat, ((total_money - savings_goal) / 5)%Q))
           CORE_CATEGORIES.
Proof.
  intros H. rewrite calculate_budgets_entries.
  replace (Qltb (total_money - savings_goal) 0) with false; [reflexivity|].
  symmetry. apply Qltb_ge. lra.
Qed.

(** X10: with the budgets the allocator computes from a finite income
    and a goal between 0 and it, for a period that has expenses, the
    summary has six rows, a total budget equal to the income, the goal as
    initial savings goal and income - goal - total spent as spending
    budget left.  The total spent is the sum of the amounts of the records
    of the period filed under the savings category or a core category:
    every record of a core category counts as spent.  The total taken out
    of savings is the sum of the amounts of the records of the savings-use
    category, none of which counts as spent, and the adjusted goal is the
    goal minus that sum. *)
Theorem X10_summary_of_allocated_budgets (total_money savings_goal : Q)
    (all_expenses : list Expense) (fm fy : option Z) (now : datetime) :
  (0 <= savings_goal)%Q -> (savings_goal <= total_money)%Q ->
  month_filter_ok fm = true ->
  filtered_expenses all_expenses fm fy <> [] ->
  let budgets := calculate_budgets total_money savings_goal in
  let fs := filtered_expenses all_expenses fm fy in
  exists rep,
    summarize all_expenses budgets fm fy now = Printed rep
    /\ length (rows rep) = 6%nat
    /\ (total_budget rep == total_money)%Q
    /\ initial_savings_goal rep = savings_goal
    /\ (remaining_spending_budget rep
        == total_money - savings_goal - total_spent rep)%Q
    /\ (total_spent rep ==
        amounts_where
          (fun e => mem (category e) (SAVINGS_CATEGORY :: CORE_CATEGORIES))
          fs)%Q
    /\ (total_savings_used rep ==
        amounts_where (in_category SAVINGS_USE_CATEGORY) fs)%Q
    /\ (adjusted_savings_goal rep ==
        savings_goal - amounts_where (in_category SAVINGS_USE_CATEGORY) fs)%Q
    /\ (forall e, In (category e) CORE_CATEGORIES -> budgeted budgets e = true)
    /\ (forall e, category e = SAVINGS_USE_CATEGORY ->
                  savings_use budgets e = true /\ budgeted budgets e = false).
Proof.
  intros Hge Hle Hm Hne budgets fs.
  assert (Hb : budgets = (SAVINGS_CATEGORY, savings_goal)
                 :: map (fun cat => (cat, ((total_money - savings_goal) / 5)%Q))
                      CORE_CATEGORIES)
    by (apply calculate_budgets_in_domain; exact Hle).
  clearbody budgets.
  destruct (summarize_printed all_expenses budgets fm fy now
              (month_filter_ok_header fm fy Hm) Hne) as (rs & Hrs & Hsum).
  cbv zeta in Hsum. fold fs in Hsum, Hrs.
  destruct (aggregate_spec budgets fs) as (_ & _ & Hspent & Hused).
  eexists. split; [exact Hsum|]. simpl.
  assert (Hsumv : (sum (values budgets) == total_money)%Q).
  { rewrite Hb. unfold values, sum; simpl. field. }
  assert (Hget : dict_get budgets SAVINGS_CATEGORY = Some savings_goal).
  { rewrite Hb. reflexivity. }
  assert (Hkeys : keys budgets = SAVINGS_CATEGORY :: CORE_CATEGORIES)
    by (rewrite Hb; reflexivity).
  assert (Huse : forall e, savings_use budgets e
                           = in_category SAVINGS_USE_CATEGORY e).
  { intros e. unfold savings_use, budgeted, in_category. rewrite Hkeys.
    destruct (PyStr.eqb (category e) SAVINGS_USE_CATEGORY) eqn:E;
      [|apply andb_false_r].
    apply str_eqb_eq in E. rewrite E. reflexivity. }
  split.
  { destruct (make_rows_entries _ _ _ Hrs) as [Hent _].
    rewrite <- (length_map (fun r => (row_category r, budget_amount r))), Hent, Hb.
    reflexivity. }
  split; [exact Hsumv|]. rewrite Hget. split; [reflexivity|].
  split; [rewrite Hsumv; reflexivity|].
  split.
  { rewrite Hspent. unfold budgeted. rewrite Hkeys. reflexivity. }
  split.
  { rewrite Hused, (amounts_where_ext _ _ fs Huse). reflexivity. }
  split.
  { rewrite Hused, (amounts_where_ext _ _ fs Huse). reflexivity. }
  split.
  - intros e He. unfold budgeted. rewrite Hkeys. apply mem_In.
    right. exact He.
  - intros e He. unfold savings_use, budgeted. rewrite Hkeys, He.
    split; reflexivity.
Qed.

Lemma X10_summary_of_allocated_budgets_witness :
  exists rep,
    summarize [Sample.lunch; Sample.repair] (calculate_budgets 1000 200)
      (Some 3) (Some 2024) Sample.mid_month = Printed rep
    /\ length (rows rep) = 6%nat
    /\ (total_budget rep == 1000)%Q
    /\ (total_spent rep == 150)%Q
    /\ (total_savings_used rep == 300)%Q.
Proof.
  destruct (X10_summary_of_allocated_budgets 1000 200
              [Sample.lunch; Sample.repair] (Some 3) (Some 2024)
              Sample.mid_month)
    as (rep & H1 & H2 & H3 & _ & _ & H6 & H7 & _).
  - unfold Qle; simpl; lia.
  - unfold Qle; simpl; lia.
  - reflexivity.
  - vm_compute. discriminate.
  - exists rep. split; [exact H1|]. split; [exact H2|]. split; [exact H3|].
    split; [rewrite H6 | rewrite H7]; reflexivity.
Defined.

(* ================================================================= *)
(** ** Further properties: the prompts that create records *)

Lemma read_expense_name_spec (inputs : list str) (n : str) (out : list str) :
  read_expense_name inputs = Some (n, out) ->
  strip n <> [] /\ In n inputs
  /\ exists used, inputs = used ++ out /\ (1 <= length used)%nat.
Proof.
  induction inputs as [|s more IH]; simpl; [discriminate|].
  destruct (strip s) as [|c r] eqn:E.
  - intros H. destruct (IH H) as (H1 & H2 & u & -> & Hu).
    split; [exact H1|]. split; [right; exact H2|].
    exists (s :: u). split; [reflexivity | simpl; lia].
  - intros H. injection H as <- <-.
    split; [rewrite E; discriminate|]. split; [left; reflexivity|].
    exists [s]. split; [reflexivity | simpl; lia].
Qed.

Lemma read_expense_amount_spec (inputs : list str) (q : Q) (out : list str) :
  read_expense_amount inputs = Some (q, out) ->
  (0 < q)%Q
  /\ exists used, inputs = used ++ out /\ (1 <= length used)%nat.
Proof.
  induction inputs as [|s more IH]; simpl; [discriminate|].
  assert (Hrec : read_expense_amount more = Some (q, out) ->
                 (0 < q)%Q
                 /\ exists used, s :: more = used ++ out
                                 /\ (1 <= length used)%nat).
  { intros H. destruct (IH H) as (H1 & u & -> & Hu).
    split; [exact H1|]. exists (s :: u). split; [reflexivity | simpl; lia]. }
  destruct (float_of_str s) as [x|]; [|exact Hrec].
  destruct (Qltb 0 x) eqn:E; [|exact Hrec].
  intros H. injection H as <- <-.
  split; [apply Qltb_lt; exact E|].
  exists [s]. split; [reflexivity | simpl; lia].
Qed.

Lemma read_category_spec (categories inputs : list str) (c : str)
    (out : list str) :
  read_category categories inputs = Some (c, out) ->
  In c categories
  /\ exists used, inputs = used ++ out /\ (1 <= length used)%nat.
Proof.
  induction inputs as [|s more IH]; simpl; [discriminate|].
  assert (Hrec : read_category categories more = Some (c, out) ->
                 In c categories
                 /\ exists used, s :: more = used ++ out
                                 /\ (1 <= length used)%nat).
  { intros H. destruct (IH H) as (H1 & u & -> & Hu).
    split; [exact H1|]. exists (s :: u). split; [reflexivity | simpl; lia]. }
  destruct (int_of_str s) as [n|]; [|exact Hrec].
  destruct ((0 <=? n - 1) && (n - 1 <? Z.of_nat (length categories)));
    [|exact Hrec].
  destruct (nth_error categories (Z.to_nat (n - 1))) as [x|] eqn:E;
    [|discriminate].
  intros H. injection H as <- <-.
  split; [eapply nth_error_In; exact E|].
  exists [s]. split; [reflexivity | simpl; lia].
Qed.

Lemma pad4_numeral (n : Z) :
  0 <= n <= 9999 -> Forall (fun c => numeral_char c = true) (pad4 n).
Proof.
  intros Hn. unfold pad4.
  constructor; [|constructor; [|constructor; [|constructor; [|constructor]]]];
    apply digit_chr_numeral.
  - split; [apply Z.div_pos; lia|].
    apply Z.lt_succ_r. apply Z.div_lt_upper_bound; lia.
  - pose proof (Z.mod_pos_bound (n / 100) 10); lia.
  - pose proof (Z.mod_pos_bound (n / 10) 10); lia.
  - pose proof (Z.mod_pos_bound n 10); lia.
Qed.

(** The time stamp written from a valid reading of the clock can be
    stored. *)
Lemma strftime_storable (d : datetime) :
  valid_datetime d ->
  plain (strftime d) /\ rstrip (strftime d) = strftime d /\ strftime d <> [].
Proof.
  intros Hv.
  destruct (valid_datetime_ranges d Hv) as (Hy & Hm & Hd & Hh & Hmi & Hs).
  assert (Hchars : Forall (fun c => numeral_char c = true
                                    \/ c = SPACE \/ c = COLON) (strftime d)).
  { assert (Hnum : forall s, Forall (fun c => numeral_char c = true) s ->
                   Forall (fun c => numeral_char c = true
                                    \/ c = SPACE \/ c = COLON) s).
    { intros s Hs'. eapply Forall_impl; [|exact Hs'].
      intros c Hc. left; exact Hc. }
    assert (Hsep : forall x, numeral_char x = true \/ x = SPACE \/ x = COLON ->
                   Forall (fun c => numeral_char c = true
                                    \/ c = SPACE \/ c = COLON) [x]).
    { intros x Hx. constructor; [exact Hx | constructor]. }
    unfold strftime.
    apply Forall_app; split; [apply Hnum, pad4_numeral; lia|].
    apply Forall_app; split; [apply Hsep; left; reflexivity|].
    apply Forall_app; split; [apply Hnum, pad2_numeral; lia|].
    apply Forall_app; split; [apply Hsep; left; reflexivity|].
    apply Forall_app; split; [apply Hnum, pad2_numeral; lia|].
    apply Forall_app; split; [apply Hsep; right; left; reflexivity|].
    apply Forall_app; split; [apply Hnum, pad2_numeral; lia|].
    apply Forall_app; split; [apply Hsep; right; right; reflexivity|].
    apply Forall_app; split; [apply Hnum, pad2_numeral; lia|].
    apply Forall_app; split; [apply Hsep; right; right; reflexivity|].
    apply Hnum, pad2_numeral; lia. }
  split; [|split; [|apply strftime_nonempty]].
  - rewrite Forall_forall in Hchars.
    unfold plain. repeat split; intros Hin; apply Hchars in Hin;
      destruct Hin as [Hin | [Hin | Hin]];
      try (apply numeral_char_cases in Hin; tauto); discriminate Hin.
  - unfold strftime. rewrite !app_assoc.
    assert (Hsec : rstrip (pad2 (second d)) = pad2 (second d)).
    { apply rstrip_no_space. eapply Forall_impl; [|apply pad2_numeral; lia].
      intros c Hc. apply numeral_char_cases in Hc. tauto. }
    rewrite rstrip_app_keep; rewrite Hsec; [reflexivity | discriminate].
Qed.

(** X11: a record [get_user_expense] returns has a name that was typed as
    it stands and is not blank, a positive amount, a category of the list
    offered and the reading of the clock as time stamp; at least three
    lines were read.  When moreover the name holds no comma and no line
    break and does not start with white space, the categories are plain
    and the reading is valid, the record can be written and loaded
    back. *)
Theorem X11_get_user_expense (categories inputs : list str) (clk : clock)
    (t : nat) (e : Expense) (rest : list str) (t' : nat) :
  get_user_expense categories inputs clk t = Some (e, rest, t') ->
  In (name e) inputs /\ strip (name e) <> []
  /\ (0 < amount e)%Q
  /\ In (category e) categories
  /\ timestamp e = strftime (clk t) /\ t' = S t
  /\ (exists used, inputs = used ++ rest /\ (3 <= length used)%nat)
  /\ (plain (name e) -> lstrip (name e) = name e ->
      Forall plain categories -> valid_datetime (clk t) -> storable e).
Proof.
  unfold get_user_expense.
  destruct (read_expense_name inputs) as [[n in1]|] eqn:E1; [|discriminate].
  destruct (read_expense_amount in1) as [[q in2]|] eqn:E2; [|discriminate].
  destruct (read_category categories in2) as [[c in3]|] eqn:E3;
    [|discriminate].
  simpl. intros H. injection H as <- <- <-. simpl.
  destruct (read_expense_name_spec _ _ _ E1) as (Hn1 & Hn2 & u1 & -> & Hu1).
  destruct (read_expense_amount_spec _ _ _ E2) as (Hq & u2 & -> & Hu2).
  destruct (read_category_spec _ _ _ _ E3) as (Hc & u3 & -> & Hu3).
  split; [exact Hn2|]. split; [exact Hn1|]. split; [exact Hq|].
  split; [exact Hc|]. split; [reflexivity|]. split; [reflexivity|].
  split.
  { exists (u1 ++ u2 ++ u3). rewrite <- !app_assoc, !length_app.
    split; [reflexivity | lia]. }
  intros Hp Hl Hcats Hv. rewrite Forall_forall in Hcats.
  destruct (strftime_storable (clk t) Hv) as (Ht1 & Ht2 & Ht3).
  unfold storable; simpl.
  split; [exact Hp|]. split; [apply Hcats; exact Hc|]. split; [exact Ht1|].
  split; [exact Hl|]. split; [exact Ht2 | exact Ht3].
Qed.

Lemma X11_get_user_expense_witness :
  exists e,
    get_user_expense CORE_CATEGORIES
      [lit "  "; lit "Lunch"; lit "free"; lit "150"; lit "9"; lit "1"; lit "2"]
      Sample.ticking 0 = Some (e, [lit "2"], 1%nat)
    /\ (0 < amount e)%Q /\ In (category e) CORE_CATEGORIES
    /\ timestamp e = strftime (Sample.ticking 0%nat).
Proof.
  eexists. split; [reflexivity|].
  destruct (X11_get_user_expense CORE_CATEGORIES
              [lit "  "; lit "Lunch"; lit "free"; lit "150"; lit "9"; lit "1";
               lit "2"] Sample.ticking 0 _ [lit "2"] 1 eq_refl)
    as (_ & _ & H3 & H4 & H5 & _).
  split; [exact H3|]. split; [exact H4 | exact H5].
Defined.

(** X12: [record_savings_use] appends one record: its name is "Used for: "
    followed by the reason as typed, its category the savings-use
    category, its amount positive, its time stamp the reading of the
    clock.  When the reason holds no comma and no line break and the
    reading is valid, a file that was missing, empty or ended by a line
    feed then loads as before, followed by this record with its amount
    rounded. *)
Theorem X12_record_savings_use (file : option str) (inputs : list str)
    (clk : clock) (t : nat) (text : str) (rest : list str) (t' : nat) :
  record_savings_use file inputs clk t = Some (text, rest, t') ->
  exists amount_used reason,
    let e := mkExpense (USED_FOR ++ reason) SAVINGS_USE_CATEGORY amount_used
               (strftime (clk t)) in
    (0 < amount_used)%Q /\ In reason inputs
    /\ text = save_new_expense e file /\ t' = S t
    /\ (exists used, inputs = used ++ rest /\ (2 <= length used)%nat)
    /\ (plain reason -> valid_datetime (clk t) ->
        storable e
        /\ forall old clk0 t0,
             (file = Some old \/ (file = None /\ old = [])) ->
             ends_with_newline old ->
             load_expenses (Some text) clk0 t0 =
             let '(es, log, t1) := load_expenses (Some old) clk0 t0 in
             (es ++ [rounded e], log, t1)).
Proof.
  unfold record_savings_use.
  destruct (read_expense_amount inputs) as [[q [|reason more]]|] eqn:E;
    try discriminate.
  simpl. intros H. injection H as <- <- <-.
  destruct (read_expense_amount_spec _ _ _ E) as (Hq & u & -> & Hu).
  exists q, reason. cbv zeta.
  split; [exact Hq|]. split; [apply in_or_app; right; left; reflexivity|].
  split; [reflexivity|]. split; [reflexivity|].
  split.
  { exists (u ++ [reason]). rewrite <- app_assoc, length_app.
    split; [reflexivity | simpl; lia]. }
  intros Hp Hv.
  destruct (strftime_storable (clk t) Hv) as (Ht1 & Ht2 & Ht3).
  assert (Hst : storable (mkExpense (USED_FOR ++ reason) SAVINGS_USE_CATEGORY q
                            (strftime (clk t)))).
  { destruct Hp as (Hp1 & Hp2 & Hp3).
    assert (Hconst : forall (s : str) (x : char),
              existsb (N.eqb x) s = false -> ~ In x s).
    { intros s x Hx Hin. apply not_true_iff_false in Hx. apply Hx.
      apply existsb_exists. exists x. split; [exact Hin | apply N.eqb_refl]. }
    unfold storable, name, category, timestamp.
    split.
    { unfold plain. split; [|split]; (apply not_in_app; [|assumption]);
        apply Hconst; reflexivity. }
    split.
    { unfold plain. split; [|split]; apply Hconst; reflexivity. }
    split; [exact Ht1|]. split; [reflexivity|].
    split; [exact Ht2 | exact Ht3]. }
  split; [exact Hst|].
  intros old clk0 t0 Hfile Hend.
  destruct Hfile as [-> | [-> ->]]; simpl.
  - apply load_appended_line; assumption.
  - exact (load_appended_line [] _ clk0 t0 (or_introl eq_refl) Hst).
Qed.

Lemma X12_record_savings_use_witness :
  exists amount_used reason,
    (0 < amount_used)%Q
    /\ In reason [lit "0"; lit "300"; lit "repair"; lit "7"]
    /\ save_all_expenses
         [mkExpense (USED_FOR ++ lit "repair") SAVINGS_USE_CATEGORY 300
            (strftime (Sample.ticking 0%nat))]
       = save_new_expense
           (mkExpense (USED_FOR ++ reason) SAVINGS_USE_CATEGORY amount_used
              (strftime (Sample.ticking 0%nat))) None.
Proof.
  destruct (X12_record_savings_use None
              [lit "0"; lit "300"; lit "repair"; lit "7"] Sample.ticking 0
              (save_all_expenses
                 [mkExpense (USED_FOR ++ lit "repair") SAVINGS_USE_CATEGORY 300
                    (strftime (Sample.ticking 0%nat))])
              [lit "7"] 1 eq_refl)
    as (q & reason & H1 & H2 & H3 & _).
  exists q, reason. split; [exact H1|]. split; [exact H2 | exact H3].
Defined.

(* ================================================================= *)
(** ** Further properties: money taken out of savings in the summary *)




(* ================================================================= *)
(** ** Further properties: the session *)

Lemma summarize_expenses_raised (file : option str) (category_budgets : dict)
    (fm fy : option Z) (clk : clock) (t : nat) (e : exn) :
  summarize_expenses file category_budgets fm fy clk t = Raised e ->
  e = IndexError /\ header_raises fm fy = true.
Proof.
  unfold summarize_expenses.
  destruct (load_expenses file clk t) as [[all log] t1].
  destruct (summarize_cases all category_budgets fm fy (clk t1))
    as [[Hh Hs] | [(Hh & _ & Hs) | (Hh & _ & rep & Hs)]]; rewrite Hs;
    try discriminate.
  intros H; injection H as <-. split; [reflexivity | exact Hh].
Qed.

Lemma delete_loop_rest_length (all_expenses : list Expense) (inputs : list str) :
  (length (delete_loop_rest all_expenses inputs) <= length inputs)%nat.
Proof.
  induction inputs as [|s more IH]; simpl; [lia|].
  destruct (lower_is_c s); [lia|].
  destruct (int_of_str s) as [n|]; [|lia].
  destruct ((0 <=? n - 1) && (n - 1 <? Z.of_nat (length all_expenses))); lia.
Qed.

Lemma delete_expense_rest_length (file : option str) (inputs : list str)
    (clk : clock) (t : nat) :
  (length (fst (delete_expense_rest file inputs clk t)) <= length inputs)%nat.
Proof.
  unfold delete_expense_rest.
  destruct (load_expenses file clk t) as [[[|e0 all] log] t1]; simpl; [lia|].
  apply delete_loop_rest_length.
Qed.

Lemma get_user_expense_rest (categories inputs : list str) (clk : clock)
    (t : nat) (e : Expense) (rest : list str) (t' : nat) :
  get_user_expense categories inputs clk t = Some (e, rest, t') ->
  (length rest < length inputs)%nat.
Proof.
  unfold get_user_expense.
  destruct (read_expense_name inputs) as [[n in1]|] eqn:E1; [|discriminate].
  destruct (read_expense_amount in1) as [[q in2]|] eqn:E2; [|discriminate].
  destruct (read_category categories in2) as [[c in3]|] eqn:E3;
    [|discriminate].
  simpl. intros H. injection H as _ <- _.
  destruct (read_expense_name_spec _ _ _ E1) as (_ & _ & u1 & -> & Hu1).
  destruct (read_expense_amount_spec _ _ _ E2) as (_ & u2 & -> & Hu2).
  destruct (read_category_spec _ _ _ _ E3) as (_ & u3 & -> & Hu3).
  rewrite !length_app. lia.
Qed.

Lemma record_savings_use_rest (file : option str) (inputs : list str)
    (clk : clock) (t : nat) (text : str) (rest : list str) (t' : nat) :
  record_savings_use file inputs clk t = Some (text, rest, t') ->
  (length rest < length inputs)%nat
  /\ exists e, text = save_new_expense e file.
Proof.
  unfold record_savings_use.
  destruct (read_expense_amount inputs) as [[q [|reason more]]|] eqn:E;
    try discriminate.
  simpl. intros H. injection H as <- <- _.
  destruct (read_expense_amount_spec _ _ _ E) as (_ & u & -> & Hu).
  split; [rewrite length_app; simpl; lia | eexists; reflexivity].
Qed.

(** Whatever holds of the store at the start, is kept by appending a
    record and holds of any store rewritten from records, holds of the
    store at the end of the menu. *)
Lemma menu_loop_store (P : option str -> Prop) :
  (forall e file, P file -> P (Some (save_new_expense e file))) ->
  (forall es, P (Some (save_all_expenses es))) ->
  forall fuel category_budgets file inputs clk t,
    P file ->
    P (fst (fst (menu_loop fuel category_budgets file inputs clk t))).
Proof.
  intros Happend Hrewrite.
  induction fuel as [|fuel IH]; intros b file inputs clk t Hfile;
    [exact Hfile|].
  assert (Hcont : forall ev file' inputs' t',
            P file' ->
            P (fst (fst (let '(f, evs, e) :=
                           menu_loop fuel b file' inputs' clk t' in
                         (f, ev :: evs, e))))).
  { intros ev file' inputs' t' H'.
    specialize (IH b file' inputs' clk t' H').
    destruct (menu_loop fuel b file' inputs' clk t') as [[f evs] e].
    exact IH. }
  cbn [menu_loop]. destruct inputs as [|choice more]; [exact Hfile|].
  destruct (PyStr.eqb choice (lit "1")).
  { destruct (get_user_expense CORE_CATEGORIES more clk t)
      as [[[e rest] t']|]; [|exact Hfile].
    apply Hcont. apply Happend. exact Hfile. }
  destruct (PyStr.eqb choice (lit "2")).
  { destruct (summarize_expenses file b _ _ clk (S t));
      try (apply Hcont; exact Hfile); exact Hfile. }
  destruct (PyStr.eqb choice (lit "3")).
  { destruct more as [|yl more1]; [exact Hfile|].
    destruct (int_of_str yl) as [y|]; [|apply Hcont; exact Hfile].
    destruct more1 as [|ml more2]; [exact Hfile|].
    destruct (int_of_str ml) as [m|]; [|apply Hcont; exact Hfile].
    destruct (summarize_expenses file b (Some m) (Some y) clk t);
      try (apply Hcont; exact Hfile); exact Hfile. }
  destruct (PyStr.eqb choice (lit "4")).
  { pose proof (delete_loop_changes
                  (fst (fst (load_expenses file clk t))) file more) as Hd.
    unfold delete_expense.
    destruct (load_expenses file clk t) as [[all log0] t0] eqn:El.
    simpl fst in Hd.
    assert (Hfile' : forall f log e,
              (match all with
               | [] => (file, log0 ++ [NoExpensesToDelete], Returned)
               | _ :: _ => let '(f, log, e) := delete_loop all file more in
                           (f, log0 ++ log, e)
               end) = (f, log, e) -> P f).
    { intros f log e Heq. destruct all as [|e0 all'].
      - injection Heq as <- _ _. exact Hfile.
      - destruct (delete_loop (e0 :: all') file more) as [[f1 log1] e1].
        injection Heq as <- _ _.
        destruct Hd as [[-> | (i & _ & -> & _)] _];
          [exact Hfile | apply Hrewrite]. }
    destruct (match all with
              | [] => (file, log0 ++ [NoExpensesToDelete], Returned)
              | _ :: _ => let '(f, log, e) := delete_loop all file more in
                          (f, log0 ++ log, e)
              end) as [[f log] e] eqn:Eq.
    specialize (Hfile' f log e eq_refl).
    destruct (delete_expense_rest file more clk t) as [rest t'].
    destruct e; [apply Hcont; exact Hfile' | exact Hfile']. }
  destruct (PyStr.eqb choice (lit "5")).
  { destruct (record_savings_use file more clk t) as [[[text rest] t']|] eqn:Er;
      [|exact Hfile].
    apply Hcont.
    destruct (record_savings_use_rest _ _ _ _ _ _ _ Er) as (_ & e & ->).
    apply Happend. exact Hfile. }
  destruct (PyStr.eqb choice (lit "6")); [apply Hcont; exact Hfile|].
  destruct (PyStr.eqb choice (lit "7")); [exact Hfile|].
  apply Hcont; exact Hfile.
Qed.

Lemma save_new_expense_well_ended (e : Expense) (file : option str) :
  well_ended (Some (save_new_expense e file)).
Proof.
  simpl. right. destruct file as [text|]; simpl;
    rewrite expense_line_body; [rewrite app_assoc|]; eexists; reflexivity.
Qed.

(** X14: a session never leaves the store without its final line feed: if
    the file is missing, empty or ended by a line feed when the program
    starts, it is so when the session ends, whatever the user types; so a
    record appended later starts a line of its own. *)
Theorem X14_session_keeps_store_well_ended (file : option str)
    (inputs : list str) (clk : clock) :
  well_ended file ->
  well_ended (fst (fst (main file inputs clk))).
Proof.
  intros Hfile. unfold main.
  destruct inputs as [|password more]; [exact Hfile|].
  destruct (negb (PyStr.eqb password PASSWORD)); [exact Hfile|].
  destruct (get_total_money_and_calculate_budgets more) as [[b rest]|];
    [|exact Hfile].
  apply menu_loop_store.
  - intros e f _. apply save_new_expense_well_ended.
  - intros es. apply save_all_ends_with_newline.
  - exact Hfile.
Qed.

Lemma X14_session_keeps_store_well_ended_witness :
  well_ended
    (fst (fst (main (Some Sample.store3)
                 [lit "mytracker2025"; lit "1000"; lit "200";
                  lit "4"; lit "2"; lit "5"; lit "40"; lit "gift"; lit "7"]
                 Sample.ticking))).
Proof.
  apply X14_session_keeps_store_well_ended.
  apply save_all_ends_with_newline.
Defined.

(** How the menu ends, for enough turns. *)
Lemma menu_loop_end : forall fuel category_budgets file inputs clk t,
  (length inputs < fuel)%nat ->
  let ending := snd (menu_loop fuel category_budgets file inputs clk t) in
  ending <> OutOfFuel
  /\ (forall e, ending = Uncaught e -> e = IndexError).
Proof.
  induction fuel as [|fuel IH]; intros b file inputs clk t Hlen; [lia|].
  assert (Hcont : forall ev file' inputs' t',
            (length inputs' < fuel)%nat ->
            let ending :=
              snd (let '(f, evs, e) :=
                     menu_loop fuel b file' inputs' clk t' in
                   (f, ev :: evs, e)) in
            ending <> OutOfFuel
            /\ (forall e, ending = Uncaught e -> e = IndexError)).
  { intros ev file' inputs' t' H'.
    specialize (IH b file' inputs' clk t' H').
    destruct (menu_loop fuel b file' inputs' clk t') as [[f evs] e].
    exact IH. }
  assert (Hstop : forall (f : option str) (evs : list event) (e : session_end),
            e = Finished \/ e = EndOfInput ->
            let ending := snd (f, evs, e) in
            ending <> OutOfFuel
            /\ (forall x, ending = Uncaught x -> x = IndexError)).
  { intros f evs e [-> | ->]; simpl; split; discriminate. }
  cbn [menu_loop]. destruct inputs as [|choice more];
    [apply Hstop; right; reflexivity|].
  simpl in Hlen.
  destruct (PyStr.eqb choice (lit "1")).
  { destruct (get_user_expense CORE_CATEGORIES more clk t)
      as [[[e rest] t']|] eqn:Eg; [|apply Hstop; right; reflexivity].
    apply Hcont. pose proof (get_user_expense_rest _ _ _ _ _ _ _ Eg). lia. }
  destruct (PyStr.eqb choice (lit "2")).
  { destruct (summarize_expenses file b _ _ clk (S t)) eqn:Es;
      try (apply Hcont; lia).
    simpl. split; [discriminate|]. intros x Hx. injection Hx as <-.
    apply (summarize_expenses_raised _ _ _ _ _ _ _ Es). }
  destruct (PyStr.eqb choice (lit "3")).
  { destruct more as [|yl more1]; [apply Hstop; right; reflexivity|].
    simpl in Hlen.
    destruct (int_of_str yl) as [y|]; [|apply Hcont; lia].
    destruct more1 as [|ml more2]; [apply Hstop; right; reflexivity|].
    simpl in Hlen.
    destruct (int_of_str ml) as [m|]; [|apply Hcont; lia].
    destruct (summarize_expenses file b (Some m) (Some y) clk t) eqn:Es;
      try (apply Hcont; lia).
    simpl. split; [discriminate|]. intros x Hx. injection Hx as <-.
    apply (summarize_expenses_raised _ _ _ _ _ _ _ Es). }
  destruct (PyStr.eqb choice (lit "4")).
  { destruct (delete_expense file more clk t) as [[f log] e].
    pose proof (delete_expense_rest_length file more clk t) as Hr.
    destruct (delete_expense_rest file more clk t) as [rest t'].
    simpl in Hr.
    destruct e; [apply Hcont; lia | apply Hstop; right; reflexivity]. }
  destruct (PyStr.eqb choice (lit "5")).
  { destruct (record_savings_use file more clk t) as [[[text rest] t']|] eqn:Er;
      [|apply Hstop; right; reflexivity].
    apply Hcont.
    destruct (record_savings_use_rest _ _ _ _ _ _ _ Er) as [Hr _]. lia. }
  destruct (PyStr.eqb choice (lit "6")); [apply Hcont; lia|].
  destruct (PyStr.eqb choice (lit "7")); [apply Hstop; left; reflexivity|].
  apply Hcont; lia.
Qed.

(** X15: whatever the store, the clock and the lines typed, the bound on
    the turns of the menu is never reached, so that a session ends by the
    return of [main], by the end of the input or by an exception; no
    [ZeroDivisionError] leaves the program; and the summary of the month
    and year of a valid clock reading (menu choice 2) never raises
    [IndexError]. *)
Theorem X15_session_ends (file : option str) (inputs : list str)
    (clk : clock) :
  snd (main file inputs clk) <> OutOfFuel
  /\ snd (main file inputs clk) <> Uncaught ZeroDivisionError
  /\ (forall category_budgets t now,
        valid_datetime now ->
        summarize_expenses file category_budgets
          (Some (month now)) (Some (year now)) clk t <> Raised IndexError
        /\ summarize_expenses file category_budgets
             (Some (month now)) (Some (year now)) clk t
           <> Raised ZeroDivisionError).
Proof.
  assert (Hend : snd (main file inputs clk) <> OutOfFuel
                 /\ (forall e, snd (main file inputs clk) = Uncaught e ->
                               e = IndexError)).
  { unfold main. destruct inputs as [|password more];
      [split; discriminate|].
    destruct (negb (PyStr.eqb password PASSWORD)); [split; discriminate|].
    destruct (get_total_money_and_calculate_budgets more) as [[b rest]|];
      [|split; discriminate].
    apply menu_loop_end. lia. }
  destruct Hend as [Hfuel Hexn].
  split; [exact Hfuel|]. split.
  - intros H. specialize (Hexn _ H). discriminate.
  - intros b t now Hv.
    assert (Hh : header_raises (Some (month now)) (Some (year now)) = false).
    { destruct (valid_datetime_month now Hv) as [Hm _].
      apply month_filter_ok_header. simpl.
      apply andb_true_iff. split; apply Z.leb_le; lia. }
    split; intros Hs;
      destruct (summarize_expenses_raised _ _ _ _ _ _ _ Hs) as [He Hr];
      congruence.
Qed.

(** X16: at the menu, choice 3 with a year other than 0 and a month other
    than 0 below -13 or above 12 ends the session with an uncaught
    [IndexError], whatever the store and the budgets: the month typed is
    not validated.  The two lines typed are lines that [int()] reads as
    [int_of_str] does. *)
Theorem X16_month_out_of_calendar (fuel : nat) (category_budgets : dict)
    (file : option str) (year_line month_line : str) (more : list str)
    (clk : clock) (t : nat) (y m : Z) :
  int_agrees year_line = true -> int_of_str year_line = Some y ->
  int_agrees month_line = true -> int_of_str month_line = Some m ->
  y <> 0 -> m <> 0 -> m < -13 \/ 12 < m ->
  summarize_expenses file category_budgets (Some m) (Some y) clk t
  = Raised IndexError
  /\ menu_loop (S fuel) category_budgets file
       (lit "3" :: year_line :: month_line :: more) clk t
     = (file, [], Uncaught IndexError).
Proof.
  intros _ Hy _ Hm Hy0 Hm0 Hout.
  assert (Hr : summarize_expenses file category_budgets (Some m) (Some y) clk t
               = Raised IndexError).
  { unfold summarize_expenses.
    destruct (load_expenses file clk t) as [[all log] t1].
    unfold summarize.
    replace (header_raises (Some m) (Some y)) with true; [reflexivity|].
    symmetry. apply header_raises_iff. exists m, y. tauto. }
  split; [exact Hr|].
  cbn [menu_loop]. change (PyStr.eqb (lit "3") (lit "1")) with false.
  change (PyStr.eqb (lit "3") (lit "2")) with false.
  change (PyStr.eqb (lit "3") (lit "3")) with true. cbv iota.
  rewrite Hy, Hm, Hr. reflexivity.
Qed.

Lemma X16_month_out_of_calendar_witness :
  menu_loop 1 Sample.budgets (Some Sample.store3)
    [lit "3"; lit "2024"; lit "13"] Sample.ticking 0
  = (Some Sample.store3, [], Uncaught IndexError).
Proof.
  refine (proj2 (X16_month_out_of_calendar 0 Sample.budgets
                   (Some Sample.store3) (lit "2024") (lit "13") []
                   Sample.ticking 0 2024 13 eq_refl eq_refl eq_refl eq_refl
                   _ _ _)); lia.
Defined.

(** A session: the budgets are set, a lunch is added on an empty store,
    then the program is left; the store holds the line of the lunch. *)
Example session_add_and_exit :
  main None
    [lit "mytracker2025"; lit "1000"; lit "200";
     lit "1"; lit "Lunch"; lit "150"; lit "1"; lit "9"; lit "7"]
    Sample.ticking
  = (Some (lit "Lunch,150.00," ++ Sample.FOOD ++ lit ",2026-11-04 10:00:00"
           ++ [LF]),
     [ExpenseSaved (mkExpense (lit "Lunch") Sample.FOOD 150
                      (lit "2026-11-04 10:00:00"));
      InvalidChoice; Goodbye],
     Finished).
Proof. vm_compute. reflexivity. Qed.

(** A wrong password ends the session at once. *)
Example session_denied :
  main (Some Sample.store3) [lit "letmein"; lit "1"; lit "x"] Sample.ticking
  = (Some Sample.store3, [AccessDenied], Finished).
Proof. reflexivity. Qed.

(* ================================================================= *)
(** ** A month outside the calendar *)

Lemma strptime_valid (s : str) (d : datetime) :
  strptime s = Some d -> valid_datetime d.
Proof.
  unfold strptime, valid_datetime.
  destruct (match_format s) as [[[[[[[gY gm] gd] gH] gM] gS] [|c r]]|];
    try discriminate.
  destruct (int_of_str gY) as [y|]; [|discriminate].
  destruct (int_of_str gm) as [m|]; [|discriminate].
  destruct (int_of_str gd) as [dd|]; [|discriminate].
  destruct (int_of_str gH) as [hh|]; [|discriminate].
  destruct (int_of_str gM) as [mm|]; [|discriminate].
  destruct (int_of_str gS) as [ss|]; [|discriminate].
  destruct (valid_datetimeb (mkDatetime y m dd hh mm ss)) eqn:E;
    [|discriminate].
  intros H; injection H as <-. exact E.
Qed.

(** No record is of a month that is not one of the twelve. *)
Lemma in_period_month (m : Z) (fy : option Z) (e : Expense) :
  m < 1 \/ 12 < m -> in_period (Some m) fy e = false.
Proof.
  intros Hout. unfold in_period.
  destruct (strptime (timestamp e)) as [d|] eqn:E; [|reflexivity].
  destruct (valid_datetime_month d (strptime_valid _ _ E)) as [Hm _].
  replace (month d =? m) with false; [reflexivity|].
  symmetry. apply Z.eqb_neq. lia.
Qed.

Lemma filtered_expenses_month (all_expenses : list Expense) (m : Z)
    (fy : option Z) :
  m < 1 \/ 12 < m -> filtered_expenses all_expenses (Some m) fy = [].
Proof.
  intros Hout. unfold filtered_expenses.
  induction all_expenses as [|e es IH]; [reflexivity|].
  simpl. rewrite (in_period_month m fy e Hout). exact IH.
Qed.

(** C4: with a year, a month above 12 (or below -13) is a period no
    record matches, whatever the store: the selection is empty; yet the
    function does not end with the "no data" outcome, it raises
    [IndexError] at the header of the summary,
    [calendar.month_name[filter_month]], before the selection is looked
    at. *)
Theorem C4_month_outside_calendar (all_expenses : list Expense)
    (category_budgets : dict) (file : option str) (clk : clock) (t : nat)
    (now : datetime) (m y : Z) :
  m < -13 \/ 12 < m -> y <> 0 ->
  filtered_expenses all_expenses (Some m) (Some y) = []
  /\ summarize all_expenses category_budgets (Some m) (Some y) now
     = Raised IndexError
  /\ summarize_expenses file category_budgets (Some m) (Some y) clk t
     = Raised IndexError.
Proof.
  intros Hout Hy.
  assert (Hh : header_raises (Some m) (Some y) = true).
  { apply header_raises_iff. exists m, y.
    repeat split; try reflexivity; try assumption. lia. }
  split; [apply filtered_expenses_month; lia|].
  split.
  - unfold summarize. rewrite Hh. reflexivity.
  - unfold summarize_expenses.
    destruct (load_expenses file clk t) as [[all log] t1].
    unfold summarize. rewrite Hh. reflexivity.
Qed.

Lemma C4_month_outside_calendar_witness :
  filtered_expenses Sample.three (Some 13) (Some 2024) = []
  /\ summarize Sample.three Sample.budgets (Some 13) (Some 2024)
       Sample.mid_month = Raised IndexError
  /\ summarize_expenses (Some Sample.store3) Sample.budgets
       (Some 13) (Some 2024) Sample.ticking 0 = Raised IndexError.
Proof.
  apply (C4_month_outside_calendar Sample.three Sample.budgets
           (Some Sample.store3) Sample.ticking 0 Sample.mid_month 13 2024);
    lia.
Defined.

(* ================================================================= *)
(** ** The floats that are not finite: the budget prompts *)

Lemma float_inf_nan :
  NonFinite.float (lit "inf") = Some NonFinite.PosInf
  /\ NonFinite.float (lit "-Infinity") = Some NonFinite.NegInf
  /\ NonFinite.float (lit "nan") = Some NonFinite.NaN
  /\ NonFinite.float (lit "1e400") = Some NonFinite.PosInf
  /\ NonFinite.float (lit "1e-400") = Some (NonFinite.Finite 0)
  /\ NonFinite.float (lit "12.5") = Some (NonFinite.Finite (Qmake 125 10))
  /\ NonFinite.float [0x661; 0x662]%N = Some (NonFinite.Finite (Qmake 12 1))
  /\ NonFinite.float (28%N :: lit "12") = None.
Proof. repeat split; vm_compute; reflexivity. Qed.

(** The mapping the allocator builds, entry by entry. *)
Lemma calculate_budgets_nonfinite (total_money savings_goal : NonFinite.pyfloat) :
  NonFinite.calculate_budgets total_money savings_goal =
  (SAVINGS_CATEGORY, savings_goal)
    :: map (fun cat =>
              (cat,
               if NonFinite.flt (NonFinite.fsub total_money savings_goal)
                    (NonFinite.Finite 0)
               then NonFinite.Finite 0
               else NonFinite.fdiv_pos
                      (NonFinite.fsub total_money savings_goal) 5))
         CORE_CATEGORIES.
Proof. reflexivity. Qed.

Lemma read_total_money_nonfinite (inputs rest : list str)
    (x : NonFinite.pyfloat) :
  NonFinite.read_total_money inputs = Some (x, rest) ->
  NonFinite.flt (NonFinite.Finite 0) x = true
  /\ exists used, inputs = used ++ rest /\ (1 <= length used)%nat.
Proof.
  induction inputs as [|s more IH]; cbn [NonFinite.read_total_money];
    [discriminate|].
  assert (Hrec : NonFinite.read_total_money more = Some (x, rest) ->
                 NonFinite.flt (NonFinite.Finite 0) x = true
                 /\ exists used, s :: more = used ++ rest
                                 /\ (1 <= length used)%nat).
  { intros H. destruct (IH H) as (Hx & u & -> & Hu).
    split; [exact Hx|]. exists (s :: u). split; [reflexivity | simpl; lia]. }
  destruct (NonFinite.float s) as [v|]; [|exact Hrec].
  destruct (NonFinite.flt (NonFinite.Finite 0) v) eqn:E; [|exact Hrec].
  intros H; injection H as <- <-.
  split; [exact E|]. exists [s]. split; [reflexivity | simpl; lia].
Qed.

Lemma read_savings_goal_nonfinite (total : NonFinite.pyfloat)
    (inputs rest : list str) (x : NonFinite.pyfloat) :
  NonFinite.read_savings_goal total inputs = Some (x, rest) ->
  NonFinite.fle (NonFinite.Finite 0) x = true
  /\ NonFinite.fle x total = true
  /\ exists used, inputs = used ++ rest /\ (1 <= length used)%nat.
Proof.
  induction inputs as [|s more IH]; cbn [NonFinite.read_savings_goal];
    [discriminate|].
  assert (Hrec : NonFinite.read_savings_goal total more = Some (x, rest) ->
                 NonFinite.fle (NonFinite.Finite 0) x = true
                 /\ NonFinite.fle x total = true
                 /\ exists used, s :: more = used ++ rest
                                 /\ (1 <= length used)%nat).
  { intros H. destruct (IH H) as (H0 & H1 & u & -> & Hu).
    split; [exact H0|]. split; [exact H1|].
    exists (s :: u). split; [reflexivity | simpl; lia]. }
  destruct (NonFinite.float s) as [v|]; [|exact Hrec].
  destruct (NonFinite.fle (NonFinite.Finite 0) v
            && NonFinite.fle v total) eqn:E; [|exact Hrec].
  intros H; injection H as <- <-.
  apply andb_true_iff in E. destruct E as [E0 E1].
  split; [exact E0|]. split; [exact E1|].
  exists [s]. split; [reflexivity | simpl; lia].
Qed.

(** C3: [float()] reads [inf], [inf > 0] holds and so does
    [0 <= inf <= inf]: typed at both prompts, [inf] is accepted as the
    income and as the savings goal.  The rest, [inf - inf], is [nan],
    which is not below 0, so that each core category gets [nan / 5]:
    the five core entries are [nan], of which [nan >= 0] is false, and
    the entries add up to [nan], not to the income. *)
Theorem C3_allocation_of_inf :
  NonFinite.flt (NonFinite.Finite 0) NonFinite.PosInf = true
  /\ NonFinite.fle (NonFinite.Finite 0) NonFinite.PosInf = true
  /\ NonFinite.fle NonFinite.PosInf NonFinite.PosInf = true
  /\ NonFinite.get_total_money_and_calculate_budgets [lit "inf"; lit "inf"]
     = Some ((SAVINGS_CATEGORY, NonFinite.PosInf)
               :: map (fun cat => (cat, NonFinite.NaN)) CORE_CATEGORIES,
             [])
  /\ NonFinite.fle (NonFinite.Finite 0) NonFinite.NaN = false
  /\ NonFinite.sum
       (NonFinite.values
          (NonFinite.calculate_budgets NonFinite.PosInf NonFinite.PosInf))
     = NonFinite.NaN.
Proof. repeat split; vm_compute; reflexivity. Qed.

(** X9: whatever is typed at the budget prompts, a mapping that is
    returned has the savings category and the five core categories as its
    six keys, in this order and without repetition, for an income above 0
    that is finite or [inf] and a goal between 0 and the income; each core
    entry is a fifth of income - goal: the branch for a negative rest is
    never taken.  With a finite income the goal is finite, no entry is
    negative and the entries add up to the income; with the income [inf],
    the core entries are [inf] for a finite goal and [nan] for the goal
    [inf], and then the entries add up to [nan]. *)
Theorem X9_budget_prompts (inputs rest : list str)
    (budgets : NonFinite.dict) :
  NonFinite.get_total_money_and_calculate_budgets inputs
  = Some (budgets, rest) ->
  exists total_money savings_goal per,
    budgets = (SAVINGS_CATEGORY, savings_goal)
                :: map (fun cat => (cat, per)) CORE_CATEGORIES
    /\ NoDup (NonFinite.keys budgets)
    /\ NonFinite.flt (NonFinite.Finite 0) total_money = true
    /\ NonFinite.fle (NonFinite.Finite 0) savings_goal = true
    /\ NonFinite.fle savings_goal total_money = true
    /\ per = NonFinite.fdiv_pos (NonFinite.fsub total_money savings_goal) 5
    /\ ((exists t, total_money = NonFinite.Finite t)
        \/ total_money = NonFinite.PosInf)
    /\ (forall t, total_money = NonFinite.Finite t ->
          exists g,
            savings_goal = NonFinite.Finite g
            /\ (0 < t)%Q /\ (0 <= g <= t)%Q
            /\ per = NonFinite.Finite ((t - g) / 5)
            /\ (0 <= (t - g) / 5)%Q
            /\ exists s,
                 NonFinite.sum (NonFinite.values budgets) = NonFinite.Finite s
                 /\ (s == t)%Q)
    /\ (total_money = NonFinite.PosInf ->
          (forall g, savings_goal = NonFinite.Finite g ->
                     (0 <= g)%Q /\ per = NonFinite.PosInf)
          /\ (savings_goal = NonFinite.PosInf ->
                per = NonFinite.NaN
                /\ NonFinite.sum (NonFinite.values budgets) = NonFinite.NaN)
          /\ ((exists g, savings_goal = NonFinite.Finite g)
              \/ savings_goal = NonFinite.PosInf))
    /\ exists used, inputs = used ++ rest /\ (2 <= length used)%nat.
Proof.
  unfold NonFinite.get_total_money_and_calculate_budgets.
  destruct (NonFinite.read_total_money inputs) as [[total more]|] eqn:E1;
    [|discriminate].
  destruct (NonFinite.read_savings_goal total more) as [[goal rest']|] eqn:E2;
    [|discriminate].
  intros H. injection H as Hb Hr. subst rest'.
  destruct (read_total_money_nonfinite _ _ _ E1) as (Hpos & u1 & -> & Hu1).
  destruct (read_savings_goal_nonfinite _ _ _ _ E2)
    as (Hge & Hle & u2 & -> & Hu2).
  rewrite calculate_budgets_nonfinite in Hb.
  assert (Hused : exists used, u1 ++ u2 ++ rest = used ++ rest
                               /\ (2 <= length used)%nat).
  { exists (u1 ++ u2). rewrite app_assoc, length_app.
    split; [reflexivity | lia]. }
  assert (Hnd : forall (v w : NonFinite.pyfloat),
            NoDup (NonFinite.keys
                     ((SAVINGS_CATEGORY, v)
                        :: map (fun cat => (cat, w)) CORE_CATEGORIES))).
  { intros v w. unfold NonFinite.keys; simpl.
    repeat constructor; simpl; intuition discriminate. }
  destruct total as [t| | |]; try discriminate Hpos.
  - (* a finite income *)
    destruct goal as [g| | |]; try discriminate Hge; try discriminate Hle.
    simpl in Hpos, Hge, Hle.
    apply Qltb_lt in Hpos. apply Qle_bool_iff in Hge, Hle.
    assert (Hrem : Qltb (t + - g) 0 = false) by (apply Qltb_ge; lra).
    simpl in Hb. rewrite Hrem in Hb. subst budgets.
    assert (Hper : (0 <= (t - g) / 5)%Q) by (apply Qle_shift_div_l; lra).
    exists (NonFinite.Finite t), (NonFinite.Finite g),
      (NonFinite.Finite ((t - g) / 5)).
    split; [reflexivity|]. split; [apply Hnd|].
    split; [apply Qltb_lt; exact Hpos|].
    split; [apply Qle_bool_iff; exact Hge|].
    split; [apply Qle_bool_iff; exact Hle|].
    split; [reflexivity|]. split; [left; exists t; reflexivity|].
    split; [|split; [discriminate | exact Hused]].
    intros t' Ht'. injection Ht' as <-.
    exists g. split; [reflexivity|]. split; [exact Hpos|].
    split; [split; assumption|]. split; [reflexivity|].
    split; [exact Hper|].
    eexists. split; [reflexivity|]. field.
  - (* the income inf *)
    destruct goal as [g| | |]; try discriminate Hge; try discriminate Hle.
    + simpl in Hge. apply Qle_bool_iff in Hge.
      simpl in Hb. subst budgets.
      exists NonFinite.PosInf, (NonFinite.Finite g), NonFinite.PosInf.
      split; [reflexivity|]. split; [apply Hnd|].
      split; [reflexivity|]. split; [apply Qle_bool_iff; exact Hge|].
      split; [reflexivity|]. split; [reflexivity|].
      split; [right; reflexivity|]. split; [discriminate|].
      split; [|exact Hused]. intros _.
      split; [|split; [discriminate | left; exists g; reflexivity]].
      intros g' Hg'. injection Hg' as <-. split; [exact Hge | reflexivity].
    + simpl in Hb. subst budgets.
      exists NonFinite.PosInf, NonFinite.PosInf, NonFinite.NaN.
      split; [reflexivity|]. split; [apply Hnd|].
      split; [reflexivity|]. split; [reflexivity|].
      split; [reflexivity|]. split; [reflexivity|].
      split; [right; reflexivity|]. split; [discriminate|].
      split; [|exact Hused]. intros _.
      split; [discriminate|]. split; [|right; reflexivity].
      intros _. split; reflexivity.
Qed.

Lemma X9_budget_prompts_witness :
  exists total_money savings_goal per,
    (SAVINGS_CATEGORY, NonFinite.PosInf)
      :: map (fun cat => (cat, NonFinite.NaN)) CORE_CATEGORIES
    = (SAVINGS_CATEGORY, savings_goal)
        :: map (fun cat => (cat, per)) CORE_CATEGORIES
    /\ NonFinite.flt (NonFinite.Finite 0) total_money = true
    /\ NonFinite.fle savings_goal total_money = true
    /\ per = NonFinite.fdiv_pos (NonFinite.fsub total_money savings_goal) 5.
Proof.
  destruct (X9_budget_prompts
              [lit "-5"; lit "nan"; lit "inf"; lit "-1"; lit "inf"; lit "7"]
              [lit "7"]
              ((SAVINGS_CATEGORY, NonFinite.PosInf)
                 :: map (fun cat => (cat, NonFinite.NaN)) CORE_CATEGORIES))
    as (total & goal & per & H1 & _ & H3 & _ & H5 & H6 & _).
  - vm_compute. reflexivity.
  - exists total, goal, per.
    split; [exact H1|]. split; [exact H3|]. split; [exact H5 | exact H6].
Defined.

(** On finite amounts the allocator is the one of [calculate_budgets]. *)
Lemma calculate_budgets_finite (total_money savings_goal : Q) :
  NonFinite.calculate_budgets (NonFinite.Finite total_money)
    (NonFinite.Finite savings_goal)
  = map (fun kv => (fst kv, NonFinite.Finite (snd kv)))
      (calculate_budgets total_money savings_goal).
Proof.
  rewrite calculate_budgets_nonfinite, calculate_budgets_entries.
  change (NonFinite.flt
            (NonFinite.fsub (NonFinite.Finite total_money)
               (NonFinite.Finite savings_goal)) (NonFinite.Finite 0))
    with (Qltb (total_money - savings_goal) 0).
  destruct (Qltb (total_money - savings_goal) 0); reflexivity.
Qed.

(** The lines of [budget_setup]: an income of 1000 and a goal of 200 give
    160 to each core category. *)
Example budget_setup_nonfinite :
  NonFinite.get_total_money_and_calculate_budgets
    [lit "-5"; lit "abc"; lit "1000"; lit "2000"; lit "200"; lit "next"]
  = Some ((SAVINGS_CATEGORY, NonFinite.Finite (Qmake 200 1))
            :: map (fun cat => (cat, NonFinite.Finite (Qmake 800 5)))
                 CORE_CATEGORIES,
          [lit "next"]).
Proof. vm_compute. reflexivity. Qed.

(* ================================================================= *)
(** ** The floats that are not finite: [load_expenses] *)

(** A line of at least three fields whose amount [float()] reads is
    loaded without a warning. *)
Lemma load_line_nonfinite (clk : clock) (t : nat) (line : str)
    (n a c : str) (rest : list str) (x : NonFinite.pyfloat) :
  split (strip line) = n :: a :: c :: rest ->
  NonFinite.float a = Some x ->
  exists ts t',
    NonFinite.load_line clk t line
    = ([NonFinite.mkExpense n c x ts], [], t').
Proof.
  intros Hs Ha. unfold NonFinite.load_line.
  destruct (strip line) as [|h r] eqn:E; [discriminate Hs|].
  rewrite Hs, Ha. unfold NonFinite.Expense_init.
  destruct rest as [|[|c0 ts] rest']; eexists; eexists; reflexivity.
Qed.

(** A line whose amount [float()] refuses: nothing loaded, one warning. *)
Lemma load_line_refused (clk : clock) (t : nat) (line : str)
    (n a c : str) (rest : list str) :
  split (strip line) = n :: a :: c :: rest ->
  NonFinite.float a = None ->
  NonFinite.load_line clk t line
  = ([], [WarnMalformedAmount (strip line)], t).
Proof.
  intros Hs Ha. unfold NonFinite.load_line.
  destruct (strip line) as [|h r] eqn:E; [discriminate Hs|].
  rewrite Hs, Ha. reflexivity.
Qed.

(** C8: [float()] reads [nan] and [-inf], so that the lines
    [Lunch,nan,Food,...] and [Gift,-inf,Fun,...], whose amount field is not
    a decimal, are not skipped: each is loaded as a record, with the
    amount [nan] and [-inf], and no warning is printed.  A line is loaded
    as soon as [float()] reads its amount field, and skipped with the
    warning only when [float()] refuses it. *)
Theorem C8_nan_amount_is_loaded (clk : clock) (t : nat) :
  NonFinite.load_expenses
    (Some (lit "Lunch,nan,Food,2024-03-05 12:00:00" ++ [LF]
           ++ lit "Gift,-inf,Fun,2024-03-06 12:00:00" ++ [LF])) clk t
  = ([NonFinite.mkExpense (lit "Lunch") (lit "Food") NonFinite.NaN
        (lit "2024-03-05 12:00:00");
      NonFinite.mkExpense (lit "Gift") (lit "Fun") NonFinite.NegInf
        (lit "2024-03-06 12:00:00")],
     [], t)
  /\ (forall line n a c rest x,
        split (strip line) = n :: a :: c :: rest ->
        NonFinite.float a = Some x ->
        exists ts t',
          NonFinite.load_line clk t line
          = ([NonFinite.mkExpense n c x ts], [], t'))
  /\ (forall line n a c rest,
        split (strip line) = n :: a :: c :: rest ->
        NonFinite.float a = None ->
        NonFinite.load_line clk t line
        = ([], [WarnMalformedAmount (strip line)], t))
  /\ NonFinite.load_expenses
       (Some (lit "Lunch,150.00,Food,2024-03-05 12:00:00" ++ [LF]
              ++ lit "Rent,a lot,Home" ++ [LF]
              ++ lit "broken,12" ++ [LF])) clk t
     = ([NonFinite.mkExpense (lit "Lunch") (lit "Food")
           (NonFinite.Finite (Qmake 15000 100)) (lit "2024-03-05 12:00:00")],
        [WarnMalformedAmount (lit "Rent,a lot,Home");
         WarnTooFewFields (lit "broken,12")], t).
Proof.
  split; [reflexivity|].
  split; [apply load_line_nonfinite|].
  split; [apply load_line_refused|].
  reflexivity.
Qed.
